(** * GPT-4o vision fine-tuning notebook: a shallow embedding

    The notebook [gpt_4o_vision_fine_tuning.ipynb] is glue code around remote
    services.  This development embeds the cells that carry logic:

    - the helper [encode_image] (cell "Define helper functions"),
    - the metrics plot [show_ft_metrics] (same cell),
    - the dataset conversion loop that writes the JSONL splits,
    - the [tenacity] retry decorator on [query_image] and [evaluate],
    - the accuracy comparison cell.

    Python values are modelled as follows.  A [str] is its list of Unicode
    code points ([pystr]); [bytes] is a list of [Byte.byte]; a call that may
    raise returns an [outcome]; the remote service and the console are
    explicit state (a world value and a log).  The cells of a metrics table
    are 64-bit integers and doubles, the doubles being Rocq's primitive
    binary64 floats with NaN for a missing value, and smoothing is computed
    in float arithmetic as pandas computes it.  The two accuracy ratios, each
    a quotient of two small integers, are modelled by the exact rationals
    they round. *)

From Stdlib Require Import Floats.
From Stdlib Require Import Strings.Byte.
From Stdlib Require Import String Ascii List Bool Arith NArith ZArith QArith Qabs
  Lia Lqa DecimalString.
From Stdlib Require DecimalNat DecimalFacts.
Import ListNotations.

Set Implicit Arguments.
Local Open Scope nat_scope.

(* ================================================================== *)
(** * Part I: the model *)
(* ================================================================== *)

(** ** Python strings, exceptions and results *)

(** A Python [str]: the sequence of its code points. *)
Definition pystr := list N.

(** A string literal of the source, as a [pystr]. *)
Definition lit (s : string) : pystr :=
  map N_of_ascii (list_ascii_of_string s).

Definition pystr_eqb (a b : pystr) : bool :=
  if list_eq_dec N.eq_dec a b then true else false.

(** The exception classes the notebook can meet.  [KeyboardInterrupt]
    derives from [BaseException] only; the others derive from [Exception]. *)
Inductive exn_class : Type :=
| KeyError
| AttributeError
| ZeroDivisionError
| ValueError
| OSError
| NotImplementedError
| APIError
| UnicodeDecodeError
| KeyboardInterrupt.

(** An exception object.  [RetryError] is tenacity's wrapper: it records the
    number of the last attempt and the exception that attempt raised
    ([last_attempt], also set as [__cause__]). *)
Inductive exn : Type :=
| PyExn (cls : exn_class) (msg : string)
| RetryError (attempt_number : nat) (last : exn).

(** [isinstance(e, Exception)]. *)
Definition is_Exception (e : exn) : bool :=
  match e with
  | PyExn KeyboardInterrupt _ => false
  | PyExn _ _ => true
  | RetryError _ _ => true
  end.

(** [isinstance(e, KeyError)]. *)
Definition is_KeyError (e : exn) : bool :=
  match e with
  | PyExn KeyError _ => true
  | _ => false
  end.

(** The result of evaluating a Python expression or call. *)
Inductive outcome (A : Type) : Type :=
| Returned (a : A)
| Raised (e : exn).

Arguments Returned {A} a.
Arguments Raised {A} e.

Definition bind {A B : Type} (c : outcome A) (k : A -> outcome B) : outcome B :=
  match c with
  | Returned a => k a
  | Raised e => Raised e
  end.

Notation "x <- c ;; k" := (bind c (fun x => k))
  (at level 61, c at next level, right associativity).

(** ** The retry decorator

    [@retry(stop=stop_after_attempt(3), wait=wait_fixed(10))] from tenacity.
    The decorator's other arguments keep their defaults:
    [retry=retry_if_exception_type()] (retry on any [Exception]) and
    [reraise=False]. *)

Record retry_config : Type := {
  stop_after_attempt : nat;
  wait_fixed : nat;
  reraise : bool
}.

Definition notebook_retry : retry_config :=
  {| stop_after_attempt := 3; wait_fixed := 10; reraise := false |}.

(** What an observer of one decorated call sees: each invocation of the
    wrapped function, and each [time.sleep]. *)
Inductive event : Type :=
| Attempt (attempt_number : nat)
| Sleep (seconds : nat).

Section Retrying.
(** [W] is the state of everything outside the notebook (the remote
    service); a wrapped function reads and updates it. *)
Variables (W A : Type).
Variable cfg : retry_config.
Variable fn : W -> outcome A * W.

(** [Retrying.__call__]: the [while True] loop over [self.iter].  One
    unit of fuel is one turn of the loop that calls [fn]; [None] is "fuel
    exhausted", never a Python result.

    After an attempt: a returned value is returned; an exception that the
    retry predicate rejects is re-raised by [fut.result()]; otherwise, if
    [stop] holds ([attempt_number >= max_attempt_number]) the loop raises
    [RetryError(fut)] (or the exception itself under [reraise=True]);
    otherwise it sleeps [wait] seconds and tries again. *)
Fixpoint retrying (fuel : nat) (attempt_number : nat) (w : W)
    (trace : list event) : option (outcome A * W * list event) :=
  match fuel with
  | O => None
  | S fuel' =>
      let '(res, w') := fn w in
      let trace' := trace ++ [Attempt attempt_number] in
      match res with
      | Returned a => Some (Returned a, w', trace')
      | Raised e =>
          if negb (is_Exception e) then Some (Raised e, w', trace')
          else if stop_after_attempt cfg <=? attempt_number then
            Some (Raised (if reraise cfg then e
                          else RetryError attempt_number e), w', trace')
          else
            retrying fuel' (S attempt_number) w'
                     (trace' ++ [Sleep (wait_fixed cfg)])
      end
  end.

(** A call of the decorated function: attempt numbers start at 1. *)
Definition retry_call (fuel : nat) (w : W) :
    option (outcome A * W * list event) :=
  retrying fuel 1 w [].
End Retrying.

(** The number of invocations of the wrapped function in a trace. *)
Definition calls (trace : list event) : nat :=
  length (filter (fun ev => match ev with Attempt _ => true | Sleep _ => false end)
                 trace).

(** The sleeps of a trace, in order. *)
Definition sleeps (trace : list event) : list nat :=
  flat_map (fun ev => match ev with Attempt _ => [] | Sleep s => [s] end) trace.

(** ** The accuracy comparison cell *)

(** [Series.value_counts()]: the distinct non-null values with their
    number of occurrences (pandas drops nulls by default). *)
Fixpoint bump (key : pystr) (table : list (pystr * Z)) : list (pystr * Z) :=
  match table with
  | [] => [(key, 1%Z)]
  | (k, n) :: rest =>
      if pystr_eqb k key then (k, (n + 1)%Z) :: rest
      else (k, n) :: bump key rest
  end.

Fixpoint value_counts (col : list (option pystr)) : list (pystr * Z) :=
  match col with
  | [] => []
  | None :: rest => value_counts rest
  | Some v :: rest => bump v (value_counts rest)
  end.

(** [Series.get(key, default)]. *)
Fixpoint series_get (table : list (pystr * Z)) (key : pystr) (default : Z) : Z :=
  match table with
  | [] => default
  | (k, n) :: rest => if pystr_eqb k key then n else series_get rest key default
  end.

(** Python's [a / b] on integers.  The float result is modelled by the
    rational it rounds. *)
Definition truediv (a b : Z) : outcome Q :=
  if (b =? 0)%Z then Raised (PyExn ZeroDivisionError "division by zero")
  else Returned (inject_Z a / inject_Z b)%Q.

(** A row of [ds_test_eval] as the cell reads it: the two judge verdicts
    (the [message.content] of the judge's reply, which may be [None]). *)
Record eval_row : Type := {
  gpt_4o_base_eval : option pystr;
  gpt_4o_ft_eval : option pystr
}.

Definition CORRECT : pystr := lit "CORRECT".

Definition correct_count (col : list (option pystr)) : Z :=
  series_get (value_counts col) CORRECT 0%Z.

(** The [chart_data] dictionary's two accuracy entries, in evaluation
    order. *)
Definition chart_accuracies (ds_test_eval : list eval_row) : outcome (Q * Q) :=
  let base_correct_count := correct_count (map gpt_4o_base_eval ds_test_eval) in
  let base_eval_observations := Z.of_nat (length ds_test_eval) in
  let ft_correct_count := correct_count (map gpt_4o_ft_eval ds_test_eval) in
  let ft_eval_observations := Z.of_nat (length ds_test_eval) in
  baseline <- truediv base_correct_count base_eval_observations ;;
  fine_tuned <- truediv ft_correct_count ft_eval_observations ;;
  Returned (baseline, fine_tuned).

(** The number of rows of a column whose verdict is exactly the label
    [CORRECT]. *)
Definition count_label (col : list (option pystr)) : nat :=
  length (filter (fun v => match v with
                           | Some s => pystr_eqb s CORRECT
                           | None => false
                           end) col).

(** ** Metrics tables and [show_ft_metrics] *)

(** A numeric column of a pandas frame, under its dtype.  A float64 cell
    holds a double; NaN stands for a missing value (an empty CSV field). *)
Inductive column : Type :=
| Int64 (values : list Z)
| Float64 (values : list float).

(** A frame: its columns by name, in column order.  Every column of a
    frame has the same number of rows. *)
Definition Frame (C : Type) := list (string * C).

(** A [DataFrame] of numeric columns. *)
Definition DataFrame := Frame column.

(** [df[name]]: the first column of that name, or [KeyError]. *)
Fixpoint getitem (C : Type) (df : Frame C) (name : string) : outcome C :=
  match df with
  | [] => Raised (PyExn KeyError name)
  | (n, col) :: rest => if String.eqb n name then Returned col else getitem rest name
  end.

(** [len(col)] *)
Definition len (col : column) : nat :=
  match col with
  | Int64 values => length values
  | Float64 values => length values
  end.

(** The entries of a list that a boolean mask selects. *)
Fixpoint select (A : Type) (mask : list bool) (col : list A) : list A :=
  match mask, col with
  | b :: mask', v :: col' => if b then v :: select mask' col' else select mask' col'
  | _, _ => []
  end.

(** The rows of a column that a boolean mask selects. *)
Definition take (mask : list bool) (col : column) : column :=
  match col with
  | Int64 values => Int64 (select mask values)
  | Float64 values => Float64 (select mask values)
  end.

(** [df.loc[mask]]: the same columns, restricted to the selected rows. *)
Definition loc (df : DataFrame) (mask : list bool) : DataFrame :=
  map (fun nc => (fst nc, take mask (snd nc))) df.

(** [col.notna()]: a float is missing when it is NaN, the one double that
    differs from itself; an integer never is. *)
Definition notna (col : column) : list bool :=
  match col with
  | Int64 values => map (fun _ => true) values
  | Float64 values => map (fun v => (v =? v)%float) values
  end.

(** [df.dropna(subset=[name])]. *)
Definition dropna (df : DataFrame) (name : string) : outcome DataFrame :=
  col <- getitem df name ;;
  Returned (loc df (notna col)).

(** The double nearest to an integer (ties to even). *)
Definition float_of_Z (z : Z) : float :=
  SF2Prim (binary_normalize prec emax z 0 false).

(** [ensure_float64]: the column as doubles. *)
Definition ensure_float64 (col : column) : list float :=
  match col with
  | Int64 values => map float_of_Z values
  | Float64 values => values
  end.

(** [col != x] for a float [x]: an int64 column is compared as float64, and
    NaN differs from every number. *)
Definition ne (col : column) (x : float) : list bool :=
  map (fun v => negb (v =? x)%float) (ensure_float64 col).

(** *** Rolling means

    [Series.rolling(window=w).mean()] with the default fixed-window
    indexer and the default [min_periods] (the window size).  pandas first
    turns the column into doubles and every infinity into NaN
    ([_prep_values]).  Its [roll_mean] then keeps, for the current window,
    the count [nobs] of the values that are not NaN, how many of them are
    negative, and their sum [sum_x] with two Kahan compensation terms,
    updated from one row to the next by removing the values that left the
    window and adding those that entered; it also remembers the last value
    added and how many times in a row it was added. *)

Definition prep_values (col : column) : list float :=
  map (fun v => if is_infinity v then nan else v) (ensure_float64 col).

Record mean_state : Type := {
  nobs : Z;
  neg_ct : Z;
  sum_x : float;
  compensation_add : float;
  compensation_remove : float;
  num_consecutive_same_value : Z;
  prev_value : float
}.

(** [add_mean]: Kahan summation of one more value.  [get_sign] is C's
    [signbit] on a double that is not NaN. *)
Definition add_mean (val : float) (st : mean_state) : mean_state :=
  if (val =? val)%float then
    let y := (val - compensation_add st)%float in
    let t := (sum_x st + y)%float in
    {| nobs := nobs st + 1;
       neg_ct := if get_sign val then neg_ct st + 1 else neg_ct st;
       sum_x := t;
       compensation_add := (t - sum_x st - y)%float;
       compensation_remove := compensation_remove st;
       num_consecutive_same_value :=
         if (val =? prev_value st)%float
         then num_consecutive_same_value st + 1
         else 1;
       prev_value := val |}
  else st.

(** [remove_mean]: Kahan summation of the opposite of a value. *)
Definition remove_mean (val : float) (st : mean_state) : mean_state :=
  if (val =? val)%float then
    let y := (- val - compensation_remove st)%float in
    let t := (sum_x st + y)%float in
    {| nobs := nobs st - 1;
       neg_ct := if get_sign val then neg_ct st - 1 else neg_ct st;
       sum_x := t;
       compensation_add := compensation_add st;
       compensation_remove := (t - sum_x st - y)%float;
       num_consecutive_same_value := num_consecutive_same_value st;
       prev_value := prev_value st |}
  else st.

Section Rolling.
(** One behaviour of [calc_mean] depends on the pandas that runs the
    notebook: since pandas 1.5 a window that repeats one value yields that
    value (GH 42064); before, such a window yields the quotient like any
    other.  [repeats_exact] says which. *)
Variable repeats_exact : bool.

(** [calc_mean]: the quotient of the running sum by the count, replaced by
    the last value when the whole window repeats it, and by zero when its
    sign contradicts the signs of the values. *)
Definition calc_mean (minp : Z) (st : mean_state) : float :=
  if ((minp <=? nobs st) && (0 <? nobs st))%Z then
    let result := (sum_x st / float_of_Z (nobs st))%float in
    if repeats_exact && (nobs st <=? num_consecutive_same_value st)%Z
    then prev_value st
    else if (neg_ct st =? 0)%Z && (result <? 0)%float then 0%float
    else if (neg_ct st =? nobs st)%Z && (0 <? result)%float then 0%float
    else result
  else nan.

(** The bounds of the window of row [i] ([FixedWindowIndexer]): rows
    [window_start w i] up to, not including, [window_end w i], clipped at
    0.  A window of size 0 is empty and ends before its row. *)
Definition window_end (w i : nat) : nat := if w =? 0 then i else i + 1.
Definition window_start (w i : nat) : nat := window_end w i - w.

(** The state before the first value of a window is added. *)
Definition fresh (prev : float) : mean_state :=
  {| nobs := 0; neg_ct := 0; sum_x := 0;
     compensation_add := 0; compensation_remove := 0;
     num_consecutive_same_value := 0; prev_value := prev |}.

(** [for j in range(lo, hi): f(values[j], state)]. *)
Definition over_range (f : float -> mean_state -> mean_state)
    (values : list float) (lo hi : nat) (st : mean_state) : mean_state :=
  fold_left (fun st j => f (nth j values nan) st) (seq lo (hi - lo)) st.

(** The body of the loop of [roll_mean] at row [i], up to the new state.
    The bounds of a fixed window never decrease, so a row starts afresh
    only when its window does not overlap the one before. *)
Definition advance (values : list float) (w i : nat) (st : mean_state) :
    mean_state :=
  let s := window_start w i in
  let e := window_end w i in
  if (i =? 0) || (window_end w (i - 1) <=? s)
  then over_range add_mean values s e (fresh (nth s values nan))
  else over_range add_mean values (window_end w (i - 1)) e
         (over_range remove_mean values (window_start w (i - 1)) s st).

(** The loop of [roll_mean] from row [i] on, for [todo] more rows. *)
Fixpoint roll_mean_rows (values : list float) (w : nat) (minp : Z)
    (i todo : nat) (st : mean_state) : list float :=
  match todo with
  | O => []
  | S todo' =>
      let st' := advance values w i st in
      calc_mean minp st' :: roll_mean_rows values w minp (S i) todo' st'
  end.

(** [roll_mean(values, start, end, minp)] with [minp = max(w, 1)]. *)
Definition roll_mean (values : list float) (w : nat) : list float :=
  roll_mean_rows values w (Z.max (Z.of_nat w) 1) 0 (length values) (fresh 0).

(** [df.rolling(window=window_size).mean()]: every column smoothed; a
    negative window is rejected. *)
Definition rolling_mean (df : DataFrame) (window_size : Z) :
    outcome (Frame (list float)) :=
  if (window_size <? 0)%Z
  then Raised (PyExn ValueError "window must be an integer 0 or greater")
  else Returned (map (fun nc => (fst nc,
                                 roll_mean (prep_values (snd nc))
                                           (Z.to_nat window_size))) df).

(** One [plt.plot(x, y)] call under a subplot title. *)
Record curve : Type := {
  title : string;
  xs : list float;
  ys : list float
}.

(** [show_ft_metrics(results_df, window_size)]: the four curves it hands to
    matplotlib, in order. *)
Definition show_ft_metrics (results_df : DataFrame) (window_size : Z) :
    outcome (list curve) :=
  filtered_df <- dropna results_df "valid_loss" ;;
  valid_loss <- getitem filtered_df "valid_loss" ;;
  let filtered_df := loc filtered_df (ne valid_loss (-1)) in
  results_df_smooth <- rolling_mean results_df window_size ;;
  filtered_df_smooth <- rolling_mean filtered_df window_size ;;
  x1 <- getitem results_df_smooth "step" ;;
  y1 <- getitem results_df_smooth "train_loss" ;;
  x2 <- getitem results_df_smooth "step" ;;
  y2 <- getitem results_df_smooth "train_mean_token_accuracy" ;;
  x3 <- getitem filtered_df_smooth "step" ;;
  y3 <- getitem filtered_df_smooth "valid_loss" ;;
  x4 <- getitem filtered_df_smooth "step" ;;
  y4 <- getitem filtered_df_smooth "valid_mean_token_accuracy" ;;
  Returned [ {| title := "Train Loss"; xs := x1; ys := y1 |};
             {| title := "Train Mean Token Accuracy"; xs := x2; ys := y2 |};
             {| title := "Validation Loss"; xs := x3; ys := y3 |};
             {| title := "Validation Mean Token Accuracy"; xs := x4; ys := y4 |} ].

End Rolling.

(** *** What a rolling mean should be *)

(** A double that is not NaN. *)
Definition present (v : float) : bool := (v =? v)%float.

(** [values[lo:hi]], read by index as the loops do. *)
Definition range (values : list float) (lo hi : nat) : list float :=
  map (fun j => nth j values nan) (seq lo (hi - lo)).

(** The number of values of a list that are not NaN: what [nobs] should
    hold for a window. *)
Definition present_count (l : list float) : Z :=
  Z.of_nat (length (filter present l)).

(** The window of row [i]. *)
Definition window (values : list float) (w i : nat) : list float :=
  range values (window_start w i) (window_end w i).

(** What the running state knows after row [i]: the number of values of
    the window that are not NaN, and, when the last [m] rows of the window
    hold one number, that number and a count of at least [m]. *)
Definition tracks (values : list float) (w i : nat) (st : mean_state) : Prop :=
  nobs st = present_count (window values w i) /\
  (0 <= num_consecutive_same_value st)%Z /\
  forall (m : nat) (v : float),
    1 <= m -> m <= w -> m <= i + 1 ->
    (forall j, i + 1 - m <= j -> j <= i -> nth j values nan = v) ->
    present v = true ->
    prev_value st = v /\ (Z.of_nat m <= num_consecutive_same_value st)%Z.




(** The mean as float arithmetic computes it from left to right:
    [sum(win) / len(win)]. *)
Definition float_mean (win : list float) : float :=
  (fold_left add win 0 / float_of_Z (Z.of_nat (length win)))%float.


(** The column names [show_ft_metrics] reads. *)
Definition plotted_columns : list string :=
  ["step"; "train_loss"; "train_mean_token_accuracy";
   "valid_loss"; "valid_mean_token_accuracy"]%string.

(** The rows that take part in the validation curves: those whose
    [valid_loss] is a number other than -1.0. *)
Definition usable (valid_loss : column) : list bool :=
  match valid_loss with
  | Int64 values => map (fun z => negb (float_of_Z z =? -1)%float) values
  | Float64 values =>
      map (fun v => (v =? v)%float && negb (v =? -1)%float) values
  end.

(** The entries of [col] on the usable rows, read row by row. *)
Definition validation_rows (valid_loss : column) (col : list float) :
    list float :=
  map snd (filter fst (combine (usable valid_loss) col)).

(** The four curves over given columns, smoothed with window [w]. *)
Definition curves_of (repeats_exact : bool) (w : nat)
    (step train_loss train_acc valid_loss valid_acc : column) : list curve :=
  let smooth col := roll_mean repeats_exact (prep_values col) w in
  let kept col := Float64 (validation_rows valid_loss (ensure_float64 col)) in
  [ {| title := "Train Loss";
       xs := smooth step; ys := smooth train_loss |};
    {| title := "Train Mean Token Accuracy";
       xs := smooth step; ys := smooth train_acc |};
    {| title := "Validation Loss";
       xs := smooth (kept step); ys := smooth (kept valid_loss) |};
    {| title := "Validation Mean Token Accuracy";
       xs := smooth (kept step); ys := smooth (kept valid_acc) |} ].

(** ** [encode_image] *)

(** *** [base64.b64encode]

    The standard alphabet with [=] padding, three bytes at a time. *)

Definition b64_alphabet : list byte :=
  list_byte_of_string
    "ABCDEFGHIJKLMNOPQRSTUVWXYZabcdefghijklmnopqrstuvwxyz0123456789+/".

(** The byte [=]. *)
Definition b64_pad : byte := x3d.

(** The character of a six-bit group. *)
Definition b64_char (sextet : N) : byte :=
  nth (N.to_nat sextet) b64_alphabet b64_pad.

Definition sextet1 (a : N) : N := N.shiftr a 2.
Definition sextet2 (a b : N) : N :=
  N.lor (N.shiftl (N.land a 3) 4) (N.shiftr b 4).
Definition sextet3 (b c : N) : N :=
  N.lor (N.shiftl (N.land b 15) 2) (N.shiftr c 6).
Definition sextet4 (c : N) : N := N.land c 63.

Fixpoint b64encode (data : list byte) : list byte :=
  match data with
  | [] => []
  | [a] =>
      let a := Byte.to_N a in
      [b64_char (sextet1 a); b64_char (sextet2 a 0); b64_pad; b64_pad]
  | [a; b] =>
      let a := Byte.to_N a in
      let b := Byte.to_N b in
      [b64_char (sextet1 a); b64_char (sextet2 a b);
       b64_char (sextet3 b 0); b64_pad]
  | a :: b :: c :: rest =>
      let a := Byte.to_N a in
      let b := Byte.to_N b in
      let c := Byte.to_N c in
      b64_char (sextet1 a) :: b64_char (sextet2 a b)
        :: b64_char (sextet3 b c) :: b64_char (sextet4 c)
        :: b64encode rest
  end.

(** *** [bytes.decode("utf-8")] *)

Definition utf8_error : exn :=
  PyExn UnicodeDecodeError "'utf-8' codec can't decode byte".

Definition in_range (lo hi x : N) : bool := (lo <=? x)%N && (x <=? hi)%N.

(** The value bits of a continuation byte within [[lo, hi]]. *)
Definition continuation (lo hi : N) (b : byte) : option N :=
  let x := Byte.to_N b in
  if in_range lo hi x then Some (N.land x 63) else None.

Fixpoint utf8_decode (data : list byte) : outcome pystr :=
  match data with
  | [] => Returned []
  | b0 :: rest =>
      let x := Byte.to_N b0 in
      if (x <? 128)%N then
        s <- utf8_decode rest ;; Returned (x :: s)
      else if in_range 194 223 x then
        match rest with
        | b1 :: rest1 =>
            match continuation 128 191 b1 with
            | Some y =>
                s <- utf8_decode rest1 ;;
                Returned (N.lor (N.shiftl (N.land x 31) 6) y :: s)
            | None => Raised utf8_error
            end
        | _ => Raised utf8_error
        end
      else if in_range 224 239 x then
        match rest with
        | b1 :: b2 :: rest2 =>
            let lo := if (x =? 224)%N then 160%N else 128%N in
            let hi := if (x =? 237)%N then 159%N else 191%N in
            match continuation lo hi b1, continuation 128 191 b2 with
            | Some y, Some z =>
                s <- utf8_decode rest2 ;;
                Returned (N.lor (N.shiftl (N.land x 15) 12)
                                (N.lor (N.shiftl y 6) z) :: s)
            | _, _ => Raised utf8_error
            end
        | _ => Raised utf8_error
        end
      else if in_range 240 244 x then
        match rest with
        | b1 :: b2 :: b3 :: rest3 =>
            let lo := if (x =? 240)%N then 144%N else 128%N in
            let hi := if (x =? 244)%N then 143%N else 191%N in
            match continuation lo hi b1, continuation 128 191 b2,
                  continuation 128 191 b3 with
            | Some y, Some z, Some t =>
                s <- utf8_decode rest3 ;;
                Returned (N.lor (N.shiftl (N.land x 7) 18)
                                (N.lor (N.shiftl y 12)
                                       (N.lor (N.shiftl z 6) t)) :: s)
            | _, _, _ => Raised utf8_error
            end
        | _ => Raised utf8_error
        end
      else Raised utf8_error
  end.

(** *** Images

    The Pillow operations [encode_image] calls.  [Image.open] is lazy, so
    both [convert] and [save] may raise (a truncated file, a mode that JPEG
    cannot hold). *)
Class Imaging : Type := {
  image : Type;
  (** [image.mode] *)
  mode : image -> string;
  (** [image.convert(mode)] *)
  convert : image -> string -> outcome image;
  (** [image.save(buffered, format="JPEG", quality=quality)] followed by
      [buffered.getvalue()] on the fresh buffer *)
  save_jpeg : image -> Z -> outcome (list byte)
}.

(** [encode_image(image, quality)] *)
Definition encode_image `{Imaging} (img : image) (quality : Z) : outcome pystr :=
  img <- (if negb (String.eqb (mode img) "RGB")
          then convert img "RGB"
          else Returned img) ;;
  jpeg <- save_jpeg img quality ;;
  utf8_decode (b64encode jpeg).

(** *** Reading base64 back

    A strict RFC 4648 decoder: groups of four alphabet characters, padding
    only in the last group.  Whatever it accepts, Python's
    [base64.b64decode] accepts with the same result. *)

Fixpoint index_of (c : N) (alphabet : list byte) (i : N) : option N :=
  match alphabet with
  | [] => None
  | a :: rest => if (Byte.to_N a =? c)%N then Some i else index_of c rest (i + 1)%N
  end.

Definition b64_index (c : N) : option N := index_of c b64_alphabet 0%N.

Definition octet1 (s1 s2 : N) : N := N.lor (N.shiftl s1 2) (N.shiftr s2 4).
Definition octet2 (s2 s3 : N) : N :=
  N.lor (N.shiftl (N.land s2 15) 4) (N.shiftr s3 2).
Definition octet3 (s3 s4 : N) : N := N.lor (N.shiftl (N.land s3 3) 6) s4.

(** The bytes of a list of numbers, if all are below 256. *)
Fixpoint bytes_of (xs : list N) : option (list byte) :=
  match xs with
  | [] => Some []
  | x :: rest =>
      match Byte.of_N x, bytes_of rest with
      | Some b, Some bs => Some (b :: bs)
      | _, _ => None
      end
  end.

Definition is_pad (c : N) : bool := (c =? 61)%N.

Fixpoint b64decode (s : pystr) : option (list byte) :=
  match s with
  | [] => Some []
  | c1 :: c2 :: c3 :: c4 :: rest =>
      match b64_index c1, b64_index c2 with
      | Some s1, Some s2 =>
          if is_pad c3 then
            match rest with
            | [] => if is_pad c4 then bytes_of [octet1 s1 s2] else None
            | _ => None
            end
          else
            match b64_index c3 with
            | Some s3 =>
                if is_pad c4 then
                  match rest with
                  | [] => bytes_of [octet1 s1 s2; octet2 s2 s3]
                  | _ => None
                  end
                else
                  match b64_index c4, b64decode rest with
                  | Some s4, Some tail =>
                      match bytes_of [octet1 s1 s2; octet2 s2 s3; octet3 s3 s4] with
                      | Some group => Some (group ++ tail)
                      | None => None
                      end
                  | _, _ => None
                  end
            | None => None
            end
      | _, _ => None
      end
  | _ => None
  end.

(** A character of the base64 alphabet, or the padding character. *)
Definition is_b64_char (c : N) : bool :=
  match b64_index c with Some _ => true | None => is_pad c end.

(** Every byte, in order; used to check byte-level facts exhaustively. *)
Definition all_bytes : list byte :=
  map (fun n => match Byte.of_nat n with Some b => b | None => x00 end)
      (seq 0 256).

(** The numbers below [n], in order. *)
Definition below (n : nat) : list N := map N.of_nat (seq 0 n).

(** ** JSON: [json.dump] and [json.loads]

    The values the notebook serialises are strings, lists and dictionaries
    (in insertion order). *)

#[local] Unset Elimination Schemes.
Inductive json : Type :=
| JString (s : pystr)
| JList (items : list json)
| JDict (fields : list (pystr * json)).
#[local] Set Elimination Schemes.

(** The lower-case hexadecimal digit of a number below 16. *)
Definition hex_digit (d : N) : N :=
  if (d <? 10)%N then (48 + d)%N else (87 + d)%N.

(** ['{0:04x}'.format(n)] for [n] below [0x10000]. *)
Definition hex4 (n : N) : pystr :=
  [ hex_digit (N.land (N.shiftr n 12) 15); hex_digit (N.land (N.shiftr n 8) 15);
    hex_digit (N.land (N.shiftr n 4) 15); hex_digit (N.land n 15) ].

(** The replacement of one character in [py_encode_basestring_ascii]
    ([ensure_ascii=True], the default of [json.dump]): backslash and quote
    are escaped, printable ASCII stands for itself, the control characters
    of [ESCAPE_DCT] get their short escapes, and everything else becomes
    [\uXXXX], as a surrogate pair beyond the basic plane. *)
Definition escape_char (c : N) : pystr :=
  if (c =? 92)%N then [92; 92]%N
  else if (c =? 34)%N then [92; 34]%N
  else if in_range 32 126 c then [c]
  else if (c =? 8)%N then [92; 98]%N
  else if (c =? 12)%N then [92; 102]%N
  else if (c =? 10)%N then [92; 110]%N
  else if (c =? 13)%N then [92; 114]%N
  else if (c =? 9)%N then [92; 116]%N
  else if (c <? 0x10000)%N then 92%N :: 117%N :: hex4 c
  else
    let n := (c - 0x10000)%N in
    let s1 := N.lor 0xd800 (N.land (N.shiftr n 10) 0x3ff) in
    let s2 := N.lor 0xdc00 (N.land n 0x3ff) in
    (92%N :: 117%N :: hex4 s1) ++ (92%N :: 117%N :: hex4 s2).

Definition encode_basestring_ascii (s : pystr) : pystr :=
  34%N :: flat_map escape_char s ++ [34%N].

(** [sep.join(parts)] *)
Fixpoint join (sep : pystr) (parts : list pystr) : pystr :=
  match parts with
  | [] => []
  | [p] => p
  | p :: rest => p ++ sep ++ join sep rest
  end.

(** [json.dumps(v)] with the default separators; [json.dump(v, f)] writes
    the same text to [f]. *)
Fixpoint dumps (v : json) : pystr :=
  match v with
  | JString s => encode_basestring_ascii s
  | JList items => lit "[" ++ join (lit ", ") (map dumps items) ++ lit "]"
  | JDict fields =>
      lit "{"
      ++ join (lit ", ")
              (map (fun kv => encode_basestring_ascii (fst kv) ++ lit ": "
                              ++ dumps (snd kv)) fields)
      ++ lit "}"
  end.

(** *** Reading JSON back: [json.loads]

    The decoder of the [json] module on the value forms above.  [None]
    stands for [JSONDecodeError] and for the forms the notebook never
    writes (numbers, [true], [false], [null]). *)

Definition is_ws (c : N) : bool :=
  (c =? 32)%N || (c =? 9)%N || (c =? 10)%N || (c =? 13)%N.

Fixpoint skip_ws (s : pystr) : pystr :=
  match s with
  | c :: r => if is_ws c then skip_ws r else s
  | [] => []
  end.

Definition hex_value (c : N) : option N :=
  if in_range 48 57 c then Some (c - 48)%N
  else if in_range 97 102 c then Some (c - 87)%N
  else if in_range 65 70 c then Some (c - 55)%N
  else None.

(** [_decode_uXXXX] on four hexadecimal digits. *)
Definition decode_uXXXX (h1 h2 h3 h4 : N) : option N :=
  match hex_value h1, hex_value h2, hex_value h3, hex_value h4 with
  | Some a, Some b, Some c, Some d => Some (((a * 16 + b) * 16 + c) * 16 + d)%N
  | _, _, _, _ => None
  end.

(** The [BACKSLASH] table of the decoder. *)
Definition unescape (c : N) : option N :=
  if (c =? 34)%N then Some 34%N
  else if (c =? 92)%N then Some 92%N
  else if (c =? 47)%N then Some 47%N
  else if (c =? 98)%N then Some 8%N
  else if (c =? 102)%N then Some 12%N
  else if (c =? 110)%N then Some 10%N
  else if (c =? 114)%N then Some 13%N
  else if (c =? 116)%N then Some 9%N
  else None.

Definition prepend (c : N) (r : pystr * pystr) : pystr * pystr :=
  (c :: fst r, snd r).

(** [py_scanstring] from just after the opening quote: the decoded string
    and the text after the closing quote. *)
Fixpoint scanstring (s : pystr) : option (pystr * pystr) :=
  match s with
  | [] => None
  | c :: r =>
      if (c =? 34)%N then Some ([], r)
      else if (c =? 92)%N then
        match r with
        | [] => None
        | esc :: r1 =>
            if (esc =? 117)%N then
              match r1 with
              | h1 :: h2 :: h3 :: h4 :: r2 =>
                  match decode_uXXXX h1 h2 h3 h4 with
                  | None => None
                  | Some uni =>
                      let plain := option_map (prepend uni) (scanstring r2) in
                      if in_range 0xd800 0xdbff uni then
                        match r2 with
                        | b :: u :: r3 =>
                            if (b =? 92)%N && (u =? 117)%N then
                              match r3 with
                              | g1 :: g2 :: g3 :: g4 :: r4 =>
                                  match decode_uXXXX g1 g2 g3 g4 with
                                  | None => None
                                  | Some uni2 =>
                                      if in_range 0xdc00 0xdfff uni2 then
                                        option_map
                                          (prepend
                                             (0x10000
                                              + N.lor (N.shiftl (uni - 0xd800) 10)
                                                      (uni2 - 0xdc00))%N)
                                          (scanstring r4)
                                      else plain
                                  end
                              | _ => None
                              end
                            else plain
                        | _ => plain
                        end
                      else plain
                  end
              | _ => None
              end
            else
              match unescape esc with
              | Some ch => option_map (prepend ch) (scanstring r1)
              | None => None
              end
        end
      else if (c <? 32)%N then None
      else option_map (prepend c) (scanstring r)
  end.

(** [dict(pairs)]: a later pair with a key already present replaces the
    value and keeps the key's position. *)
Fixpoint dict_set (d : list (pystr * json)) (k : pystr) (v : json) :
    list (pystr * json) :=
  match d with
  | [] => [(k, v)]
  | (k', v') :: rest =>
      if pystr_eqb k' k then (k', v) :: rest else (k', v') :: dict_set rest k v
  end.

Definition dict_of_pairs (pairs : list (pystr * json)) : list (pystr * json) :=
  fold_left (fun d kv => dict_set d (fst kv) (snd kv)) pairs [].

(** [scan_once], [JSONArray] and [JSONObject].  One unit of fuel is one
    nested value or one element of a list or dictionary. *)
Fixpoint parse_value (fuel : nat) (s : pystr) : option (json * pystr) :=
  match fuel with
  | O => None
  | S fuel =>
      match s with
      | [] => None
      | c :: r =>
          if (c =? 34)%N then
            option_map (fun sr => (JString (fst sr), snd sr)) (scanstring r)
          else if (c =? 91)%N then
            match skip_ws r with
            | [] => None
            | c' :: r' =>
                if (c' =? 93)%N then Some (JList [], r')
                else option_map (fun ir => (JList (fst ir), snd ir))
                                (parse_items fuel (c' :: r'))
            end
          else if (c =? 123)%N then
            match skip_ws r with
            | [] => None
            | c' :: r' =>
                if (c' =? 125)%N then Some (JDict [], r')
                else option_map
                       (fun pr => (JDict (dict_of_pairs (fst pr)), snd pr))
                       (parse_members fuel (c' :: r'))
            end
          else None
      end
  end
with parse_items (fuel : nat) (s : pystr) : option (list json * pystr) :=
  match fuel with
  | O => None
  | S fuel =>
      match parse_value fuel s with
      | None => None
      | Some (v, r) =>
          match skip_ws r with
          | [] => None
          | c :: r' =>
              if (c =? 93)%N then Some ([v], r')
              else if (c =? 44)%N then
                match parse_items fuel (skip_ws r') with
                | Some (vs, r'') => Some (v :: vs, r'')
                | None => None
                end
              else None
          end
      end
  end
with parse_members (fuel : nat) (s : pystr) :
    option (list (pystr * json) * pystr) :=
  match fuel with
  | O => None
  | S fuel =>
      match s with
      | [] => None
      | c :: r =>
          if (c =? 34)%N then
            match scanstring r with
            | None => None
            | Some (key, r1) =>
                match skip_ws r1 with
                | [] => None
                | c1 :: r2 =>
                    if (c1 =? 58)%N then
                      match parse_value fuel (skip_ws r2) with
                      | None => None
                      | Some (v, r3) =>
                          match skip_ws r3 with
                          | [] => None
                          | c3 :: r4 =>
                              if (c3 =? 125)%N then Some ([(key, v)], r4)
                              else if (c3 =? 44)%N then
                                match parse_members fuel (skip_ws r4) with
                                | Some (kvs, r5) => Some ((key, v) :: kvs, r5)
                                | None => None
                                end
                              else None
                          end
                      end
                    else None
                end
            end
          else None
      end
  end.

(** [json.loads(s)]: one value, with nothing but whitespace around it. *)
Definition loads (s : pystr) : option json :=
  match parse_value (S (length s)) (skip_ws s) with
  | Some (v, r) => match skip_ws r with [] => Some v | _ :: _ => None end
  | None => None
  end.

(** ** The dataset conversion cell *)

(** The system prompt of the dataset cell, a four-line string. *)
Definition SYSTEM_PROMPT : pystr :=
  lit "You are a Vision Language Model specialized in interpreting visual data from chart images."
  ++ [10%N] ++
  lit "Your task is to analyze the provided chart image and respond to queries with concise answers, usually a single word, number, or short phrase."
  ++ [10%N] ++
  lit "The charts include a variety of types (e.g., line charts, bar charts) and contain colors, labels, and text."
  ++ [10%N] ++
  lit "Focus on delivering accurate, succinct answers based on the visual information. Avoid additional explanation unless absolutely necessary.".

Definition base64_prefix : pystr := lit "data:image/jpeg;base64,".

(** [str(n)] for an index. *)
Definition str_of_nat (n : nat) : pystr :=
  lit (NilZero.string_of_uint (Nat.to_uint n)).

(** What the conversion loop prints for a row it drops. *)
Inductive log_line : Type :=
| Missing_field (idx : nat) (e : exn)
| Error_processing (idx : nat) (e : exn).

Section Dataset.
Context `{Imaging}.

(** A row as [itertuples] yields it.  Each field is what reading the
    attribute does: it returns the value or raises.  On a named tuple a
    field that is not there raises [AttributeError]; the loop also has a
    handler for [KeyError], so any exception is allowed for here. *)
Record example : Type := {
  example_image : outcome image;
  example_question : outcome pystr;
  example_answer : outcome pystr
}.

Definition message (role : string) (content : json) : json :=
  JDict [(lit "role", JString (lit role)); (lit "content", content)].

(** The body of the [try] block: the chat record of row [idx]. *)
Definition convert_example (idx : nat) (ex : example) : outcome json :=
  let system_message := message "system" (JString SYSTEM_PROMPT) in
  img <- example_image ex ;;
  encoded_image <- encode_image img 80 ;;
  question <- example_question ex ;;
  let user_message :=
    message "user"
      (JList
         [ JDict [(lit "type", JString (lit "text"));
                  (lit "text",
                   JString (lit "Question [" ++ str_of_nat idx ++ lit "]: "
                            ++ question))];
           JDict [(lit "type", JString (lit "image_url"));
                  (lit "image_url",
                   JDict [(lit "url",
                           JString (base64_prefix ++ encoded_image))])] ]) in
  answer <- example_answer ex ;;
  let assistant_message := message "assistant" (JString answer) in
  Returned (JDict [(lit "messages",
                    JList [system_message; user_message; assistant_message])]).

(** The [for idx, example in enumerate(dataset.itertuples())] loop with its
    two handlers.  An exception that is not an [Exception] leaves the
    loop. *)
Fixpoint convert_rows (rows : list example) (idx : nat)
    (json_data : list json) (log : list log_line) :
    outcome (list json * list log_line) :=
  match rows with
  | [] => Returned (json_data, log)
  | ex :: rest =>
      match convert_example idx ex with
      | Returned record =>
          convert_rows rest (S idx) (json_data ++ [record]) log
      | Raised e =>
          if is_KeyError e then
            convert_rows rest (S idx) json_data (log ++ [Missing_field idx e])
          else if is_Exception e then
            convert_rows rest (S idx) json_data (log ++ [Error_processing idx e])
          else Raised e
      end
  end.

(** The [with open(dataset_file, "w")] block: the text of the file. *)
Definition write_jsonl (json_data : list json) : pystr :=
  flat_map (fun record => dumps record ++ [10%N]) json_data.

(** One turn of the loop over the splits: the file written and the lines
    printed. *)
Definition generate_split (dataset : list example) :
    outcome (pystr * list log_line) :=
  r <- convert_rows dataset 0 [] [] ;;
  Returned (write_jsonl (fst r), snd r).

(** *** Reading a record back *)

(** [d[key]] on a parsed dictionary. *)
Fixpoint dict_get (d : list (pystr * json)) (key : pystr) : option json :=
  match d with
  | [] => None
  | (k, v) :: rest => if pystr_eqb k key then Some v else dict_get rest key
  end.

Definition get (v : json) (key : string) : option json :=
  match v with
  | JDict d => dict_get d (lit key)
  | _ => None
  end.

Definition item (v : json) (i : nat) : option json :=
  match v with
  | JList items => nth_error items i
  | _ => None
  end.

Definition as_str (v : json) : option pystr :=
  match v with
  | JString s => Some s
  | _ => None
  end.

Definition andthen {A B : Type} (o : option A) (f : A -> option B) : option B :=
  match o with
  | Some a => f a
  | None => None
  end.

(** The three fields of a training record: the user text, the image URL
    and the assistant's answer. *)
Definition record_fields (record : json) : option (pystr * pystr * pystr) :=
  andthen (get record "messages") (fun messages =>
  andthen (item messages 1) (fun user =>
  andthen (get user "content") (fun content =>
  andthen (item content 0) (fun part0 =>
  andthen (get part0 "text") (fun text =>
  andthen (as_str text) (fun text =>
  andthen (item content 1) (fun part1 =>
  andthen (get part1 "image_url") (fun image_url =>
  andthen (get image_url "url") (fun url =>
  andthen (as_str url) (fun url =>
  andthen (item messages 2) (fun assistant =>
  andthen (get assistant "content") (fun answer =>
  andthen (as_str answer) (fun answer =>
  Some (text, url, answer)))))))))))))).

(** ** Remote calls: [query_image] and [evaluate] *)

(** The judge's system prompt, with the indentation of its source lines. *)
Definition EVAL_SYSTEM_PROMPT : pystr :=
  lit "You evaluate the factual correctness of a predicted answer about a diagram with a ground truth answer. "
  ++ [10%N] ++
  lit "                            The predicted answer might be formulated in a different way. Your only concern is if the predicted answer is correct from a factual perspective. "
  ++ [10%N] ++
  lit "                            You are provided with the original question, the ground truth answer and the predicted answer."
  ++ [10%N] ++
  lit "                            You respond with either CORRECT or INCORRECT".

(** [W] is the state of the remote endpoint.  [chat_completions_create
    model messages] stands for [client.chat.completions.create(model=...,
    messages=..., temperature=0)] followed by
    [response.choices[0].message.content], which may be [None]. *)
Variable W : Type.
Variable chat_completions_create :
  pystr -> json -> W -> outcome (option pystr) * W.

(** The undecorated body of [query_image]. *)
Definition query_image_body (img : image) (question deployment : pystr)
    (w : W) : outcome (option pystr) * W :=
  match encode_image img 50 with
  | Raised e => (Raised e, w)
  | Returned encoded =>
      let encoded_image_url := base64_prefix ++ encoded in
      chat_completions_create deployment
        (JList
           [ message "system" (JString SYSTEM_PROMPT);
             message "user"
               (JList
                  [ JDict [(lit "type", JString (lit "text"));
                           (lit "text", JString question)];
                    JDict [(lit "type", JString (lit "image_url"));
                           (lit "image_url",
                            JDict [(lit "url", JString encoded_image_url)])] ]) ])
        w
  end.

(** [query_image] as decorated. *)
Definition query_image (fuel : nat) (img : image) (question deployment : pystr)
    (w : W) : option (outcome (option pystr) * W * list event) :=
  retry_call notebook_retry (query_image_body img question deployment) fuel w.

(** [f"{x}"] of a value that may be [None]. *)
Definition format_value (x : option pystr) : pystr :=
  match x with
  | Some s => s
  | None => lit "None"
  end.

(** The undecorated body of [evaluate]. *)
Definition evaluate_body (question ground_truth_answer : pystr)
    (predicted_answer : option pystr) (deployment : pystr)
    (w : W) : outcome (option pystr) * W :=
  let user_prompt :=
    lit "Original question: " ++ question ++ lit " " ++ [10%N]
    ++ lit "Ground truth answer: " ++ ground_truth_answer ++ [10%N]
    ++ lit "Predicted answer: " ++ format_value predicted_answer in
  chat_completions_create deployment
    (JList [ message "system" (JString EVAL_SYSTEM_PROMPT);
             message "user" (JString user_prompt) ])
    w.

(** [evaluate] as decorated. *)
Definition evaluate (fuel : nat) (question ground_truth_answer : pystr)
    (predicted_answer : option pystr) (deployment : pystr)
    (w : W) : option (outcome (option pystr) * W * list event) :=
  retry_call notebook_retry
    (evaluate_body question ground_truth_answer predicted_answer deployment)
    fuel w.

End Dataset.

(** ** Well-formed text and values *)

(** A Unicode scalar value: a code point that is not a surrogate.  A
    well-formed Python string holds nothing else. *)
Definition is_scalar (c : N) : bool :=
  (c <? 0xd800)%N || in_range 0xe000 0x10ffff c.

Definition wf_str (s : pystr) : Prop :=
  Forall (fun c => is_scalar c = true) s.

(** A JSON value is well formed when its strings are and no dictionary
    repeats a key. *)
#[local] Unset Elimination Schemes.
Inductive wf_json : json -> Prop :=
| wf_JString s : wf_str s -> wf_json (JString s)
| wf_JList items : Forall wf_json items -> wf_json (JList items)
| wf_JDict fields :
    Forall (fun kv => wf_str (fst kv) /\ wf_json (snd kv)) fields ->
    NoDup (map fst fields) ->
    wf_json (JDict fields).
#[local] Set Elimination Schemes.

(** A printable ASCII character: what a line of the output may hold. *)
Definition printable (c : N) : bool := in_range 32 126 c.

(** The fuel that [parse_value] needs to read a value back. *)
Fixpoint weight (v : json) : nat :=
  match v with
  | JString _ => 1
  | JList items => S (fold_right (fun x acc => S (weight x + acc)) 0 items)
  | JDict fields =>
      S (fold_right (fun kv acc => S (weight (snd kv) + acc)) 0 fields)
  end.

(** The fuel for the elements of a list and the fields of a dictionary. *)
Definition weight_items (items : list json) : nat :=
  fold_right (fun x acc => S (weight x + acc)) 0 items.

Definition weight_fields (fields : list (pystr * json)) : nat :=
  fold_right (fun kv acc => S (weight (snd kv) + acc)) 0 fields.

(** One [key: value] entry of a serialised dictionary. *)
Definition dumps_field (kv : pystr * json) : pystr :=
  encode_basestring_ascii (fst kv) ++ lit ": " ++ dumps (snd kv).

(** A value reads back: with enough fuel, parsing its text followed by any
    text [r] yields the value and leaves [r]. *)
Definition reads_back (v : json) : Prop :=
  wf_json v ->
  forall fuel r, weight v <= fuel -> parse_value fuel (dumps v ++ r) = Some (v, r).


(** ** Reading a JSONL file back *)

(** The lines of a text, without their terminators: [cur] holds the
    current line, reversed. *)
Fixpoint lines_from (cur : pystr) (s : pystr) : list pystr :=
  match s with
  | [] => match cur with [] => [] | _ :: _ => [rev cur] end
  | c :: r =>
      if (c =? 10)%N then rev cur :: lines_from [] r
      else lines_from (c :: cur) r
  end.

Definition lines (s : pystr) : list pystr := lines_from [] s.

Section Converted.
Context `{Imaging}.

(** The records of the rows that convert, in order, from index [idx]. *)
Fixpoint converted (rows : list example) (idx : nat) : list json :=
  match rows with
  | [] => []
  | ex :: rest =>
      match convert_example idx ex with
      | Returned record => record :: converted rest (S idx)
      | Raised _ => converted rest (S idx)
      end
  end.

(** The lines printed for the rows that do not, in order. *)
Fixpoint dropped (rows : list example) (idx : nat) : list log_line :=
  match rows with
  | [] => []
  | ex :: rest =>
      match convert_example idx ex with
      | Returned _ => dropped rest (S idx)
      | Raised e =>
          (if is_KeyError e then Missing_field idx e else Error_processing idx e)
          :: dropped rest (S idx)
      end
  end.

End Converted.

(** The record the [try] block builds when its reads succeed: three
    messages, each with [role] before [content]. *)
Definition training_record (idx : nat) (question answer encoded_image : pystr) :
    json :=
  JDict
    [(lit "messages",
      JList
        [ JDict [(lit "role", JString (lit "system"));
                 (lit "content", JString SYSTEM_PROMPT)];
          JDict [(lit "role", JString (lit "user"));
                 (lit "content",
                  JList
                    [ JDict [(lit "type", JString (lit "text"));
                             (lit "text",
                              JString (lit "Question [" ++ str_of_nat idx
                                       ++ lit "]: " ++ question))];
                      JDict [(lit "type", JString (lit "image_url"));
                             (lit "image_url",
                              JDict [(lit "url",
                                      JString (base64_prefix
                                               ++ encoded_image))])] ])];
          JDict [(lit "role", JString (lit "assistant"));
                 (lit "content", JString answer)] ])].

(** *** What the loop should do with a row *)

Section Expected.
Context `{Imaging}.





End Expected.

(** ** The evaluation cells: one remote call per row

    [ds_test_eval[name] = ds_test_eval.apply(lambda row: ..., axis=1)].
    Over a frame that has rows, [apply] calls its function on the rows in
    order and stops at the first exception, in which case nothing is
    assigned.  Over a frame without rows, pandas still calls the function
    once, on a row that holds NaN under every column, to learn what kind
    of value it returns ([apply_empty_result]); an [Exception] of that call
    is swallowed, and the result is then a copy of the frame instead of a
    column. *)

(** What [apply] hands to the assignment. *)
Inductive applied (A : Type) : Type :=
| Column (values : list A)
| Frame_copy.

Arguments Column {A} values.
Arguments Frame_copy {A}.

(** What the assignment raises when it is handed a frame. *)
Definition not_a_column (name : string) : exn :=
  PyExn ValueError
    ("Cannot set a DataFrame with multiple columns to the single column "
     ++ name).

(** [ds_test_eval[name] = value] for a new [name]: a column is stored; a
    frame of several columns cannot be stored under one name.
    [ds_test_eval] has the columns [question], [answer] and [image] at
    least. *)
Definition setitem (A : Type) (name : string) (value : applied A) :
    outcome (list A) :=
  match value with
  | Column values => Returned values
  | Frame_copy => Raised (not_a_column name)
  end.

Section Harness.
Context `{Imaging}.
Variable W : Type.
Variable chat_completions_create :
  pystr -> json -> W -> outcome (option pystr) * W.

(** A row of [ds_test_eval] as the prediction cells read it. *)
Record test_row : Type := {
  row_image : image;
  row_question : pystr;
  row_answer : pystr
}.

(** The loop of [apply] over the rows of a frame: the values the function
    returned, or the first exception; the world and the events of all the
    calls made. *)
Fixpoint apply_rows (R A : Type)
    (f : R -> W -> option (outcome A * W * list event))
    (rows : list R) (w : W) : option (outcome (list A) * W * list event) :=
  match rows with
  | [] => Some (Returned [], w, [])
  | row :: rest =>
      match f row w with
      | None => None
      | Some (Raised e, w', trace) => Some (Raised e, w', trace)
      | Some (Returned a, w', trace) =>
          match apply_rows f rest w' with
          | None => None
          | Some (Returned values, w'', trace') =>
              Some (Returned (a :: values), w'', trace ++ trace')
          | Some (Raised e, w'', trace') =>
              Some (Raised e, w'', trace ++ trace')
          end
      end
  end.

(** [DataFrame.apply(f, axis=1)] for an [f] that returns a scalar.  [f]
    takes [Some row] for a row of the frame and [None] for the row of NaN
    that pandas makes up for a frame without rows. *)
Definition apply_axis1 (R A : Type)
    (f : option R -> W -> option (outcome A * W * list event))
    (rows : list R) (w : W) : option (outcome (applied A) * W * list event) :=
  match rows with
  | [] =>
      match f None w with
      | None => None
      | Some (Returned _, w', trace) => Some (Returned (Column []), w', trace)
      | Some (Raised e, w', trace) =>
          if is_Exception e then Some (Returned Frame_copy, w', trace)
          else Some (Raised e, w', trace)
      end
  | _ :: _ =>
      match apply_rows (fun row => f (Some row)) rows w with
      | None => None
      | Some (Returned values, w', trace) =>
          Some (Returned (Column values), w', trace)
      | Some (Raised e, w', trace) => Some (Raised e, w', trace)
      end
  end.

(** The whole cell: [apply], then the assignment of its result to the
    column [name]. *)
Definition assign_applied (R A : Type) (name : string)
    (f : option R -> W -> option (outcome A * W * list event))
    (rows : list R) (w : W) : option (outcome (list A) * W * list event) :=
  match apply_axis1 f rows w with
  | None => None
  | Some (Returned value, w', trace) => Some (setitem name value, w', trace)
  | Some (Raised e, w', trace) => Some (Raised e, w', trace)
  end.

(** The undecorated body of [query_image] when its image is the float NaN:
    [encode_image] fails on [image.mode] before anything is sent. *)
Definition query_image_body_nan (w : W) : outcome (option pystr) * W :=
  (Raised (PyExn AttributeError "'float' object has no attribute 'mode'"), w).

(** [lambda row: query_image(row['image'], row['question'], deployment)] *)
Definition predict_row (fuel : nat) (deployment : pystr) (row : option test_row)
    (w : W) : option (outcome (option pystr) * W * list event) :=
  match row with
  | Some row =>
      query_image chat_completions_create fuel
                  (row_image row) (row_question row) deployment w
  | None => retry_call notebook_retry query_image_body_nan fuel w
  end.

(** [lambda row: evaluate(row['question'], row['answer'], row[pred],
    'gpt-4o')], each row paired with its prediction.  A NaN is formatted
    as [nan]. *)
Definition judge_row (fuel : nat) (row : option (test_row * option pystr))
    (w : W) : option (outcome (option pystr) * W * list event) :=
  match row with
  | Some rp =>
      evaluate chat_completions_create fuel
               (row_question (fst rp)) (row_answer (fst rp)) (snd rp)
               (lit "gpt-4o") w
  | None =>
      evaluate chat_completions_create fuel
               (lit "nan") (lit "nan") (Some (lit "nan")) (lit "gpt-4o") w
  end.

(** The prediction cells: [name] is [gpt-4o-base-pred] with the deployment
    [gpt-4o], and [gpt-4o-ft-pred] with the deployment [chart-qa-v4]. *)
Definition predict_column (fuel : nat) (name : string) (deployment : pystr)
    (ds_test_eval : list test_row) (w : W) :
    option (outcome (list (option pystr)) * W * list event) :=
  assign_applied name (predict_row fuel deployment) ds_test_eval w.

(** The validation cells: [name] is [gpt-4o-base-eval] or
    [gpt-4o-ft-eval]. *)
Definition judge_column (fuel : nat) (name : string)
    (ds_test_eval : list (test_row * option pystr)) (w : W) :
    option (outcome (list (option pystr)) * W * list event) :=
  assign_applied name (judge_row fuel) ds_test_eval w.

End Harness.

(** The total of the sleeps of a trace, in seconds. *)
Definition slept (trace : list event) : nat :=
  fold_right Nat.add 0 (sleeps trace).

(** What a cell of decorated calls does at most, over [rows] and from the
    world [w]: [f] is the function given to [apply] and [result] what the
    cell came to.  Each call is tried at most three times with 10 seconds
    between tries, and a frame without rows costs one call.  The cell
    yields one value per row; or it fails with an exception outside
    [Exception] or with the [ValueError] of the assignment to the column
    [name] (a frame without rows); or some row [k] of the frame is the
    first whose call failed, with a [RetryError] or an exception outside
    [Exception]: the rows before it returned, the world and the events are
    those of the calls up to row [k], and no later row is called. *)
Definition bounded_cell (W R A : Type) (name : string)
    (f : option R -> W -> option (outcome A * W * list event))
    (rows : list R) (w : W)
    (result : option (outcome (list A) * W * list event)) : Prop :=
  exists res w' trace,
    result = Some (res, w', trace) /\
    calls trace <= 3 * Nat.max 1 (length rows) /\
    slept trace <= 20 * Nat.max 1 (length rows) /\
    match res with
    | Returned values =>
        length values = length rows /\ Nat.max 1 (length rows) <= calls trace
    | Raised x =>
        (rows = [] /\ (is_Exception x = false \/ x = not_a_column name))
        \/
        ((is_Exception x = false \/
          exists e, is_Exception e = true /\ x = RetryError 3 e) /\
         exists k row values wk before last,
           nth_error rows k = Some row /\
           apply_rows (fun r => f (Some r)) (firstn k rows) w
             = Some (Returned values, wk, before) /\
           f (Some row) wk = Some (Raised x, w', last) /\
           trace = before ++ last)
    end.

(** The number of rows of a column that hold exactly [key]. *)
Definition occurrences (key : pystr) (col : list (option pystr)) : nat :=
  length (filter (fun v => match v with
                           | Some s => pystr_eqb s key
                           | None => false
                           end) col).

(** The text of the user message of row [idx]. *)
Definition user_text (idx : nat) (question : pystr) : pystr :=
  lit "Question [" ++ str_of_nat idx ++ lit "]: " ++ question.

(** ** Concrete instances and literal readings

    Small closed instances of the model, used to run the definitions, and
    the prose claims that the code does not satisfy as they are worded. *)


(** An endpoint that refuses its first [k] calls and then answers; the
    world is the number of calls it has received. *)
Definition flaky (k : nat) (n : nat) : outcome nat * nat :=
  if n <? k then (Raised (PyExn APIError "connection error"), S n)
  else (Returned 42, S n).

(** An endpoint that refuses every call, with a different error each
    time. *)
Definition always_down (n : nat) : outcome nat * nat :=
  (Raised (PyExn (match n with
                  | 0 => OSError
                  | 1 => APIError
                  | _ => ValueError
                  end) "service unavailable"), S n).

(** The retry claim read literally: after three failed attempts the caller
    sees the third attempt's own exception. *)
Definition retry_propagates_last_unchanged : Prop :=
  forall (fn : nat -> outcome nat * nat) (w0 w1 w2 w3 : nat) (e1 e2 e3 : exn),
    fn w0 = (Raised e1, w1) -> is_Exception e1 = true ->
    fn w1 = (Raised e2, w2) -> is_Exception e2 = true ->
    fn w2 = (Raised e3, w3) -> is_Exception e3 = true ->
    exists trace,
      retry_call notebook_retry fn 3 w0 = Some (Raised e3, w3, trace).

(** A small evaluated test set: three rows, with verdicts that are the
    label, another label, a near miss of the label, and a missing reply. *)
Definition sample_eval : list eval_row :=
  [ {| gpt_4o_base_eval := Some (lit "CORRECT");
       gpt_4o_ft_eval := Some (lit "CORRECT") |};
    {| gpt_4o_base_eval := Some (lit "INCORRECT");
       gpt_4o_ft_eval := Some (lit "CORRECT") |};
    {| gpt_4o_base_eval := None;
       gpt_4o_ft_eval := Some (lit "CORRECT.") |} ].

(** The metrics-row field names as the prose data model lists them. *)
Definition prose_columns : list string :=
  ["step"; "train_loss"; "train_accuracy";
   "validation_loss"; "validation_accuracy"]%string.

(** The field-name claim read literally: a table with exactly the prose
    field names can be plotted, whatever pandas runs the notebook. *)
Definition plots_prose_columns : Prop :=
  exists repeats_exact : bool,
  forall (df : DataFrame) (w : Z),
    map fst df = prose_columns -> (0 <= w)%Z ->
    exists curves, show_ft_metrics repeats_exact df w = Returned curves.

(** A metrics table under the column names of the service's result file:
    six steps, validation measured on some steps only, once reported as
    -1.0. *)
Definition sample_metrics : DataFrame :=
  [ ("step"%string, Int64 [1; 2; 3; 4; 5; 6]%Z);
    ("train_loss"%string, Float64 [9; 6; 3; 3; 0; 3]%float);
    ("train_mean_token_accuracy"%string, Float64 [0; 1; 1; 1; 1; 1]%float);
    ("valid_loss"%string, Float64 [8; nan; -1; 4; 3; 2]%float);
    ("valid_mean_token_accuracy"%string,
       Float64 [0; nan; -1; 1; 1; 1]%float) ].

(** The same data under the prose field names. *)
Definition prose_metrics : DataFrame :=
  combine prose_columns (map snd sample_metrics).

(** The doubles nearest to 0.1, 0.2 and 0.3. *)
Definition tenths : list float :=
  [0x1.999999999999ap-4; 0x1.999999999999ap-3; 0x1.3333333333333p-2]%float.

(** A table with an integer too large for a double, an infinite loss and
    a negative zero. *)
Definition odd_metrics : DataFrame :=
  [ ("step"%string, Int64 [9007199254740993; 2; 3]%Z);
    ("train_loss"%string, Float64 [infinity; nan; -0]%float) ].

(** ** A small raster library

    A concrete [Imaging] over pictures held in memory, in fourteen of
    Pillow's modes.  It follows Pillow where [encode_image] can tell the
    difference: the pixels of an image opened from a truncated file cannot
    be loaded; mode [La] cannot be converted to RGB; the JPEG writer
    refuses an empty image, a mode other than its six raw modes, and a side
    of more than 65500 pixels.  It implements one conversion target, RGB,
    the only one the notebook asks for.  The bytes it writes are a stand-in
    for a JPEG stream. *)

Inductive pil_mode : Type :=
| Mode_1 | Mode_L | Mode_LA | Mode_La | Mode_P | Mode_PA
| Mode_RGB | Mode_RGBA | Mode_RGBX | Mode_CMYK | Mode_YCbCr | Mode_HSV
| Mode_I | Mode_F.

(** [image.mode] *)
Definition mode_name (m : pil_mode) : string :=
  match m with
  | Mode_1 => "1" | Mode_L => "L" | Mode_LA => "LA" | Mode_La => "La"
  | Mode_P => "P" | Mode_PA => "PA" | Mode_RGB => "RGB" | Mode_RGBA => "RGBA"
  | Mode_RGBX => "RGBX" | Mode_CMYK => "CMYK" | Mode_YCbCr => "YCbCr"
  | Mode_HSV => "HSV" | Mode_I => "I" | Mode_F => "F"
  end.

Record raster : Type := {
  raster_mode : pil_mode;
  raster_width : N;
  raster_height : N;
  samples : list byte;
  (** the file behind the image ends before its pixel data does *)
  truncated : bool
}.

(** The modes that [convert('RGB')] accepts: all but [La], which converts
    to [LA] only. *)
Definition converts_to_RGB (m : pil_mode) : bool :=
  match m with
  | Mode_La => false
  | _ => true
  end.

(** The keys of [RAWMODE] in Pillow's JPEG plugin. *)
Definition jpeg_rawmode (m : pil_mode) : bool :=
  match m with
  | Mode_1 | Mode_L | Mode_RGB | Mode_RGBX | Mode_CMYK | Mode_YCbCr => true
  | _ => false
  end.

Definition raster_convert (img : raster) (m : string) : outcome raster :=
  if negb (String.eqb m "RGB")
  then Raised (PyExn NotImplementedError "the raster library converts to RGB only")
  else if truncated img then Raised (PyExn OSError "image file is truncated")
  else if converts_to_RGB (raster_mode img)
  then Returned {| raster_mode := Mode_RGB;
                   raster_width := raster_width img;
                   raster_height := raster_height img;
                   samples := samples img;
                   truncated := false |}
  else Raised (PyExn ValueError "conversion not supported").

Definition raster_save (img : raster) (quality : Z) : outcome (list byte) :=
  if truncated img then Raised (PyExn OSError "image file is truncated")
  else if (raster_width img =? 0)%N || (raster_height img =? 0)%N
  then Raised (PyExn ValueError "cannot write empty image as JPEG")
  else if negb (jpeg_rawmode (raster_mode img))
  then Raised (PyExn OSError "cannot write mode as JPEG")
  else if (65500 <? raster_width img)%N || (65500 <? raster_height img)%N
  then Raised (PyExn OSError "encoder error -2 when writing image file")
  else Returned (xff :: xd8 :: samples img ++ [xff; xd9]).

#[local] Instance raster_imaging : Imaging := {|
  image := raster;
  mode := fun img => mode_name (raster_mode img);
  convert := raster_convert;
  save_jpeg := raster_save
|}.

(** A picture with an alpha channel, and the same picture in RGB. *)
Definition rgba_chart : raster :=
  {| raster_mode := Mode_RGBA; raster_width := 1; raster_height := 1;
     samples := [x10; x20; x30]; truncated := false |}.

Definition rgb_chart : raster :=
  {| raster_mode := Mode_RGB; raster_width := 1; raster_height := 1;
     samples := [x10; x20; x30]; truncated := false |}.

(** Pictures that [encode_image] cannot encode: one in mode [La], one of
    no width, one whose file is cut short. *)
Definition la_chart : raster :=
  {| raster_mode := Mode_La; raster_width := 1; raster_height := 1;
     samples := [x10; x20]; truncated := false |}.

Definition empty_chart : raster :=
  {| raster_mode := Mode_RGB; raster_width := 0; raster_height := 1;
     samples := []; truncated := false |}.

Definition cut_chart : raster :=
  {| raster_mode := Mode_RGB; raster_width := 1; raster_height := 1;
     samples := [x10]; truncated := true |}.

(** Rows over the small raster library: a good row, and a row whose
    question is missing. *)
Definition good_row (img : raster) (question answer : string) : example :=
  {| example_image := Returned img;
     example_question := Returned (lit question);
     example_answer := Returned (lit answer) |}.

Definition row_without_question (img : raster) (answer : string) : example :=
  {| example_image := Returned img;
     example_question := Raised (PyExn KeyError "question");
     example_answer := Returned (lit answer) |}.

Definition sample_dataset : list example :=
  [ good_row rgb_chart "What is the highest bar?" "42";
    row_without_question rgb_chart "7";
    good_row rgba_chart "Which year is lowest?" "2019" ].

(** A row read from a frame that has no [image] column: the attribute of
    the named tuple is not there. *)
Definition row_without_image (question answer : string) : example :=
  {| example_image :=
       Raised (PyExn AttributeError "'Pandas' object has no attribute 'image'");
     example_question := Returned (lit question);
     example_answer := Returned (lit answer) |}.

(** Five rows: two that convert, and three that fail in three ways. *)
Definition mixed_dataset : list example :=
  [ good_row rgb_chart "What is the highest bar?" "42";
    row_without_question rgb_chart "7";
    good_row la_chart "How many lines are there?" "3";
    row_without_image "Which bar is blue?" "the second";
    good_row rgba_chart "Which year is lowest?" "2019" ].

(** The round-trip claim read literally: some way of reading a line gives
    back the question, the answer and the image of the row it was written
    from. *)
Definition jsonl_recovers_rows : Prop :=
  exists parse : pystr -> option (pystr * pystr * raster),
    forall (idx : nat) (img : raster) (question answer : pystr) (record : json),
      wf_str question -> wf_str answer ->
      convert_example idx {| example_image := Returned img;
                             example_question := Returned question;
                             example_answer := Returned answer |}
        = Returned record ->
      parse (dumps record) = Some (question, answer, img).

(** The totality claim read literally: every image, whatever its mode,
    is encoded. *)
Definition encode_image_always_returns : Prop :=
  forall (img : raster) (quality : Z),
    exists s, encode_image img quality = Returned s.

(** An imaging library over the same pictures whose files are all
    truncated: every pixel access fails. *)
Definition truncated_imaging : Imaging := {|
  image := raster;
  mode := fun img => mode_name (raster_mode img);
  convert := fun _ _ => Raised (PyExn OSError "image file is truncated");
  save_jpeg := fun _ _ => Raised (PyExn OSError "image file is truncated")
|}.

(** A completion endpoint that answers every request with [42]; the world
    counts the requests. *)
Definition answers_42 (model : pystr) (messages : json) (n : nat) :
    outcome (option pystr) * nat :=
  (Returned (Some (lit "42")), S n).

(** An endpoint that answers only every third request it receives. *)
Definition every_third (model : pystr) (messages : json) (n : nat) :
    outcome (option pystr) * nat :=
  if (n mod 3 =? 2) then (Returned (Some (lit "CORRECT")), S n)
  else (Raised (PyExn APIError "rate limit"), S n).

(* ================================================================== *)
(** * Part II: properties *)
(* ================================================================== *)

(** ** The retry decorator *)

Section RetryFacts.
Variables (W A : Type).
Variable fn : W -> outcome A * W.

(** More fuel never changes a result already reached. *)
Lemma retrying_fuel_mono cfg fuel :
  forall n w tr r,
    retrying cfg fn fuel n w tr = Some r ->
    retrying cfg fn (S fuel) n w tr = Some r.
Proof.
  induction fuel as [|fuel IH]; intros n w tr r H; [discriminate|].
  cbn [retrying] in H |- *.
  destruct (fn w) as [res w'].
  destruct res as [a|e]; [exact H|].
  destruct (negb (is_Exception e)); [exact H|].
  destruct (stop_after_attempt cfg <=? n); [exact H|].
  apply IH, H.
Qed.

Lemma retrying_fuel_le cfg fuel fuel' n w tr r :
  fuel <= fuel' ->
  retrying cfg fn fuel n w tr = Some r ->
  retrying cfg fn fuel' n w tr = Some r.
Proof.
  induction 1 as [|m Hle IH]; [trivial|].
  intros H. apply retrying_fuel_mono, IH, H.
Qed.

(** The loop is bounded by the stop condition: with as many units of fuel
    as attempts remain, a decorated call always finishes. *)
Lemma retrying_terminates cfg :
  forall fuel n w tr,
    stop_after_attempt cfg < n + fuel -> 0 < fuel ->
    exists r, retrying cfg fn fuel n w tr = Some r.
Proof.
  induction fuel as [|fuel IH]; intros n w tr Hb Hpos; [lia|].
  cbn [retrying].
  destruct (fn w) as [res w'].
  destruct res as [a|e]; [eauto|].
  destruct (negb (is_Exception e)); [eauto|].
  destruct (Nat.leb_spec (stop_after_attempt cfg) n) as [Hs|Hs]; [eauto|].
  apply IH; lia.
Qed.
End RetryFacts.

(** C4.  A wrapped function that raises (an [Exception]) on its first two
    attempts and returns on the third: the decorated call returns the third
    attempt's value, after exactly three invocations of the wrapped function
    (and a 10 second sleep after each failure). *)
Theorem retry_succeeds_on_third_attempt
    (W A : Type) (fn : W -> outcome A * W)
    (w0 w1 w2 w3 : W) (e1 e2 : exn) (v : A) (fuel : nat) :
  fn w0 = (Raised e1, w1) -> is_Exception e1 = true ->
  fn w1 = (Raised e2, w2) -> is_Exception e2 = true ->
  fn w2 = (Returned v, w3) ->
  3 <= fuel ->
  exists trace,
    retry_call notebook_retry fn fuel w0 = Some (Returned v, w3, trace) /\
    trace = [Attempt 1; Sleep 10; Attempt 2; Sleep 10; Attempt 3] /\
    calls trace = 3.
Proof.
  intros H1 X1 H2 X2 H3 Hfuel.
  eexists. split; [|split; reflexivity].
  apply retrying_fuel_le with (fuel := 3); [exact Hfuel|].
  unfold retry_call. cbn [retrying].
  rewrite H1, X1. cbn. rewrite H2, X2. cbn. rewrite H3. reflexivity.
Qed.

(** C1 (amended).  A wrapped function whose three attempts all raise an
    [Exception]: the decorated call invokes it exactly three times, sleeps
    10 seconds between consecutive attempts, and then raises tenacity's
    [RetryError], which carries the third attempt's exception as its last
    attempt. *)
Theorem retry_exhausted_raises_RetryError
    (W A : Type) (fn : W -> outcome A * W)
    (w0 w1 w2 w3 : W) (e1 e2 e3 : exn) (fuel : nat) :
  fn w0 = (Raised e1, w1) -> is_Exception e1 = true ->
  fn w1 = (Raised e2, w2) -> is_Exception e2 = true ->
  fn w2 = (Raised e3, w3) -> is_Exception e3 = true ->
  3 <= fuel ->
  exists trace,
    retry_call notebook_retry fn fuel w0 =
      Some (Raised (RetryError 3 e3), w3, trace) /\
    calls trace = 3 /\ sleeps trace = [10; 10] /\
    trace = [Attempt 1; Sleep 10; Attempt 2; Sleep 10; Attempt 3].
Proof.
  intros H1 X1 H2 X2 H3 X3 Hfuel.
  eexists. split; [|repeat split; reflexivity].
  apply retrying_fuel_le with (fuel := 3); [exact Hfuel|].
  unfold retry_call. cbn [retrying].
  rewrite H1, X1. cbn. rewrite H2, X2. cbn. rewrite H3, X3. reflexivity.
Qed.

Lemma retry_succeeds_on_third_attempt_witness :
  (flaky 2 0 = (Raised (PyExn APIError "connection error"), 1) /\
   flaky 2 1 = (Raised (PyExn APIError "connection error"), 2) /\
   flaky 2 2 = (Returned 42, 3)) /\
  exists trace,
    retry_call notebook_retry (flaky 2) 5 0 = Some (Returned 42, 3, trace) /\
    trace = [Attempt 1; Sleep 10; Attempt 2; Sleep 10; Attempt 3] /\
    calls trace = 3.
Proof.
  split; [repeat split|].
  apply (@retry_succeeds_on_third_attempt nat nat (flaky 2) 0 1 2 3
           (PyExn APIError "connection error")
           (PyExn APIError "connection error") 42 5);
    solve [reflexivity | lia].
Defined.

Lemma retry_exhausted_raises_RetryError_witness :
  (always_down 0 = (Raised (PyExn OSError "service unavailable"), 1) /\
   always_down 1 = (Raised (PyExn APIError "service unavailable"), 2) /\
   always_down 2 = (Raised (PyExn ValueError "service unavailable"), 3)) /\
  exists trace,
    retry_call notebook_retry always_down 3 0 =
      Some (Raised (RetryError 3 (PyExn ValueError "service unavailable")),
            3, trace) /\
    calls trace = 3 /\ sleeps trace = [10; 10] /\
    trace = [Attempt 1; Sleep 10; Attempt 2; Sleep 10; Attempt 3].
Proof.
  split; [repeat split|].
  apply (@retry_exhausted_raises_RetryError nat nat always_down 0 1 2 3
           (PyExn OSError "service unavailable")
           (PyExn APIError "service unavailable")
           (PyExn ValueError "service unavailable") 3);
    solve [reflexivity | lia].
Defined.

(** C1 as written fails: against [always_down] the third attempt raises a
    [ValueError], and the caller sees a [RetryError] instead. *)
Lemma retry_last_failure_is_wrapped : ~ retry_propagates_last_unchanged.
Proof.
  intros H.
  destruct (H always_down 0 1 2 3
              (PyExn OSError "service unavailable")
              (PyExn APIError "service unavailable")
              (PyExn ValueError "service unavailable")
              eq_refl eq_refl eq_refl eq_refl eq_refl eq_refl) as [trace Ht].
  vm_compute in Ht. discriminate Ht.
Qed.

(** Under [reraise=True] the decorator would hand the last exception over
    unchanged; the notebook does not set it. *)
Lemma retry_with_reraise_propagates_unchanged :
  retry_call {| stop_after_attempt := 3; wait_fixed := 10; reraise := true |}
             always_down 3 0
  = Some (Raised (PyExn ValueError "service unavailable"), 3,
          [Attempt 1; Sleep 10; Attempt 2; Sleep 10; Attempt 3]).
Proof. reflexivity. Qed.

(** A non-[Exception] failure (Ctrl-C) is never retried. *)
Lemma retry_not_on_KeyboardInterrupt :
  retry_call notebook_retry
             (fun n : nat => (@Raised nat (PyExn KeyboardInterrupt "interrupted"), S n)) 3 0
  = Some (Raised (PyExn KeyboardInterrupt "interrupted"), 1, [Attempt 1]).
Proof. reflexivity. Qed.

(** ** The accuracy comparison cell *)

Lemma pystr_eqb_eq a b : pystr_eqb a b = true <-> a = b.
Proof.
  unfold pystr_eqb. destruct (list_eq_dec N.eq_dec a b); split;
    congruence.
Qed.

Lemma pystr_eqb_refl a : pystr_eqb a a = true.
Proof. apply pystr_eqb_eq. reflexivity. Qed.

Lemma series_get_bump_same key table :
  series_get (bump key table) key 0%Z = (series_get table key 0 + 1)%Z.
Proof.
  induction table as [|[k n] rest IH]; cbn.
  - rewrite pystr_eqb_refl. reflexivity.
  - destruct (pystr_eqb k key) eqn:E; cbn; rewrite E; [reflexivity|exact IH].
Qed.

Lemma series_get_bump_other key key' table d :
  key <> key' ->
  series_get (bump key table) key' d = series_get table key' d.
Proof.
  intros Hne. induction table as [|[k n] rest IH]; cbn.
  - destruct (pystr_eqb key key') eqn:E; [|reflexivity].
    apply pystr_eqb_eq in E. contradiction.
  - destruct (pystr_eqb k key) eqn:E; cbn.
    + apply pystr_eqb_eq in E. subst k.
      destruct (pystr_eqb key key') eqn:E'; [|reflexivity].
      apply pystr_eqb_eq in E'. contradiction.
    + destruct (pystr_eqb k key'); [reflexivity|exact IH].
Qed.

(** [value_counts().get("CORRECT", 0)] is the number of rows whose verdict
    is exactly the label. *)
Lemma correct_count_spec col :
  correct_count col = Z.of_nat (count_label col).
Proof.
  unfold correct_count, count_label.
  induction col as [|[s|] rest IH]; cbn [value_counts filter].
  - reflexivity.
  - destruct (pystr_eqb s CORRECT) eqn:E.
    + apply pystr_eqb_eq in E. subst s.
      rewrite series_get_bump_same, IH. cbn [length]. lia.
    + rewrite series_get_bump_other; [exact IH|].
      intros ->. rewrite pystr_eqb_refl in E. discriminate.
  - exact IH.
Qed.

Lemma count_label_le col : count_label col <= length col.
Proof. unfold count_label. apply filter_length_le. Qed.

Lemma truediv_nonzero a b :
  b <> 0%Z -> truediv a b = Returned (inject_Z a / inject_Z b)%Q.
Proof.
  intros Hb. unfold truediv.
  destruct (Z.eqb_spec b 0); [contradiction|reflexivity].
Qed.

(** A count over a positive total is a ratio in [[0, 1]]. *)
Lemma ratio_bounds (c n : nat) :
  c <= n -> 0 < n ->
  (0 <= inject_Z (Z.of_nat c) / inject_Z (Z.of_nat n) /\
   inject_Z (Z.of_nat c) / inject_Z (Z.of_nat n) <= 1)%Q.
Proof.
  intros Hc Hn.
  assert (Hpos : (0 < inject_Z (Z.of_nat n))%Q).
  { unfold Qlt, inject_Z. cbn. lia. }
  split.
  - apply Qle_shift_div_l; [exact Hpos|].
    rewrite Qmult_0_l. unfold Qle, inject_Z. cbn. lia.
  - apply Qle_shift_div_r; [exact Hpos|].
    rewrite Qmult_1_l. unfold Qle, inject_Z. cbn. lia.
Qed.

Lemma accuracy_defined (col : list (option pystr)) (n : nat) :
  length col = n -> 0 < n ->
  truediv (correct_count col) (Z.of_nat n)
  = Returned (inject_Z (Z.of_nat (count_label col)) / inject_Z (Z.of_nat n))%Q.
Proof.
  intros Hlen Hn. rewrite truediv_nonzero by lia.
  rewrite correct_count_spec. reflexivity.
Qed.

Lemma chart_accuracies_defined (ds_test_eval : list eval_row) :
  ds_test_eval <> [] ->
  chart_accuracies ds_test_eval
  = Returned
      ((inject_Z (Z.of_nat (count_label (map gpt_4o_base_eval ds_test_eval)))
        / inject_Z (Z.of_nat (length ds_test_eval)))%Q,
       (inject_Z (Z.of_nat (count_label (map gpt_4o_ft_eval ds_test_eval)))
        / inject_Z (Z.of_nat (length ds_test_eval)))%Q).
Proof.
  intros Hne.
  assert (Hn : 0 < length ds_test_eval).
  { destruct ds_test_eval; [contradiction|cbn; lia]. }
  unfold chart_accuracies.
  rewrite !(@accuracy_defined _ (length ds_test_eval))
    by (rewrite ?length_map; trivial).
  reflexivity.
Qed.

(** C8.  On a non-empty evaluated table each reported accuracy is the
    number of rows whose verdict equals the label [CORRECT] over the number
    of rows, and lies between 0 and 1. *)
Theorem chart_accuracies_ratio (ds_test_eval : list eval_row) :
  ds_test_eval <> [] ->
  exists baseline fine_tuned : Q,
    chart_accuracies ds_test_eval = Returned (baseline, fine_tuned) /\
    baseline =
      (inject_Z (Z.of_nat (count_label (map gpt_4o_base_eval ds_test_eval)))
       / inject_Z (Z.of_nat (length ds_test_eval)))%Q /\
    fine_tuned =
      (inject_Z (Z.of_nat (count_label (map gpt_4o_ft_eval ds_test_eval)))
       / inject_Z (Z.of_nat (length ds_test_eval)))%Q /\
    (0 <= baseline /\ baseline <= 1)%Q /\
    (0 <= fine_tuned /\ fine_tuned <= 1)%Q.
Proof.
  intros Hne.
  assert (Hn : 0 < length ds_test_eval).
  { destruct ds_test_eval; [contradiction|cbn; lia]. }
  do 2 eexists.
  split; [apply chart_accuracies_defined, Hne|].
  split; [reflexivity|]. split; [reflexivity|].
  split; apply ratio_bounds; trivial;
    (eapply Nat.le_trans; [apply count_label_le|rewrite length_map; lia]).
Qed.

Lemma chart_accuracies_ratio_witness :
  sample_eval <> [] /\
  exists baseline fine_tuned : Q,
    chart_accuracies sample_eval = Returned (baseline, fine_tuned) /\
    baseline =
      (inject_Z (Z.of_nat (count_label (map gpt_4o_base_eval sample_eval)))
       / inject_Z (Z.of_nat (length sample_eval)))%Q /\
    fine_tuned =
      (inject_Z (Z.of_nat (count_label (map gpt_4o_ft_eval sample_eval)))
       / inject_Z (Z.of_nat (length sample_eval)))%Q /\
    (0 <= baseline /\ baseline <= 1)%Q /\
    (0 <= fine_tuned /\ fine_tuned <= 1)%Q.
Proof.
  assert (H : sample_eval <> []) by discriminate.
  split; [exact H|]. apply (chart_accuracies_ratio H).
Defined.

Example sample_eval_accuracies :
  chart_accuracies sample_eval
  = Returned ((inject_Z 1 / inject_Z 3)%Q, (inject_Z 2 / inject_Z 3)%Q).
Proof. reflexivity. Qed.

(** C2 as written fails: on an empty table the cell reports nothing. *)
Lemma chart_accuracies_empty_no_value :
  ~ exists v, chart_accuracies [] = Returned v.
Proof. intros [v H]. discriminate H. Qed.

(** C2 (amended).  The cell has no guard: it raises [ZeroDivisionError]
    exactly when the evaluated table has no rows. *)
Theorem chart_accuracies_zero_rows (ds_test_eval : list eval_row) :
  chart_accuracies ds_test_eval
    = Raised (PyExn ZeroDivisionError "division by zero")
  <-> ds_test_eval = [].
Proof.
  split.
  - intros H. destruct ds_test_eval as [|r rest]; [reflexivity|].
    rewrite chart_accuracies_defined in H by discriminate.
    discriminate H.
  - intros ->. reflexivity.
Qed.

(** ** Rolling means *)

Lemma over_range_fold f values lo hi st :
  over_range f values lo hi st
  = fold_left (fun st v => f v st) (range values lo hi) st.
Proof.
  unfold over_range, range. generalize (seq lo (hi - lo)) as js.
  intros js. revert st.
  induction js as [|j js IH]; intros st; cbn; [reflexivity|apply IH].
Qed.

Lemma range_split values lo mid hi :
  lo <= mid -> mid <= hi ->
  range values lo hi = range values lo mid ++ range values mid hi.
Proof.
  intros H1 H2. unfold range. rewrite <- map_app. f_equal.
  replace (hi - lo) with ((mid - lo) + (hi - mid)) by lia.
  rewrite seq_app. do 2 f_equal. lia.
Qed.

Lemma range_length values lo hi : length (range values lo hi) = hi - lo.
Proof. unfold range. rewrite length_map, length_seq. reflexivity. Qed.

Lemma range_one values i : range values i (i + 1) = [nth i values nan].
Proof.
  unfold range. replace (i + 1 - i) with 1 by lia. reflexivity.
Qed.

Lemma range_empty values i : range values i i = [].
Proof. unfold range. rewrite Nat.sub_diag. reflexivity. Qed.

Lemma in_range_nth values lo hi j :
  lo <= j -> j < hi -> In (nth j values nan) (range values lo hi).
Proof.
  intros H1 H2. unfold range. apply in_map_iff. exists j.
  split; [reflexivity|]. apply in_seq. lia.
Qed.

Lemma present_count_app a b :
  present_count (a ++ b) = (present_count a + present_count b)%Z.
Proof. unfold present_count. rewrite filter_app, length_app. lia. Qed.

Lemma present_count_le l : (present_count l <= Z.of_nat (length l))%Z.
Proof.
  unfold present_count. pose proof (filter_length_le present l). lia.
Qed.

Lemma present_count_nonneg l : (0 <= present_count l)%Z.
Proof. unfold present_count. lia. Qed.

(** A window that holds a NaN counts fewer values than it has rows. *)
Lemma present_count_lt l v :
  In v l -> present v = false -> (present_count l < Z.of_nat (length l))%Z.
Proof.
  unfold present_count. induction l as [|x l IH]; intros Hin Hv; [contradiction|].
  cbn [filter length]. destruct Hin as [->|Hin].
  - rewrite Hv. pose proof (filter_length_le present l). lia.
  - specialize (IH Hin Hv). destruct (present x); cbn [length]; lia.
Qed.

(** A window without NaN counts all its rows. *)
Lemma present_count_all l :
  Forall (fun v => present v = true) l ->
  present_count l = Z.of_nat (length l).
Proof.
  unfold present_count. induction 1 as [|x l Hx _ IH]; [reflexivity|].
  cbn [filter length]. rewrite Hx. cbn [length]. lia.
Qed.

Lemma nobs_add l : forall st,
  nobs (fold_left (fun st v => add_mean v st) l st)
  = (nobs st + present_count l)%Z.
Proof.
  induction l as [|v l IH]; intros st; cbn [fold_left].
  - unfold present_count. cbn. lia.
  - rewrite IH. unfold present_count, add_mean, present. cbn [filter].
    destruct (v =? v)%float; cbn [nobs length]; lia.
Qed.

Lemma nobs_remove l : forall st,
  nobs (fold_left (fun st v => remove_mean v st) l st)
  = (nobs st - present_count l)%Z.
Proof.
  induction l as [|v l IH]; intros st; cbn [fold_left].
  - unfold present_count. cbn. lia.
  - rewrite IH. unfold present_count, remove_mean, present. cbn [filter].
    destruct (v =? v)%float; cbn [nobs length]; lia.
Qed.

(** Removing values leaves the record of repeated values alone. *)
Lemma repeats_remove l : forall st,
  num_consecutive_same_value (fold_left (fun st v => remove_mean v st) l st)
  = num_consecutive_same_value st /\
  prev_value (fold_left (fun st v => remove_mean v st) l st) = prev_value st.
Proof.
  induction l as [|v l IH]; intros st; cbn [fold_left]; [auto|].
  destruct (IH (remove_mean v st)) as [-> ->].
  unfold remove_mean. destruct (v =? v)%float; auto.
Qed.

Lemma window_end_0 i : window_end 0 i = i.
Proof. reflexivity. Qed.

Lemma window_start_0 i : window_start 0 i = i.
Proof. unfold window_start. rewrite window_end_0. lia. Qed.

Lemma window_end_S w i : window_end (S w) i = i + 1.
Proof. reflexivity. Qed.

Lemma window_start_S w i : window_start (S w) i = i + 1 - S w.
Proof. reflexivity. Qed.

Lemma advance_tracks values w i st :
  i = 0 \/ tracks values w (i - 1) st ->
  tracks values w i (advance values w i st).
Proof.
  intros Hprev. unfold advance.
  destruct w as [|w].
  { (* an empty window *)
    rewrite !window_end_0, !window_start_0.
    assert (Hs : (i =? 0) || (i - 1 <=? i) = true).
    { apply orb_true_iff. right. apply Nat.leb_le. lia. }
    rewrite Hs, over_range_fold, range_empty. cbn [fold_left].
    unfold tracks, window. rewrite window_end_0, window_start_0, range_empty.
    cbn [fresh nobs num_consecutive_same_value].
    split; [reflexivity|]. split; [lia|]. intros m v H1 H2. lia. }
  rewrite !window_end_S, !window_start_S.
  unfold tracks, window. rewrite window_end_S, window_start_S.
  destruct ((i =? 0) || (i - 1 + 1 <=? i + 1 - S w)) eqn:Hsetup.
  - (* a fresh start: the window is the row itself *)
    assert (Hs : i + 1 - S w = i).
    { apply orb_true_iff in Hsetup. destruct Hsetup as [H|H].
      - apply Nat.eqb_eq in H. lia.
      - apply Nat.leb_le in H. lia. }
    assert (Hm : forall m, 1 <= m -> m <= S w -> m <= i + 1 -> m = 1).
    { intros m H1 H2 H3. apply orb_true_iff in Hsetup. destruct Hsetup as [H|H].
      - apply Nat.eqb_eq in H. lia.
      - apply Nat.leb_le in H. lia. }
    rewrite Hs, !over_range_fold, range_one. cbn [fold_left].
    set (x := nth i values nan).
    unfold add_mean, fresh, present_count, present. cbn [filter prev_value
      nobs num_consecutive_same_value].
    destruct (x =? x)%float eqn:Hx;
      cbn [nobs num_consecutive_same_value prev_value length].
    + split; [reflexivity|]. split; [lia|].
      intros m v H1 H2 H3 Hv Hp. rewrite (Hm m H1 H2 H3) in *.
      split; [|lia]. apply Hv; lia.
    + split; [reflexivity|]. split; [lia|].
      intros m v H1 H2 H3 Hv Hp. rewrite (Hm m H1 H2 H3) in *.
      assert (Ex : x = v) by (apply Hv; lia). subst v.
      rewrite Hx in Hp. discriminate Hp.
  - (* one row leaves the window and one enters *)
    apply orb_false_iff in Hsetup. destruct Hsetup as [Hi Hw].
    apply Nat.eqb_neq in Hi. apply Nat.leb_gt in Hw.
    destruct Hprev as [H0|(Hn & Hc & Hrun)]; [contradiction|].
    unfold window in Hn. rewrite window_end_S, window_start_S in Hn.
    replace (i - 1 + 1) with i in * by lia.
    rewrite !over_range_fold, range_one. cbn [fold_left].
    set (removed := fold_left (fun st v => remove_mean v st)
                      (range values (i - S w) (i + 1 - S w)) st).
    assert (Hnr : nobs removed
                  = present_count (range values (i + 1 - S w) i)).
    { unfold removed. rewrite nobs_remove, Hn.
      rewrite (@range_split values (i - S w) (i + 1 - S w) i) by lia.
      rewrite present_count_app. lia. }
    destruct (repeats_remove (range values (i - S w) (i + 1 - S w)) st)
      as [Hcr Hpr].
    fold removed in Hcr, Hpr.
    set (x := nth i values nan).
    split; [|split].
    + rewrite (@range_split values (i + 1 - S w) i (i + 1)) by lia.
      rewrite present_count_app, range_one. fold x.
      unfold add_mean, present_count at 2, present. cbn [filter].
      destruct (x =? x)%float; cbn [nobs length]; lia.
    + unfold add_mean. destruct (x =? x)%float; [|lia].
      cbn [num_consecutive_same_value].
      destruct (x =? prev_value removed)%float; lia.
    + intros m v H1 H2 H3 Hv Hp.
      assert (Ex : x = v) by (apply Hv; lia).
      unfold add_mean. rewrite Ex. unfold present in Hp. rewrite Hp.
      cbn [prev_value num_consecutive_same_value]. split; [reflexivity|].
      destruct (Nat.eq_dec m 1) as [->|Hm1].
      * destruct (v =? prev_value removed)%float; lia.
      * destruct (Hrun (m - 1) v) as [Hpv Hcv]; try lia.
        { intros j Hj1 Hj2. apply Hv; lia. }
        { exact Hp. }
        rewrite Hpr, Hpv, Hp, Hcr. lia.
Qed.

Section RollingFacts.
Variable repeats_exact : bool.

Lemma roll_mean_rows_length values w minp :
  forall todo i st,
    length (roll_mean_rows repeats_exact values w minp i todo st) = todo.
Proof.
  induction todo as [|todo IH]; intros i st; cbn; [reflexivity|].
  rewrite IH. reflexivity.
Qed.

Lemma roll_mean_length values w :
  length (roll_mean repeats_exact values w) = length values.
Proof. apply roll_mean_rows_length. Qed.

(** Row [i + k] of the loop started at row [i]. *)
Lemma roll_mean_rows_nth values w minp :
  forall todo i st k,
    i = 0 \/ tracks values w (i - 1) st ->
    k < todo ->
    exists st',
      tracks values w (i + k) st' /\
      nth k (roll_mean_rows repeats_exact values w minp i todo st) nan
      = calc_mean repeats_exact minp st'.
Proof.
  induction todo as [|todo IH]; intros i st k Hprev Hk; [lia|].
  cbn [roll_mean_rows].
  pose proof (@advance_tracks values w i st Hprev) as Hnow.
  destruct k as [|k].
  - exists (advance values w i st). rewrite Nat.add_0_r. auto.
  - cbn [nth].
    destruct (IH (S i) (advance values w i st) k) as (st' & Ht & Hn).
    + right. replace (S i - 1) with i by lia. exact Hnow.
    + lia.
    + exists st'. replace (i + S k) with (S i + k) by lia. auto.
Qed.

Lemma roll_mean_nth values w i :
  i < length values ->
  exists st,
    tracks values w i st /\
    nth i (roll_mean repeats_exact values w) nan
    = calc_mean repeats_exact (Z.max (Z.of_nat w) 1) st.
Proof.
  intros Hi. unfold roll_mean.
  destruct (@roll_mean_rows_nth values w (Z.max (Z.of_nat w) 1)
              (length values) 0 (fresh 0) i) as (st & Ht & Hn);
    [left; reflexivity|exact Hi|].
  exists st. auto.
Qed.

Lemma calc_mean_few minp st :
  (nobs st < minp)%Z -> calc_mean repeats_exact minp st = nan.
Proof.
  intros H. unfold calc_mean.
  destruct (Z.leb_spec minp (nobs st)); [lia|reflexivity].
Qed.

Lemma window_length values w i :
  length (window values w i) = Nat.min w (i + 1).
Proof.
  unfold window, window_start, window_end. rewrite range_length.
  destruct (Nat.eqb_spec w 0); lia.
Qed.

(** A row whose window is not full yet is NaN. *)
Lemma roll_mean_early values w i :
  i < length values -> i + 1 < w ->
  nth i (roll_mean repeats_exact values w) nan = nan.
Proof.
  intros Hi Hw. destruct (@roll_mean_nth values w i Hi) as (st & (Hn & _) & ->).
  apply calc_mean_few. rewrite Hn.
  pose proof (present_count_le (window values w i)) as Hle.
  rewrite window_length in Hle. lia.
Qed.

(** A row whose window holds a NaN is NaN. *)
Lemma roll_mean_missing values w i j :
  i < length values -> i + 1 - w <= j -> j <= i ->
  present (nth j values nan) = false ->
  nth i (roll_mean repeats_exact values w) nan = nan.
Proof.
  intros Hi Hj1 Hj2 Hna.
  destruct (@roll_mean_nth values w i Hi) as (st & (Hn & _) & ->).
  apply calc_mean_few. rewrite Hn.
  destruct (Nat.eq_dec w 0) as [->|Hw].
  - unfold window, window_start, window_end. cbn [Nat.eqb].
    rewrite Nat.sub_0_r, range_empty. unfold present_count. cbn. lia.
  - assert (Hin : In (nth j values nan) (window values w i)).
    { unfold window, window_start, window_end.
      destruct (Nat.eqb_spec w 0); [contradiction|].
      apply in_range_nth; lia. }
    pose proof (@present_count_lt _ _ Hin Hna) as Hlt.
    rewrite window_length in Hlt. lia.
Qed.

(** With a window of no rows every row is NaN. *)
Lemma roll_mean_zero values :
  Forall (fun y => y = nan) (roll_mean repeats_exact values 0).
Proof.
  apply Forall_nth. intros i d Hi.
  rewrite roll_mean_length in Hi.
  rewrite (nth_indep _ d nan) by (rewrite roll_mean_length; exact Hi).
  destruct (@roll_mean_nth values 0 i Hi) as (st & (Hn & _) & ->).
  apply calc_mean_few. rewrite Hn.
  unfold window, window_start, window_end. cbn [Nat.eqb].
  rewrite Nat.sub_0_r, range_empty. unfold present_count. cbn. lia.
Qed.

(** A column shorter than the window is smoothed to NaN. *)
Lemma roll_mean_short values w :
  length values < w ->
  Forall (fun y => y = nan) (roll_mean repeats_exact values w).
Proof.
  intros Hlen. apply Forall_nth. intros i d Hi.
  rewrite roll_mean_length in Hi.
  rewrite (nth_indep _ d nan) by (rewrite roll_mean_length; exact Hi).
  apply roll_mean_early; lia.
Qed.

End RollingFacts.

(** A full window that repeats one number yields that number, when pandas
    is 1.5 or later. *)
Lemma roll_mean_repeated values w i v :
  i < length values -> 1 <= w -> w <= i + 1 ->
  (forall j, i + 1 - w <= j -> j <= i -> nth j values nan = v) ->
  present v = true ->
  nth i (roll_mean true values w) nan = v.
Proof.
  intros Hi Hw1 Hw2 Hv Hp.
  destruct (@roll_mean_nth true values w i Hi) as (st & (Hn & Hc & Hrun) & ->).
  destruct (Hrun w v Hw1 (Nat.le_refl w) Hw2 Hv Hp) as [Hpv Hcv].
  assert (Hall : present_count (window values w i) = Z.of_nat w).
  { rewrite present_count_all.
    - rewrite window_length. lia.
    - apply Forall_forall. intros x Hx.
      unfold window, window_start, window_end, range in Hx.
      destruct (Nat.eqb_spec w 0); [lia|].
      apply in_map_iff in Hx. destruct Hx as (j & <- & Hj).
      apply in_seq in Hj. rewrite Hv by lia. exact Hp. }
  unfold calc_mean. rewrite Hn, Hall.
  destruct (Z.leb_spec (Z.max (Z.of_nat w) 1) (Z.of_nat w)); [|lia].
  destruct (Z.ltb_spec 0 (Z.of_nat w)); [|lia].
  cbn [andb].
  destruct (Z.leb_spec (Z.of_nat w) (num_consecutive_same_value st)); [|lia].
  exact Hpv.
Qed.

(** NaN is the one double that differs from itself. *)
Lemma SFeqb_irrefl s : SFeqb s s = false -> s = S754_nan.
Proof.
  destruct s as [z|i| |sg m e]; cbn;
    try (destruct z; discriminate); try (destruct i; discriminate);
    try reflexivity.
  unfold SFeqb, SFcompare. rewrite Z.compare_refl, Pos.compare_refl.
  destruct sg; cbn; discriminate.
Qed.

Lemma not_present_nan v : present v = false -> v = nan.
Proof.
  unfold present. intros H. rewrite FloatAxioms.eqb_spec in H.
  apply FloatAxioms.Prim2SF_inj. apply SFeqb_irrefl in H. rewrite H. reflexivity.
Qed.

(** With a window of one row smoothing gives back the prepared values,
    when pandas is 1.5 or later. *)
Lemma roll_mean_one values : roll_mean true values 1 = values.
Proof.
  apply (nth_ext _ _ nan nan); [apply roll_mean_length|].
  intros i Hi. rewrite roll_mean_length in Hi.
  destruct (present (nth i values nan)) eqn:Hp.
  - apply roll_mean_repeated; try lia; [|exact Hp].
    intros j Hj1 Hj2. replace j with i by lia. reflexivity.
  - rewrite (@not_present_nan _ Hp).
    apply (@roll_mean_missing true values 1 i i); try lia. exact Hp.
Qed.

Lemma getitem_map (C D : Type) (f : C -> D) (df : Frame C) name :
  getitem (map (fun nc => (fst nc, f (snd nc))) df) name
  = (col <- getitem df name ;; Returned (f col)).
Proof.
  induction df as [|[n c] df IH]; cbn; [reflexivity|].
  destruct (String.eqb n name); [reflexivity|exact IH].
Qed.

(** What a missing column raises. *)
Lemma getitem_Raised (C : Type) (df : Frame C) name e :
  getitem df name = Raised e -> e = PyExn KeyError name.
Proof.
  induction df as [|[n c] df IH]; cbn.
  - intros E. injection E as <-. reflexivity.
  - destruct (String.eqb n name); [discriminate|exact IH].
Qed.

Section SmoothingFacts.
Variable repeats_exact : bool.

Lemma getitem_smooth (df : DataFrame) w name :
  getitem (map (fun nc => (fst nc,
                           roll_mean repeats_exact (prep_values (snd nc)) w)) df)
          name
  = (col <- getitem df name ;;
     Returned (roll_mean repeats_exact (prep_values col) w)).
Proof.
  apply (getitem_map (fun c => roll_mean repeats_exact (prep_values c) w)).
Qed.

Lemma prep_values_length col : length (prep_values col) = len col.
Proof.
  unfold prep_values. rewrite length_map.
  destruct col; cbn [ensure_float64 len]; [apply length_map|reflexivity].
Qed.



End SmoothingFacts.


Example sample_valid_loss_smooth :
  (smooth <- rolling_mean true sample_metrics 3 ;; getitem smooth "valid_loss")
  = Returned [nan; nan; nan; nan; 2; 3]%float.
Proof. reflexivity. Qed.

Example sample_train_loss_smooth :
  (smooth <- rolling_mean true sample_metrics 3 ;; getitem smooth "train_loss")
  = Returned [nan; nan; 6; 4; 2; 2]%float.
Proof. reflexivity. Qed.

(** The smoothed 0.1, 0.2, 0.3 under either pandas: the double below 0.2,
    printed 0.19999999999999998. *)
Example tenths_smooth :
  roll_mean true tenths 3 = [nan; nan; 0x1.9999999999999p-3]%float /\
  roll_mean false tenths 3 = [nan; nan; 0x1.9999999999999p-3]%float /\
  float_mean tenths = 0x1.999999999999bp-3%float.
Proof. repeat split; reflexivity. Qed.




(** ** [show_ft_metrics] *)

Lemma select_map (A B : Type) (f : A -> B) mask l :
  select mask (map f l) = map f (select mask l).
Proof.
  revert l. induction mask as [|b mask IH]; intros [|x l]; cbn [select map];
    try reflexivity.
  destruct b; cbn [map]; rewrite IH; reflexivity.
Qed.

Lemma select_nil_r (A : Type) mask : select mask (@nil A) = [].
Proof. destruct mask; reflexivity. Qed.

Lemma ensure_float64_take mask col :
  ensure_float64 (take mask col) = select mask (ensure_float64 col).
Proof.
  destruct col; cbn [take ensure_float64]; [|reflexivity].
  symmetry. apply select_map.
Qed.

(** Two masks applied one after the other, as one row-wise filter. *)
Lemma select_select (A B : Type) (f g : A -> bool) (l : list A) (c : list B) :
  select (map g (select (map f l) l)) (select (map f l) c)
  = map snd (filter fst (combine (map (fun x => f x && g x) l) c)).
Proof.
  revert c. induction l as [|x l IH]; intros c; [reflexivity|].
  destruct c as [|y c].
  - rewrite !select_nil_r. reflexivity.
  - cbn [map select combine filter].
    destruct (f x); cbn [map select andb fst].
    + destruct (g x); cbn [map snd]; rewrite IH; reflexivity.
    + apply IH.
Qed.

(** [dropna] then [.loc], on the doubles of a column: the rows whose
    [valid_loss] is usable. *)
Lemma take_validation_rows valid_loss col :
  ensure_float64
    (take (ne (take (notna valid_loss) valid_loss) (-1))
          (take (notna valid_loss) col))
  = validation_rows valid_loss (ensure_float64 col).
Proof.
  rewrite !ensure_float64_take. unfold validation_rows, ne.
  rewrite ensure_float64_take.
  destruct valid_loss as [zs|vs]; cbn [notna ensure_float64 usable].
  - rewrite select_map, map_map.
    apply (select_select (fun _ : Z => true)
             (fun z => negb (float_of_Z z =? -1)%float)).
  - apply (select_select (fun v => (v =? v)%float)
             (fun v => negb (v =? -1)%float)).
Qed.

Lemma getitem_loc (df : DataFrame) mask name :
  getitem (loc df mask) name
  = (col <- getitem df name ;; Returned (take mask col)).
Proof. apply (getitem_map (take mask)). Qed.

Lemma prep_values_take valid_loss col :
  prep_values (take (ne (take (notna valid_loss) valid_loss) (-1))
                    (take (notna valid_loss) col))
  = prep_values (Float64 (validation_rows valid_loss (ensure_float64 col))).
Proof.
  unfold prep_values. rewrite take_validation_rows. reflexivity.
Qed.

Section PlotFacts.
Variable repeats_exact : bool.

(** [show_ft_metrics] in terms of the columns of its argument: the order
    in which a missing column or a bad window is reported, and the curves
    otherwise. *)
Lemma show_ft_metrics_unfold df w :
  show_ft_metrics repeats_exact df w
  = (valid_loss <- getitem df "valid_loss" ;;
     if (w <? 0)%Z
     then Raised (PyExn ValueError "window must be an integer 0 or greater")
     else
       step <- getitem df "step" ;;
       train_loss <- getitem df "train_loss" ;;
       train_acc <- getitem df "train_mean_token_accuracy" ;;
       valid_acc <- getitem df "valid_mean_token_accuracy" ;;
       Returned (curves_of repeats_exact (Z.to_nat w) step train_loss train_acc
                           valid_loss valid_acc)).
Proof.
  unfold show_ft_metrics, dropna, rolling_mean.
  destruct (getitem df "valid_loss") as [vl|e] eqn:Evl; cbn [bind];
    [|reflexivity].
  rewrite getitem_loc, Evl. cbn [bind].
  destruct (w <? 0)%Z; cbn [bind]; [reflexivity|].
  rewrite !getitem_smooth, !getitem_loc, Evl.
  destruct (getitem df "step") as [step|e]; cbn [bind]; [|reflexivity].
  destruct (getitem df "train_loss") as [tl|e]; cbn [bind]; [|reflexivity].
  destruct (getitem df "train_mean_token_accuracy") as [ta|e]; cbn [bind];
    [|reflexivity].
  destruct (getitem df "valid_mean_token_accuracy") as [va|e]; cbn [bind];
    [|reflexivity].
  unfold curves_of. rewrite !prep_values_take. reflexivity.
Qed.

Lemma show_ft_metrics_curves df window_size step train_loss train_acc
    valid_loss valid_acc :
  (0 <= window_size)%Z ->
  getitem df "step" = Returned step ->
  getitem df "train_loss" = Returned train_loss ->
  getitem df "train_mean_token_accuracy" = Returned train_acc ->
  getitem df "valid_loss" = Returned valid_loss ->
  getitem df "valid_mean_token_accuracy" = Returned valid_acc ->
  show_ft_metrics repeats_exact df window_size
  = Returned (curves_of repeats_exact (Z.to_nat window_size)
                        step train_loss train_acc valid_loss valid_acc).
Proof.
  intros Hw Hs Htl Hta Hvl Hva.
  rewrite show_ft_metrics_unfold, Hvl, Hs, Htl, Hta, Hva. cbn [bind].
  destruct (Z.ltb_spec window_size 0); [lia|]. reflexivity.
Qed.

(** C10.  On a table that has the five columns, the training curves are
    the rolling means of the whole [step], [train_loss] and
    [train_mean_token_accuracy] columns, and the validation curves are the
    rolling means over just the rows whose [valid_loss] is present and is
    not -1.0. *)
Theorem show_ft_metrics_filters_validation_only
    (results_df : DataFrame) (window_size : Z)
    (step train_loss train_acc valid_loss valid_acc : column) :
  (0 <= window_size)%Z ->
  getitem results_df "step" = Returned step ->
  getitem results_df "train_loss" = Returned train_loss ->
  getitem results_df "train_mean_token_accuracy" = Returned train_acc ->
  getitem results_df "valid_loss" = Returned valid_loss ->
  getitem results_df "valid_mean_token_accuracy" = Returned valid_acc ->
  let w := Z.to_nat window_size in
  let smooth values :=
    roll_mean repeats_exact
              (map (fun v => if is_infinity v then nan else v) values) w in
  let present_not_minus_one :=
    match valid_loss with
    | Float64 values =>
        map (fun v => (v =? v)%float && negb (v =? -1)%float) values
    | Int64 values => map (fun z => negb (float_of_Z z =? -1)%float) values
    end in
  let kept col :=
    map snd (filter (fun row => fst row)
                    (combine present_not_minus_one (ensure_float64 col))) in
  show_ft_metrics repeats_exact results_df window_size
  = Returned
      [ {| title := "Train Loss";
           xs := smooth (ensure_float64 step);
           ys := smooth (ensure_float64 train_loss) |};
        {| title := "Train Mean Token Accuracy";
           xs := smooth (ensure_float64 step);
           ys := smooth (ensure_float64 train_acc) |};
        {| title := "Validation Loss";
           xs := smooth (kept step); ys := smooth (kept valid_loss) |};
        {| title := "Validation Mean Token Accuracy";
           xs := smooth (kept step); ys := smooth (kept valid_acc) |} ].
Proof.
  intros Hw Hs Htl Hta Hvl Hva w smooth present_not_minus_one kept.
  rewrite (show_ft_metrics_curves _ Hw Hs Htl Hta Hvl Hva).
  unfold curves_of, smooth, kept, present_not_minus_one, validation_rows,
    prep_values, usable.
  destruct valid_loss; reflexivity.
Qed.

(** C7 (amended).  [show_ft_metrics] reads the columns [step],
    [train_loss], [train_mean_token_accuracy], [valid_loss] and
    [valid_mean_token_accuracy]: with a non-negative window it plots
    exactly when the table has these five columns, it raises [KeyError]
    for one of them that the table lacks, and two tables that agree on the
    five give the same curves. *)
Theorem show_ft_metrics_columns (results_df : DataFrame) (window_size : Z) :
  (0 <= window_size)%Z ->
  ((exists curves,
       show_ft_metrics repeats_exact results_df window_size = Returned curves)
   <-> (forall name, In name plotted_columns ->
                     exists col, getitem results_df name = Returned col)) /\
  ((exists name, In name plotted_columns /\
                 forall col, getitem results_df name <> Returned col) ->
   exists name,
     In name plotted_columns /\
     (forall col, getitem results_df name <> Returned col) /\
     show_ft_metrics repeats_exact results_df window_size
     = Raised (PyExn KeyError name)) /\
  (forall other : DataFrame,
     (forall name, In name plotted_columns ->
                   getitem other name = getitem results_df name) ->
     show_ft_metrics repeats_exact other window_size
     = show_ft_metrics repeats_exact results_df window_size).
Proof.
  intros Hw. split; [split|split].
  - intros [curves Hc] name Hin.
    rewrite show_ft_metrics_unfold in Hc.
    destruct (Z.ltb_spec window_size 0); [lia|].
    destruct (getitem results_df "valid_loss") as [vl|e] eqn:Evl;
      [|discriminate Hc].
    destruct (getitem results_df "step") as [st|e] eqn:Est;
      [|discriminate Hc].
    destruct (getitem results_df "train_loss") as [tl|e] eqn:Etl;
      [|discriminate Hc].
    destruct (getitem results_df "train_mean_token_accuracy") as [ta|e] eqn:Eta;
      [|discriminate Hc].
    destruct (getitem results_df "valid_mean_token_accuracy") as [va|e] eqn:Eva;
      [|discriminate Hc].
    cbn in Hin.
    destruct Hin as [<-|[<-|[<-|[<-|[<-|[]]]]]]; eauto.
  - intros Hall. rewrite show_ft_metrics_unfold.
    destruct (Z.ltb_spec window_size 0); [lia|].
    destruct (Hall "valid_loss"%string) as [vl ->]; [cbn; tauto|].
    destruct (Hall "step"%string) as [st ->]; [cbn; tauto|].
    destruct (Hall "train_loss"%string) as [tl ->]; [cbn; tauto|].
    destruct (Hall "train_mean_token_accuracy"%string) as [ta ->]; [cbn; tauto|].
    destruct (Hall "valid_mean_token_accuracy"%string) as [va ->]; [cbn; tauto|].
    cbn [bind]. eauto.
  - intros (missing & Hin & Hmiss). rewrite show_ft_metrics_unfold.
    destruct (Z.ltb_spec window_size 0); [lia|].
    assert (Hrep : forall name e,
               In name plotted_columns ->
               getitem results_df name = Raised e ->
               In name plotted_columns /\
               (forall col, getitem results_df name <> Returned col) /\
               @Raised (list curve) e = Raised (PyExn KeyError name)).
    { intros name e Hn He. split; [exact Hn|]. split.
      - intros col Hc. rewrite Hc in He. discriminate He.
      - rewrite (getitem_Raised _ _ He). reflexivity. }
    destruct (getitem results_df "valid_loss") as [vl|e] eqn:Evl; cbn [bind].
    2:{ exists "valid_loss"%string. apply Hrep; [cbn; tauto|exact Evl]. }
    destruct (getitem results_df "step") as [st|e] eqn:Est; cbn [bind].
    2:{ exists "step"%string. apply Hrep; [cbn; tauto|exact Est]. }
    destruct (getitem results_df "train_loss") as [tl|e] eqn:Etl; cbn [bind].
    2:{ exists "train_loss"%string. apply Hrep; [cbn; tauto|exact Etl]. }
    destruct (getitem results_df "train_mean_token_accuracy") as [ta|e] eqn:Eta;
      cbn [bind].
    2:{ exists "train_mean_token_accuracy"%string.
        apply Hrep; [cbn; tauto|exact Eta]. }
    destruct (getitem results_df "valid_mean_token_accuracy") as [va|e] eqn:Eva;
      cbn [bind].
    2:{ exists "valid_mean_token_accuracy"%string.
        apply Hrep; [cbn; tauto|exact Eva]. }
    exfalso. cbn in Hin.
    destruct Hin as [<-|[<-|[<-|[<-|[<-|[]]]]]];
      eapply Hmiss; eassumption.
  - intros other Hsame. rewrite !show_ft_metrics_unfold.
    rewrite !Hsame by (cbn; tauto). reflexivity.
Qed.

End PlotFacts.

Lemma show_ft_metrics_filters_validation_only_witness :
  let smooth values :=
    roll_mean true (map (fun v => if is_infinity v then nan else v) values) 2 in
  show_ft_metrics true sample_metrics 2
  = Returned
      [ {| title := "Train Loss";
           xs := smooth [1; 2; 3; 4; 5; 6]%float;
           ys := smooth [9; 6; 3; 3; 0; 3]%float |};
        {| title := "Train Mean Token Accuracy";
           xs := smooth [1; 2; 3; 4; 5; 6]%float;
           ys := smooth [0; 1; 1; 1; 1; 1]%float |};
        {| title := "Validation Loss";
           xs := smooth [1; 4; 5; 6]%float;
           ys := smooth [8; 4; 3; 2]%float |};
        {| title := "Validation Mean Token Accuracy";
           xs := smooth [1; 4; 5; 6]%float;
           ys := smooth [0; 1; 1; 1]%float |} ].
Proof.
  apply (@show_ft_metrics_filters_validation_only true sample_metrics 2
           (Int64 [1; 2; 3; 4; 5; 6]%Z)
           (Float64 [9; 6; 3; 3; 0; 3]%float)
           (Float64 [0; 1; 1; 1; 1; 1]%float)
           (Float64 [8; nan; -1; 4; 3; 2]%float)
           (Float64 [0; nan; -1; 1; 1; 1]%float));
    solve [reflexivity | lia].
Defined.

(** C7 as written fails: a table under the prose field names has no
    [valid_loss] column, and the plot raises [KeyError]. *)
Lemma prose_columns_not_plotted : ~ plots_prose_columns.
Proof.
  intros [repeats_exact H].
  destruct (H prose_metrics 5%Z eq_refl ltac:(lia)) as [curves Hc].
  rewrite show_ft_metrics_unfold in Hc. discriminate Hc.
Qed.

Example prose_metrics_KeyError :
  show_ft_metrics true prose_metrics 5 = Raised (PyExn KeyError "valid_loss").
Proof. reflexivity. Qed.

Lemma show_ft_metrics_columns_witness :
  (0 <= 5)%Z /\
  ((exists curves, show_ft_metrics true prose_metrics 5 = Returned curves)
   <-> (forall name, In name plotted_columns ->
                     exists col, getitem prose_metrics name = Returned col)) /\
  ((exists name, In name plotted_columns /\
                 forall col, getitem prose_metrics name <> Returned col) ->
   exists name,
     In name plotted_columns /\
     (forall col, getitem prose_metrics name <> Returned col) /\
     show_ft_metrics true prose_metrics 5 = Raised (PyExn KeyError name)) /\
  (forall other : DataFrame,
     (forall name, In name plotted_columns ->
                   getitem other name = getitem prose_metrics name) ->
     show_ft_metrics true other 5 = show_ft_metrics true prose_metrics 5).
Proof.
  assert (H0 : (0 <= 5)%Z) by lia.
  split; [exact H0|]. exact (show_ft_metrics_columns true prose_metrics H0).
Defined.

(** ** Base64 and [encode_image] *)

Lemma in_all_bytes b : In b all_bytes.
Proof.
  unfold all_bytes. apply in_map_iff. exists (Byte.to_nat b). split.
  - rewrite Byte.of_to_nat. reflexivity.
  - apply in_seq. pose proof (Byte.to_nat_bounded b). lia.
Qed.

Lemma byte_forall (P : byte -> bool) :
  forallb P all_bytes = true -> forall b, P b = true.
Proof.
  intros H b. rewrite forallb_forall in H. apply H, in_all_bytes.
Qed.

Lemma byte_forall2 (P : byte -> byte -> bool) :
  forallb (fun a => forallb (P a) all_bytes) all_bytes = true ->
  forall a b, P a b = true.
Proof.
  intros H a b.
  apply (byte_forall (P a)). revert a. apply byte_forall. exact H.
Qed.

Lemma below_forall n (P : N -> bool) :
  forallb P (below n) = true -> forall s, (s < N.of_nat n)%N -> P s = true.
Proof.
  intros H s Hs. rewrite forallb_forall in H. apply H.
  unfold below. apply in_map_iff. exists (N.to_nat s). split.
  - apply N2Nat.id.
  - apply in_seq. lia.
Qed.

Lemma sextet1_bound a : (sextet1 (Byte.to_N a) < 64)%N.
Proof.
  apply N.ltb_lt. revert a. apply byte_forall. vm_compute. reflexivity.
Qed.

Lemma sextet2_bound a b : (sextet2 (Byte.to_N a) (Byte.to_N b) < 64)%N.
Proof.
  apply N.ltb_lt. revert a b.
  apply (byte_forall2 (fun a b => (sextet2 (Byte.to_N a) (Byte.to_N b) <? 64)%N)).
  vm_compute. reflexivity.
Qed.

Lemma sextet3_bound b c : (sextet3 (Byte.to_N b) (Byte.to_N c) < 64)%N.
Proof.
  apply N.ltb_lt. revert b c.
  apply (byte_forall2 (fun b c => (sextet3 (Byte.to_N b) (Byte.to_N c) <? 64)%N)).
  vm_compute. reflexivity.
Qed.

Lemma sextet4_bound c : (sextet4 (Byte.to_N c) < 64)%N.
Proof.
  apply N.ltb_lt. revert c. apply byte_forall. vm_compute. reflexivity.
Qed.

(** Reading an alphabet character gives back its six bits, and it is not
    the padding character. *)
Lemma b64_index_char s :
  (s < 64)%N ->
  b64_index (Byte.to_N (b64_char s)) = Some s /\
  is_pad (Byte.to_N (b64_char s)) = false.
Proof.
  intros Hs.
  pose (P := fun s => match b64_index (Byte.to_N (b64_char s)) with
                      | Some s' => (s' =? s)%N
                      | None => false
                      end && negb (is_pad (Byte.to_N (b64_char s)))).
  assert (H : P s = true).
  { apply (@below_forall 64 P); [vm_compute; reflexivity|exact Hs]. }
  unfold P in H. apply andb_true_iff in H. destruct H as [H1 H2].
  destruct (b64_index (Byte.to_N (b64_char s))) as [s'|]; [|discriminate].
  apply N.eqb_eq in H1. subst s'. split; [reflexivity|].
  apply negb_true_iff, H2.
Qed.

Lemma octet1_sextets a b :
  octet1 (sextet1 (Byte.to_N a)) (sextet2 (Byte.to_N a) (Byte.to_N b))
  = Byte.to_N a.
Proof.
  apply N.eqb_eq. revert a b.
  apply (byte_forall2
           (fun a b => (octet1 (sextet1 (Byte.to_N a))
                               (sextet2 (Byte.to_N a) (Byte.to_N b))
                        =? Byte.to_N a)%N)).
  vm_compute. reflexivity.
Qed.

Lemma sextet2_low a b :
  N.land (sextet2 (Byte.to_N a) (Byte.to_N b)) 15 = N.shiftr (Byte.to_N b) 4.
Proof.
  apply N.eqb_eq. revert a b.
  apply (byte_forall2
           (fun a b => (N.land (sextet2 (Byte.to_N a) (Byte.to_N b)) 15
                        =? N.shiftr (Byte.to_N b) 4)%N)).
  vm_compute. reflexivity.
Qed.

Lemma sextet3_high b c :
  N.shiftr (sextet3 (Byte.to_N b) (Byte.to_N c)) 2 = N.land (Byte.to_N b) 15.
Proof.
  apply N.eqb_eq. revert b c.
  apply (byte_forall2
           (fun b c => (N.shiftr (sextet3 (Byte.to_N b) (Byte.to_N c)) 2
                        =? N.land (Byte.to_N b) 15)%N)).
  vm_compute. reflexivity.
Qed.

Lemma nibbles b :
  N.lor (N.shiftl (N.shiftr (Byte.to_N b) 4) 4) (N.land (Byte.to_N b) 15)
  = Byte.to_N b.
Proof.
  apply N.eqb_eq. revert b. apply byte_forall. vm_compute. reflexivity.
Qed.

Lemma octet2_sextets a b c :
  octet2 (sextet2 (Byte.to_N a) (Byte.to_N b))
         (sextet3 (Byte.to_N b) (Byte.to_N c))
  = Byte.to_N b.
Proof.
  unfold octet2. rewrite sextet2_low, sextet3_high. apply nibbles.
Qed.

Lemma octet3_sextets b c :
  octet3 (sextet3 (Byte.to_N b) (Byte.to_N c)) (sextet4 (Byte.to_N c))
  = Byte.to_N c.
Proof.
  apply N.eqb_eq. revert b c.
  apply (byte_forall2
           (fun b c => (octet3 (sextet3 (Byte.to_N b) (Byte.to_N c))
                               (sextet4 (Byte.to_N c))
                        =? Byte.to_N c)%N)).
  vm_compute. reflexivity.
Qed.

Lemma list_ind3 (A : Type) (P : list A -> Prop) :
  P [] -> (forall a, P [a]) -> (forall a b, P [a; b]) ->
  (forall a b c l, P l -> P (a :: b :: c :: l)) ->
  forall l, P l.
Proof.
  intros H0 H1 H2 H3.
  fix IH 1. intros [|a [|b [|c l]]].
  - exact H0.
  - apply H1.
  - apply H2.
  - apply H3, IH.
Qed.

Lemma b64decode_one a :
  b64decode (map Byte.to_N (b64encode [a])) = Some [a].
Proof.
  pose (P := fun a => match b64decode (map Byte.to_N (b64encode [a])) with
                      | Some [x] => Byte.eqb x a
                      | _ => false
                      end).
  assert (H : P a = true) by (revert a; apply byte_forall; vm_compute; reflexivity).
  unfold P in H.
  destruct (b64decode (map Byte.to_N (b64encode [a]))) as [[|x [|y l]]|];
    try discriminate.
  apply Byte.byte_dec_bl in H. subst x. reflexivity.
Qed.

Lemma b64decode_two a b :
  b64decode (map Byte.to_N (b64encode [a; b])) = Some [a; b].
Proof.
  pose (P := fun a b => match b64decode (map Byte.to_N (b64encode [a; b])) with
                        | Some [x; y] => Byte.eqb x a && Byte.eqb y b
                        | _ => false
                        end).
  assert (H : P a b = true)
    by (revert a b; apply byte_forall2; vm_compute; reflexivity).
  unfold P in H.
  destruct (b64decode (map Byte.to_N (b64encode [a; b])))
    as [[|x [|y [|z l]]]|]; try discriminate.
  apply andb_true_iff in H. destruct H as [Hx Hy].
  apply Byte.byte_dec_bl in Hx, Hy. subst x y. reflexivity.
Qed.

(** Decoding inverts encoding. *)
Lemma b64decode_b64encode data :
  b64decode (map Byte.to_N (b64encode data)) = Some data.
Proof.
  induction data as [| a | a b | a b c rest IH] using list_ind3.
  - reflexivity.
  - apply b64decode_one.
  - apply b64decode_two.
  - cbn [b64encode map b64decode].
    destruct (b64_index_char (sextet1_bound a)) as [-> _].
    destruct (b64_index_char (sextet2_bound a b)) as [-> _].
    destruct (b64_index_char (sextet3_bound b c)) as [-> ->].
    destruct (b64_index_char (sextet4_bound c)) as [-> ->].
    rewrite IH. cbn [bytes_of].
    rewrite octet1_sextets, octet2_sextets, octet3_sextets.
    rewrite !Byte.of_to_N. reflexivity.
Qed.

Lemma b64_char_ascii s : (Byte.to_N (b64_char s) < 128)%N.
Proof.
  destruct (N.lt_ge_cases s 64) as [Hs|Hs].
  - apply N.ltb_lt.
    apply (@below_forall 64 (fun s => (Byte.to_N (b64_char s) <? 128)%N));
      [vm_compute; reflexivity|exact Hs].
  - unfold b64_char. rewrite nth_overflow; [reflexivity|].
    change (length b64_alphabet) with 64. lia.
Qed.

Lemma b64_char_is_b64_char s : is_b64_char (Byte.to_N (b64_char s)) = true.
Proof.
  destruct (N.lt_ge_cases s 64) as [Hs|Hs].
  - unfold is_b64_char. destruct (b64_index_char Hs) as [-> _]. reflexivity.
  - unfold b64_char. rewrite nth_overflow; [reflexivity|].
    change (length b64_alphabet) with 64. lia.
Qed.

(** The encoder's output: ASCII bytes, all of them base64 characters. *)
Lemma b64encode_chars data :
  Forall (fun b => (Byte.to_N b < 128)%N /\ is_b64_char (Byte.to_N b) = true)
         (b64encode data).
Proof.
  induction data as [| a | a b | a b c rest IH] using list_ind3;
    cbn [b64encode];
    repeat (apply Forall_cons;
            [split; first [apply b64_char_ascii | apply b64_char_is_b64_char
                          | reflexivity]|]);
    first [apply Forall_nil | exact IH].
Qed.

(** Decoding ASCII bytes as UTF-8 yields one code point per byte. *)
Lemma utf8_decode_ascii data :
  Forall (fun b => (Byte.to_N b < 128)%N) data ->
  utf8_decode data = Returned (map Byte.to_N data).
Proof.
  induction 1 as [|b data Hb _ IH]; [reflexivity|].
  cbn [utf8_decode map].
  apply N.ltb_lt in Hb. rewrite Hb, IH. reflexivity.
Qed.

Lemma utf8_decode_b64encode data :
  utf8_decode (b64encode data) = Returned (map Byte.to_N (b64encode data)).
Proof.
  apply utf8_decode_ascii.
  eapply Forall_impl; [|apply b64encode_chars]. cbn. tauto.
Qed.

Section EncodeImage.
Context `{Imaging}.

(** When Pillow hands back an image for the JPEG writer and the writer
    hands back bytes, [encode_image] returns their base64 text. *)
Lemma encode_image_of_jpeg (img rgb : image) (quality : Z) (jpeg : list byte) :
  (if String.eqb (mode img) "RGB" then rgb = img
   else convert img "RGB" = Returned rgb) ->
  save_jpeg rgb quality = Returned jpeg ->
  encode_image img quality = Returned (map Byte.to_N (b64encode jpeg)).
Proof.
  intros Hrgb Hsave. unfold encode_image.
  destruct (String.eqb (mode img) "RGB"); cbn [negb].
  - subst rgb. cbn [bind]. rewrite Hsave. cbn [bind].
    apply utf8_decode_b64encode.
  - rewrite Hrgb. cbn [bind]. rewrite Hsave. cbn [bind].
    apply utf8_decode_b64encode.
Qed.

(** A returned result came from a conversion (when the mode is not RGB)
    and a save that both returned. *)
Lemma encode_image_Returned (img : image) (quality : Z) (s : pystr) :
  encode_image img quality = Returned s ->
  exists rgb jpeg,
    (if String.eqb (mode img) "RGB" then rgb = img
     else convert img "RGB" = Returned rgb) /\
    save_jpeg rgb quality = Returned jpeg /\
    s = map Byte.to_N (b64encode jpeg).
Proof.
  unfold encode_image.
  destruct (String.eqb (mode img) "RGB") eqn:Em; cbn [negb bind].
  - destruct (save_jpeg img quality) as [jpeg|e] eqn:Es; cbn [bind];
      [|discriminate].
    rewrite utf8_decode_b64encode. intros E. injection E as <-.
    exists img, jpeg. auto.
  - destruct (convert img "RGB") as [rgb|e] eqn:Ec; cbn [bind];
      [|discriminate].
    destruct (save_jpeg rgb quality) as [jpeg|e] eqn:Es; cbn [bind];
      [|discriminate].
    rewrite utf8_decode_b64encode. intros E. injection E as <-.
    exists rgb, jpeg. auto.
Qed.

(** C9 (amended).  [encode_image] hands an RGB image to the JPEG writer
    as it is and any other image through [convert('RGB')].  It returns
    exactly when that conversion and the writer both return, and then its
    result is an ASCII string of base64 characters that decodes to the
    bytes the writer produced; when either of them raises, [encode_image]
    raises the same exception. *)
Theorem encode_image_returns_what_pillow_writes (img : image) (quality : Z) :
  match (if String.eqb (mode img) "RGB" then Returned img
         else convert img "RGB") with
  | Returned rgb =>
      match save_jpeg rgb quality with
      | Returned jpeg =>
          exists s,
            encode_image img quality = Returned s /\
            Forall (fun c => (c < 128)%N /\ is_b64_char c = true) s /\
            b64decode s = Some jpeg
      | Raised e => encode_image img quality = Raised e
      end
  | Raised e => encode_image img quality = Raised e
  end.
Proof.
  unfold encode_image.
  destruct (String.eqb (mode img) "RGB"); cbn [negb bind].
  - destruct (save_jpeg img quality) as [jpeg|e]; cbn [bind]; [|reflexivity].
    exists (map Byte.to_N (b64encode jpeg)).
    split; [apply utf8_decode_b64encode|].
    split; [apply Forall_map, b64encode_chars|apply b64decode_b64encode].
  - destruct (convert img "RGB") as [rgb|e]; cbn [bind]; [|reflexivity].
    destruct (save_jpeg rgb quality) as [jpeg|e]; cbn [bind]; [|reflexivity].
    exists (map Byte.to_N (b64encode jpeg)).
    split; [apply utf8_decode_b64encode|].
    split; [apply Forall_map, b64encode_chars|apply b64decode_b64encode].
Qed.

End EncodeImage.

Example encode_image_rgba_chart :
  encode_image rgba_chart 80 = Returned (lit "/9gQIDD/2Q==").
Proof. reflexivity. Qed.

Example encode_image_la_chart :
  encode_image la_chart 80
  = Raised (PyExn ValueError "conversion not supported").
Proof. reflexivity. Qed.

Example encode_image_empty_chart :
  encode_image empty_chart 80
  = Raised (PyExn ValueError "cannot write empty image as JPEG").
Proof. reflexivity. Qed.

Example encode_image_cut_chart :
  encode_image cut_chart 80
  = Raised (PyExn OSError "image file is truncated").
Proof. reflexivity. Qed.

(** C9 as written fails: an image in mode [La] is not converted, and
    nothing is returned for it. *)
Lemma encode_image_refuses_La : ~ encode_image_always_returns.
Proof.
  intros Hc. destruct (Hc la_chart 100%Z) as [s Hs]. discriminate Hs.
Qed.

(** ** JSON strings: escaping and reading back *)

Lemma nibble x k : N.land (N.shiftr x (4 * k)) 15 = ((x / 16 ^ k) mod 16)%N.
Proof.
  change 15%N with (N.ones 4). rewrite N.land_ones, N.shiftr_div_pow2.
  rewrite N.pow_mul_r. reflexivity.
Qed.

Lemma hex4_sum n :
  (n < 0x10000)%N ->
  ((((n / 4096) mod 16 * 16 + (n / 256) mod 16) * 16 + (n / 16) mod 16) * 16
   + n mod 16 = n)%N.
Proof.
  intros Hn.
  pose proof (N.div_mod n 16 ltac:(discriminate)) as E0.
  pose proof (N.mod_lt n 16 ltac:(discriminate)) as B0.
  pose proof (N.div_mod (n / 16) 16 ltac:(discriminate)) as E1.
  pose proof (N.mod_lt (n / 16) 16 ltac:(discriminate)) as B1.
  pose proof (N.div_mod (n / 16 / 16) 16 ltac:(discriminate)) as E2.
  pose proof (N.mod_lt (n / 16 / 16) 16 ltac:(discriminate)) as B2.
  rewrite !N.Div0.div_div in *. change (16 * 16)%N with 256%N in *.
  change (256 * 16)%N with 4096%N in *.
  assert (H3 : (n / 4096 < 16)%N) by (apply N.Div0.div_lt_upper_bound; exact Hn).
  rewrite (N.mod_small (n / 4096) 16) by exact H3.
  lia.
Qed.

Lemma hex_digit_value d :
  (d < 16)%N -> hex_value (hex_digit d) = Some d /\ printable (hex_digit d) = true.
Proof.
  intros Hd.
  pose (P := fun d => match hex_value (hex_digit d) with
                      | Some d' => (d' =? d)%N
                      | None => false
                      end && printable (hex_digit d)).
  assert (HP : P d = true).
  { apply (@below_forall 16 P); [vm_compute; reflexivity|exact Hd]. }
  unfold P in HP. apply andb_true_iff in HP. destruct HP as [H1 H2].
  destruct (hex_value (hex_digit d)) as [d'|]; [|discriminate].
  apply N.eqb_eq in H1. subst d'. auto.
Qed.

Lemma land_15_bound x : (N.land x 15 < 16)%N.
Proof.
  change 15%N with (N.ones 4). rewrite N.land_ones.
  apply N.mod_lt. discriminate.
Qed.

Lemma decode_hex4 n :
  (n < 0x10000)%N ->
  decode_uXXXX (hex_digit (N.land (N.shiftr n 12) 15))
               (hex_digit (N.land (N.shiftr n 8) 15))
               (hex_digit (N.land (N.shiftr n 4) 15))
               (hex_digit (N.land n 15)) = Some n.
Proof.
  intros Hn. unfold decode_uXXXX.
  destruct (hex_digit_value (land_15_bound (N.shiftr n 12))) as [-> _].
  destruct (hex_digit_value (land_15_bound (N.shiftr n 8))) as [-> _].
  destruct (hex_digit_value (land_15_bound (N.shiftr n 4))) as [-> _].
  destruct (hex_digit_value (land_15_bound n)) as [-> _].
  f_equal.
  change (N.shiftr n 12) with (N.shiftr n (4 * 3)).
  change (N.shiftr n 8) with (N.shiftr n (4 * 2)).
  change (N.shiftr n 4) with (N.shiftr n (4 * 1)).
  replace (N.land n 15) with (N.land (N.shiftr n (4 * 0)) 15)
    by (rewrite N.shiftr_0_r; reflexivity).
  rewrite !nibble.
  change (16 ^ 3)%N with 4096%N. change (16 ^ 2)%N with 256%N.
  change (16 ^ 1)%N with 16%N. change (16 ^ 0)%N with 1%N.
  rewrite N.div_1_r. apply hex4_sum, Hn.
Qed.

Lemma hex4_printable n : forallb printable (hex4 n) = true.
Proof.
  unfold hex4. cbn [forallb].
  destruct (hex_digit_value (land_15_bound (N.shiftr n 12))) as [_ ->].
  destruct (hex_digit_value (land_15_bound (N.shiftr n 8))) as [_ ->].
  destruct (hex_digit_value (land_15_bound (N.shiftr n 4))) as [_ ->].
  destruct (hex_digit_value (land_15_bound n)) as [_ ->].
  reflexivity.
Qed.

(** Unfoldings of [scanstring] on the shapes the encoder produces. *)
Lemma scanstring_plain c r :
  c <> 34%N -> c <> 92%N -> (32 <= c)%N ->
  scanstring (c :: r) = option_map (prepend c) (scanstring r).
Proof.
  intros H1 H2 H3. cbn [scanstring].
  apply N.eqb_neq in H1, H2. rewrite H1, H2.
  destruct (N.ltb_spec c 32); [lia|reflexivity].
Qed.

Lemma scanstring_short esc ch r :
  esc <> 117%N -> unescape esc = Some ch ->
  scanstring (92%N :: esc :: r) = option_map (prepend ch) (scanstring r).
Proof.
  intros H1 H2. cbn [scanstring].
  change (92 =? 34)%N with false. change (92 =? 92)%N with true. cbv iota.
  apply N.eqb_neq in H1. rewrite H1, H2. reflexivity.
Qed.

Lemma scanstring_u h1 h2 h3 h4 uni r :
  decode_uXXXX h1 h2 h3 h4 = Some uni ->
  in_range 0xd800 0xdbff uni = false ->
  scanstring (92%N :: 117%N :: h1 :: h2 :: h3 :: h4 :: r)
  = option_map (prepend uni) (scanstring r).
Proof.
  intros H1 H2. cbn [scanstring].
  change (92 =? 34)%N with false. change (92 =? 92)%N with true.
  change (117 =? 117)%N with true. cbv iota.
  rewrite H1, H2. reflexivity.
Qed.

Lemma scanstring_pair h1 h2 h3 h4 g1 g2 g3 g4 uni uni2 r :
  decode_uXXXX h1 h2 h3 h4 = Some uni ->
  in_range 0xd800 0xdbff uni = true ->
  decode_uXXXX g1 g2 g3 g4 = Some uni2 ->
  in_range 0xdc00 0xdfff uni2 = true ->
  scanstring (92%N :: 117%N :: h1 :: h2 :: h3 :: h4
              :: 92%N :: 117%N :: g1 :: g2 :: g3 :: g4 :: r)
  = option_map
      (prepend (0x10000 + N.lor (N.shiftl (uni - 0xd800) 10) (uni2 - 0xdc00))%N)
      (scanstring r).
Proof.
  intros H1 H2 H3 H4. cbn [scanstring].
  change (92 =? 34)%N with false. change (92 =? 92)%N with true.
  change (117 =? 117)%N with true. cbv iota.
  rewrite H1, H2. cbn [andb]. rewrite H3, H4. reflexivity.
Qed.

(** The surrogate pair of a code point beyond the basic plane. *)
Lemma low_bits_bound n : (N.land n 0x3ff < 1024)%N.
Proof.
  change 0x3ff%N with (N.ones 10). rewrite N.land_ones.
  apply N.mod_lt. discriminate.
Qed.

Lemma surrogate_facts base h :
  (base = 0xd800 \/ base = 0xdc00)%N -> (h < 1024)%N ->
  (N.lor base h < 0x10000)%N /\
  in_range base (base + 0x3ff) (N.lor base h) = true /\
  (N.lor base h - base = h)%N.
Proof.
  intros Hb Hh.
  pose (P := fun base h => (N.lor base h <? 0x10000)%N
                           && in_range base (base + 0x3ff) (N.lor base h)
                           && (N.lor base h - base =? h)%N).
  assert (HP : P base h = true).
  { destruct Hb as [-> | ->];
      (apply (@below_forall 1024 (P _)); [vm_compute; reflexivity|exact Hh]). }
  unfold P in HP. rewrite !andb_true_iff in HP.
  destruct HP as [[H1 H2] H3].
  apply N.ltb_lt in H1. apply N.eqb_eq in H3. auto.
Qed.

Lemma split_at_10 n :
  N.lor (N.shiftl (N.land (N.shiftr n 10) 0x3ff) 10) (N.land n 0x3ff) = n
  \/ (0x100000 <= n)%N.
Proof.
  destruct (N.lt_ge_cases n 0x100000) as [Hn|Hn]; [left|right; exact Hn].
  assert (Hhi : (N.shiftr n 10 < 1024)%N).
  { rewrite N.shiftr_div_pow2. apply N.Div0.div_lt_upper_bound. exact Hn. }
  change 0x3ff%N with (N.ones 10).
  rewrite (N.land_ones (N.shiftr n 10)), N.mod_small by exact Hhi.
  rewrite <- N.ldiff_ones_r. apply N.lor_ldiff_and.
Qed.

Lemma scanstring_escape_char c t :
  is_scalar c = true ->
  scanstring (escape_char c ++ t) = option_map (prepend c) (scanstring t).
Proof.
  intros Hc. unfold escape_char.
  destruct (N.eqb_spec c 92) as [->|H92]; [reflexivity|].
  destruct (N.eqb_spec c 34) as [->|H34]; [reflexivity|].
  destruct (in_range 32 126 c) eqn:Hp.
  { apply scanstring_plain; trivial.
    unfold in_range in Hp. apply andb_true_iff in Hp.
    destruct Hp as [Hp _]. apply N.leb_le, Hp. }
  destruct (N.eqb_spec c 8) as [->|H8]; [reflexivity|].
  destruct (N.eqb_spec c 12) as [->|H12]; [reflexivity|].
  destruct (N.eqb_spec c 10) as [->|H10]; [reflexivity|].
  destruct (N.eqb_spec c 13) as [->|H13]; [reflexivity|].
  destruct (N.eqb_spec c 9) as [->|H9]; [reflexivity|].
  unfold is_scalar, in_range in Hc.
  destruct (N.ltb_spec c 0x10000) as [Hb|Hb].
  - unfold hex4. cbn [app]. apply scanstring_u; [apply decode_hex4, Hb|].
    unfold in_range.
    destruct (N.ltb_spec c 0xd800) as [Hs|Hs].
    + destruct (N.leb_spec 0xd800 c); [lia|reflexivity].
    + cbn [orb] in Hc. apply andb_true_iff in Hc. destruct Hc as [Hc _].
      apply N.leb_le in Hc.
      destruct (N.leb_spec c 0xdbff); [lia|]. apply andb_false_r.
  - assert (Hn : (c - 0x10000 < 0x100000)%N).
    { destruct (N.ltb_spec c 0xd800); [lia|]. cbn [orb] in Hc.
      apply andb_true_iff in Hc. destruct Hc as [_ Hc].
      apply N.leb_le in Hc. lia. }
    set (n := (c - 0x10000)%N) in *. cbv zeta.
    set (hi := N.land (N.shiftr n 10) 0x3ff).
    set (lo := N.land n 0x3ff).
    destruct (@surrogate_facts 0xd800 hi) as (A1 & A2 & A3);
      [left; reflexivity|apply low_bits_bound|].
    destruct (@surrogate_facts 0xdc00 lo) as (B1 & B2 & B3);
      [right; reflexivity|apply low_bits_bound|].
    unfold hex4. cbn [app].
    erewrite scanstring_pair;
      [|apply decode_hex4, A1|exact A2|apply decode_hex4, B1|exact B2].
    rewrite A3, B3.
    destruct (split_at_10 n) as [E|E]; [|lia].
    fold hi lo in E. rewrite E.
    replace (0x10000 + n)%N with c by (unfold n; lia). reflexivity.
Qed.

Lemma scanstring_escape s r :
  wf_str s ->
  scanstring (flat_map escape_char s ++ 34%N :: r) = Some (s, r).
Proof.
  induction 1 as [|c s Hc _ IH]; [reflexivity|].
  cbn [flat_map]. rewrite <- app_assoc.
  rewrite scanstring_escape_char by exact Hc. rewrite IH. reflexivity.
Qed.

Lemma escape_char_printable c : forallb printable (escape_char c) = true.
Proof.
  unfold escape_char.
  destruct (c =? 92)%N; [reflexivity|].
  destruct (c =? 34)%N; [reflexivity|].
  destruct (in_range 32 126 c) eqn:Hp.
  { cbn [forallb]. unfold printable. rewrite Hp. reflexivity. }
  destruct (c =? 8)%N; [reflexivity|].
  destruct (c =? 12)%N; [reflexivity|].
  destruct (c =? 10)%N; [reflexivity|].
  destruct (c =? 13)%N; [reflexivity|].
  destruct (c =? 9)%N; [reflexivity|].
  destruct (c <? 0x10000)%N.
  - cbn [forallb]. rewrite hex4_printable. reflexivity.
  - cbv zeta. rewrite forallb_app. cbn [forallb].
    rewrite !hex4_printable. reflexivity.
Qed.

(** ** JSON values: [loads] inverts [dumps] *)

Lemma json_ind' (P : json -> Prop) :
  (forall s, P (JString s)) ->
  (forall items, Forall P items -> P (JList items)) ->
  (forall fields, Forall (fun kv => P (snd kv)) fields -> P (JDict fields)) ->
  forall v, P v.
Proof.
  intros Hs Hl Hd. fix IH 1. intros [s|items|fields].
  - apply Hs.
  - apply Hl. induction items as [|x items IHi]; constructor;
      [apply IH|exact IHi].
  - apply Hd. induction fields as [|[k x] fields IHf]; constructor;
      [apply IH|exact IHf].
Qed.

Lemma dumps_JList items :
  dumps (JList items) = 91%N :: join (lit ", ") (map dumps items) ++ [93%N].
Proof. reflexivity. Qed.

Lemma dumps_JDict fields :
  dumps (JDict fields)
  = 123%N :: join (lit ", ") (map dumps_field fields) ++ [125%N].
Proof. reflexivity. Qed.

(** Every serialised value starts with a quote, a bracket or a brace. *)
Lemma dumps_head v :
  exists c t, dumps v = c :: t /\ is_ws c = false /\ c <> 93%N /\ c <> 125%N.
Proof.
  destruct v as [s|items|fields].
  - exists 34%N. eexists. split; [reflexivity|]. repeat split; discriminate.
  - exists 91%N. eexists. rewrite dumps_JList.
    split; [reflexivity|]. repeat split; discriminate.
  - exists 123%N. eexists. rewrite dumps_JDict.
    split; [reflexivity|]. repeat split; discriminate.
Qed.

Lemma skip_ws_dumps v r : skip_ws (32%N :: dumps v ++ r) = dumps v ++ r.
Proof.
  destruct (dumps_head v) as (c & t & -> & Hc & _).
  cbn [skip_ws app]. change (is_ws 32) with true. cbv iota.
  cbn [skip_ws]. rewrite Hc. reflexivity.
Qed.

Lemma parse_value_JString fuel r :
  parse_value (S fuel) (34%N :: r)
  = option_map (fun sr => (JString (fst sr), snd sr)) (scanstring r).
Proof. reflexivity. Qed.

Lemma parse_value_JList fuel r :
  parse_value (S fuel) (91%N :: r)
  = match skip_ws r with
    | [] => None
    | c' :: r' =>
        if (c' =? 93)%N then Some (JList [], r')
        else option_map (fun ir => (JList (fst ir), snd ir))
                        (parse_items fuel (c' :: r'))
    end.
Proof. reflexivity. Qed.

Lemma parse_value_JDict fuel r :
  parse_value (S fuel) (123%N :: r)
  = match skip_ws r with
    | [] => None
    | c' :: r' =>
        if (c' =? 125)%N then Some (JDict [], r')
        else option_map (fun pr => (JDict (dict_of_pairs (fst pr)), snd pr))
                        (parse_members fuel (c' :: r'))
    end.
Proof. reflexivity. Qed.

Lemma parse_items_step fuel s :
  parse_items (S fuel) s
  = match parse_value fuel s with
    | None => None
    | Some (v, r) =>
        match skip_ws r with
        | [] => None
        | c :: r' =>
            if (c =? 93)%N then Some ([v], r')
            else if (c =? 44)%N then
              match parse_items fuel (skip_ws r') with
              | Some (vs, r'') => Some (v :: vs, r'')
              | None => None
              end
            else None
        end
    end.
Proof. reflexivity. Qed.

Lemma parse_members_step fuel r :
  parse_members (S fuel) (34%N :: r)
  = match scanstring r with
    | None => None
    | Some (key, r1) =>
        match skip_ws r1 with
        | [] => None
        | c1 :: r2 =>
            if (c1 =? 58)%N then
              match parse_value fuel (skip_ws r2) with
              | None => None
              | Some (v, r3) =>
                  match skip_ws r3 with
                  | [] => None
                  | c3 :: r4 =>
                      if (c3 =? 125)%N then Some ([(key, v)], r4)
                      else if (c3 =? 44)%N then
                        match parse_members fuel (skip_ws r4) with
                        | Some (kvs, r5) => Some ((key, v) :: kvs, r5)
                        | None => None
                        end
                      else None
                  end
              end
            else None
        end
    end.
Proof. reflexivity. Qed.

Lemma parse_items_join items :
  items <> [] ->
  Forall reads_back items -> Forall wf_json items ->
  forall fuel r,
    weight_items items <= fuel ->
    parse_items fuel (join (lit ", ") (map dumps items) ++ 93%N :: r)
    = Some (items, r).
Proof.
  induction items as [|v vs IH]; intros Hne Hrb Hwf fuel r Hfuel;
    [contradiction|].
  inversion Hrb as [|? ? Hv Hvs]; subst.
  inversion Hwf as [|? ? Wv Wvs]; subst.
  cbn [weight_items fold_right] in Hfuel. fold (weight_items vs) in Hfuel.
  destruct fuel as [|fuel]; [lia|].
  rewrite parse_items_step.
  destruct vs as [|v' vs'].
  - cbn [map join]. rewrite (Hv Wv) by lia. reflexivity.
  - change (join (lit ", ") (map dumps (v :: v' :: vs')))
      with (dumps v ++ lit ", " ++ join (lit ", ") (map dumps (v' :: vs'))).
    rewrite <- !app_assoc. rewrite (Hv Wv) by lia.
    change (lit ", " ++ join (lit ", ") (map dumps (v' :: vs')) ++ 93%N :: r)
      with (44%N :: 32%N :: join (lit ", ") (map dumps (v' :: vs')) ++ 93%N :: r).
    cbn [skip_ws]. change (is_ws 44) with false. cbv iota.
    change (44 =? 93)%N with false. change (44 =? 44)%N with true. cbv iota.
    assert (Hskip : skip_ws (32%N :: join (lit ", ") (map dumps (v' :: vs'))
                              ++ 93%N :: r)
                    = join (lit ", ") (map dumps (v' :: vs')) ++ 93%N :: r).
    { destruct vs' as [|v'' vs''].
      - cbn [map join]. apply skip_ws_dumps.
      - change (join (lit ", ") (map dumps (v' :: v'' :: vs'')))
          with (dumps v' ++ lit ", " ++ join (lit ", ") (map dumps (v'' :: vs''))).
        rewrite <- app_assoc. apply skip_ws_dumps. }
    rewrite Hskip, IH; trivial; [discriminate|lia].
Qed.

Lemma join_fields_head kv kvs r :
  exists t,
    join (lit ", ") (map dumps_field (kv :: kvs)) ++ r = 34%N :: t /\
    t = flat_map escape_char (fst kv)
        ++ 34%N :: 58%N :: 32%N :: dumps (snd kv)
        ++ (match kvs with
            | [] => r
            | _ :: _ => 44%N :: 32%N :: join (lit ", ") (map dumps_field kvs) ++ r
            end).
Proof.
  eexists. split; [|reflexivity].
  destruct kvs as [|kv' kvs'].
  - cbn [map join]. unfold dumps_field, encode_basestring_ascii.
    cbn [app]. rewrite <- !app_assoc. reflexivity.
  - change (join (lit ", ") (map dumps_field (kv :: kv' :: kvs')))
      with (dumps_field kv ++ lit ", "
            ++ join (lit ", ") (map dumps_field (kv' :: kvs'))).
    unfold dumps_field at 1. unfold encode_basestring_ascii.
    cbn [app]. rewrite <- !app_assoc. reflexivity.
Qed.

Lemma parse_members_join fields :
  fields <> [] ->
  Forall (fun kv => reads_back (snd kv)) fields ->
  Forall (fun kv => wf_str (fst kv) /\ wf_json (snd kv)) fields ->
  forall fuel r,
    weight_fields fields <= fuel ->
    parse_members fuel (join (lit ", ") (map dumps_field fields) ++ 125%N :: r)
    = Some (fields, r).
Proof.
  induction fields as [|[k v] kvs IH]; intros Hne Hrb Hwf fuel r Hfuel;
    [contradiction|].
  inversion Hrb as [|? ? Hv Hvs]; subst.
  inversion Hwf as [|? ? [Wk Wv] Wvs]; subst.
  cbn [fst snd] in Hv, Wk, Wv.
  cbn [weight_fields fold_right snd] in Hfuel. fold (weight_fields kvs) in Hfuel.
  destruct fuel as [|fuel]; [lia|].
  destruct (join_fields_head (k, v) kvs (125%N :: r)) as (t & -> & ->).
  cbn [fst snd]. rewrite parse_members_step.
  rewrite scanstring_escape by exact Wk.
  cbn [skip_ws]. change (is_ws 58) with false. cbv iota.
  change (58 =? 58)%N with true. cbv iota.
  rewrite skip_ws_dumps, (Hv Wv) by lia.
  destruct kvs as [|kv' kvs'].
  - reflexivity.
  - cbn [skip_ws]. change (is_ws 44) with false. cbv iota.
    change (44 =? 125)%N with false. change (44 =? 44)%N with true. cbv iota.
    destruct (join_fields_head kv' kvs' (125%N :: r)) as (t' & E & _).
    rewrite E. cbn [skip_ws]. change (is_ws 32) with true.
    change (is_ws 34) with false. cbv iota.
    rewrite <- E, IH; trivial; [discriminate|lia].
Qed.

Lemma dict_set_fresh d k v :
  ~ In k (map fst d) -> dict_set d k v = d ++ [(k, v)].
Proof.
  induction d as [|[k' v'] d IH]; intros Hk; [reflexivity|].
  cbn [dict_set app]. cbn [map fst In] in Hk.
  destruct (pystr_eqb k' k) eqn:E.
  - apply pystr_eqb_eq in E. tauto.
  - rewrite IH by tauto. reflexivity.
Qed.

Lemma dict_of_pairs_acc pairs :
  forall acc,
    NoDup (map fst (acc ++ pairs)) ->
    fold_left (fun d kv => dict_set d (fst kv) (snd kv)) pairs acc
    = acc ++ pairs.
Proof.
  induction pairs as [|[k v] pairs IH]; intros acc Hnd.
  - rewrite app_nil_r. reflexivity.
  - cbn [fold_left fst snd].
    rewrite dict_set_fresh.
    + rewrite IH; rewrite <- app_assoc; [reflexivity|exact Hnd].
    + rewrite map_app in Hnd. cbn [map fst] in Hnd.
      apply NoDup_remove_2 in Hnd. intros Hin. apply Hnd.
      apply in_or_app. left. exact Hin.
Qed.

Lemma dict_of_pairs_NoDup pairs :
  NoDup (map fst pairs) -> dict_of_pairs pairs = pairs.
Proof. intros H. apply (dict_of_pairs_acc pairs [] H). Qed.

Lemma parse_value_dumps v : reads_back v.
Proof.
  induction v as [s|items IH|fields IH] using json_ind';
    intros Hwf fuel r Hfuel; inversion Hwf as [? Hs|? Hitems|? Hfields Hnd]; subst.
  - destruct fuel as [|fuel]; [cbn in Hfuel; lia|].
    unfold dumps, encode_basestring_ascii. cbn [app].
    rewrite parse_value_JString, <- app_assoc.
    cbn [app]. rewrite scanstring_escape by exact Hs. reflexivity.
  - cbn [weight] in Hfuel. fold (weight_items items) in Hfuel.
    destruct fuel as [|fuel]; [lia|].
    rewrite dumps_JList. cbn [app]. rewrite parse_value_JList, <- app_assoc.
    cbn [app].
    destruct items as [|v vs]; [reflexivity|].
    assert (Hhead : exists c t,
               join (lit ", ") (map dumps (v :: vs)) ++ 93%N :: r = c :: t /\
               is_ws c = false /\ c <> 93%N).
    { destruct (dumps_head v) as (c & t & E & Hc & H93 & _).
      exists c. destruct vs as [|v' vs'].
      - cbn [map join]. rewrite E. eexists. split; [reflexivity|auto].
      - change (join (lit ", ") (map dumps (v :: v' :: vs')))
          with (dumps v ++ lit ", " ++ join (lit ", ") (map dumps (v' :: vs'))).
        rewrite E. eexists. split; [reflexivity|auto]. }
    destruct Hhead as (c & t & E & Hc & H93).
    pose proof (@parse_items_join (v :: vs) ltac:(discriminate) IH Hitems
                  fuel r ltac:(lia)) as Hp.
    rewrite E in Hp |- *. cbn [skip_ws]. rewrite Hc.
    apply N.eqb_neq in H93. rewrite H93, Hp. reflexivity.
  - cbn [weight] in Hfuel. fold (weight_fields fields) in Hfuel.
    destruct fuel as [|fuel]; [lia|].
    rewrite dumps_JDict. cbn [app]. rewrite parse_value_JDict, <- app_assoc.
    cbn [app].
    destruct fields as [|kv kvs]; [reflexivity|].
    pose proof (@parse_members_join (kv :: kvs) ltac:(discriminate) IH Hfields
                  fuel r ltac:(lia)) as Hp.
    destruct (join_fields_head kv kvs (125%N :: r)) as (t & E & _).
    rewrite E in Hp |- *. cbn [skip_ws]. change (is_ws 34) with false.
    cbv iota. change (34 =? 125)%N with false. cbv iota.
    rewrite Hp. cbn [option_map fst snd].
    rewrite dict_of_pairs_NoDup by exact Hnd. reflexivity.
Qed.


Lemma weight_items_le items :
  Forall (fun v => weight v <= length (dumps v)) items ->
  weight_items items <= length (join (lit ", ") (map dumps items)) + 1.
Proof.
  induction 1 as [|v vs Hv Hvs IH]; [cbn; lia|].
  cbn [weight_items fold_right]. fold (weight_items vs).
  destruct vs as [|v' vs'].
  - cbn [map join weight_items fold_right]. lia.
  - change (join (lit ", ") (map dumps (v :: v' :: vs')))
      with (dumps v ++ lit ", " ++ join (lit ", ") (map dumps (v' :: vs'))).
    rewrite !length_app. change (length (lit ", ")) with 2. lia.
Qed.

Lemma dumps_field_length kv :
  weight (snd kv) <= length (dumps (snd kv)) ->
  weight (snd kv) <= length (dumps_field kv).
Proof. intros H. unfold dumps_field. rewrite !length_app. lia. Qed.

Lemma weight_fields_le fields :
  Forall (fun kv => weight (snd kv) <= length (dumps (snd kv))) fields ->
  weight_fields fields <= length (join (lit ", ") (map dumps_field fields)) + 1.
Proof.
  induction 1 as [|kv kvs Hv Hvs IH]; [cbn; lia|].
  cbn [weight_fields fold_right]. fold (weight_fields kvs).
  apply dumps_field_length in Hv.
  destruct kvs as [|kv' kvs'].
  - cbn [map join weight_fields fold_right]. lia.
  - change (join (lit ", ") (map dumps_field (kv :: kv' :: kvs')))
      with (dumps_field kv ++ lit ", "
            ++ join (lit ", ") (map dumps_field (kv' :: kvs'))).
    rewrite !length_app. change (length (lit ", ")) with 2. lia.
Qed.

Lemma weight_le_length v : weight v <= length (dumps v).
Proof.
  induction v as [s|items IH|fields IH] using json_ind'.
  - unfold dumps, encode_basestring_ascii. cbn [weight length]. lia.
  - rewrite dumps_JList. cbn [weight length]. fold (weight_items items).
    rewrite length_app. pose proof (weight_items_le IH). cbn [length]. lia.
  - rewrite dumps_JDict. cbn [weight length]. fold (weight_fields fields).
    rewrite length_app. pose proof (weight_fields_le IH). cbn [length]. lia.
Qed.

(** [json.loads] inverts [json.dumps] on well-formed values. *)
Lemma loads_dumps v : wf_json v -> loads (dumps v) = Some v.
Proof.
  intros Hwf. unfold loads.
  destruct (dumps_head v) as (c & t & E & Hc & _).
  assert (Hskip : skip_ws (dumps v) = dumps v).
  { rewrite E. cbn [skip_ws]. rewrite Hc. reflexivity. }
  rewrite Hskip.
  pose proof (@parse_value_dumps v Hwf (S (length (dumps v))) []) as Hp.
  rewrite app_nil_r in Hp. rewrite Hp; [reflexivity|].
  pose proof (weight_le_length v). lia.
Qed.

(** The text of a value is printable ASCII: no line break, no control
    character, nothing beyond [~]. *)
Lemma forallb_join (p : N -> bool) sep parts :
  forallb p sep = true ->
  Forall (fun part => forallb p part = true) parts ->
  forallb p (join sep parts) = true.
Proof.
  intros Hsep. induction 1 as [|part parts Hp Hps IH]; [reflexivity|].
  destruct parts as [|part' parts']; [exact Hp|].
  change (join sep (part :: part' :: parts'))
    with (part ++ sep ++ join sep (part' :: parts')).
  rewrite !forallb_app, Hp, Hsep, IH. reflexivity.
Qed.

Lemma encode_basestring_printable s :
  forallb printable (encode_basestring_ascii s) = true.
Proof.
  unfold encode_basestring_ascii. cbn [forallb].
  rewrite forallb_app. cbn [forallb andb].
  change (printable 34) with true. cbn [andb]. rewrite andb_true_r.
  induction s as [|c s IH]; [reflexivity|].
  cbn [flat_map]. rewrite forallb_app, escape_char_printable, IH. reflexivity.
Qed.

Lemma dumps_printable v : forallb printable (dumps v) = true.
Proof.
  induction v as [s|items IH|fields IH] using json_ind'.
  - apply encode_basestring_printable.
  - rewrite dumps_JList. cbn [forallb]. rewrite forallb_app.
    rewrite forallb_join; [reflexivity|reflexivity|].
    apply Forall_map. exact IH.
  - rewrite dumps_JDict. cbn [forallb]. rewrite forallb_app.
    rewrite forallb_join; [reflexivity|reflexivity|].
    apply Forall_map. eapply Forall_impl; [|exact IH].
    intros kv Hkv. unfold dumps_field.
    rewrite !forallb_app, encode_basestring_printable, Hkv. reflexivity.
Qed.


(** ** The JSONL file *)

Lemma printable_not_newline c : printable c = true -> (c =? 10)%N = false.
Proof.
  unfold printable, in_range. intros H. apply andb_true_iff in H.
  destruct H as [H _]. apply N.leb_le in H. apply N.eqb_neq. lia.
Qed.

Lemma lines_from_line l :
  forallb printable l = true ->
  forall cur rest,
    lines_from cur (l ++ 10%N :: rest) = (rev cur ++ l) :: lines_from [] rest.
Proof.
  induction l as [|c l IH]; intros Hl cur rest.
  - cbn [app lines_from]. change (10 =? 10)%N with true. cbv iota.
    rewrite app_nil_r. reflexivity.
  - cbn [forallb] in Hl. apply andb_true_iff in Hl. destruct Hl as [Hc Hl].
    cbn [app lines_from]. rewrite (printable_not_newline _ Hc).
    rewrite IH by exact Hl. cbn [rev]. rewrite <- app_assoc. reflexivity.
Qed.

(** Read line by line, the file is the list of the records' texts. *)
Lemma lines_write_jsonl json_data :
  lines (write_jsonl json_data) = map dumps json_data.
Proof.
  unfold lines, write_jsonl.
  induction json_data as [|record rest IH]; [reflexivity|].
  cbn [flat_map map]. rewrite <- app_assoc. cbn [app].
  rewrite lines_from_line by apply dumps_printable.
  rewrite IH. reflexivity.
Qed.

(** ** Well-formed records *)

Lemma wf_str_forallb s : forallb is_scalar s = true -> wf_str s.
Proof.
  intros H. apply Forall_forall. rewrite forallb_forall in H. exact H.
Qed.

Lemma wf_str_app a b : wf_str a -> wf_str b -> wf_str (a ++ b).
Proof. intros Ha Hb. apply Forall_app. split; assumption. Qed.

Lemma ascii_is_scalar c : (c < 128)%N -> is_scalar c = true.
Proof.
  intros Hc. unfold is_scalar.
  destruct (N.ltb_spec c 0xd800); [reflexivity|lia].
Qed.

Lemma wf_str_digits d : wf_str (lit (NilEmpty.string_of_uint d)).
Proof.
  induction d; cbn [NilEmpty.string_of_uint];
    first [apply Forall_nil | apply Forall_cons; [reflexivity|exact IHd]].
Qed.

Lemma wf_str_of_nat n : wf_str (str_of_nat n).
Proof.
  unfold str_of_nat, NilZero.string_of_uint.
  destruct (Nat.to_uint n); first [apply wf_str_digits | apply wf_str_forallb; reflexivity].
Qed.

Lemma wf_str_b64encode data : wf_str (map Byte.to_N (b64encode data)).
Proof.
  apply Forall_map. eapply Forall_impl; [|apply b64encode_chars].
  intros b [Hb _]. apply ascii_is_scalar, Hb.
Qed.

Section Records.
Context `{Imaging}.

Lemma convert_example_training_record idx ex img encoded question answer :
  example_image ex = Returned img ->
  encode_image img 80 = Returned encoded ->
  example_question ex = Returned question ->
  example_answer ex = Returned answer ->
  convert_example idx ex
  = Returned (training_record idx question answer encoded).
Proof.
  intros Hi He Hq Ha. unfold convert_example.
  rewrite Hi. cbn [bind]. rewrite He. cbn [bind]. rewrite Hq. cbn [bind].
  rewrite Ha. reflexivity.
Qed.

End Records.

Ltac wf_literal := apply wf_str_forallb; vm_compute; reflexivity.

Lemma NoDup_two (A : Type) (a b : A) : a <> b -> NoDup [a; b].
Proof.
  intros Hab. apply NoDup_cons; [|apply NoDup_cons; [|apply NoDup_nil]].
  - cbn [In]. intros [E|[]]. apply Hab. symmetry. exact E.
  - intros [].
Qed.

Lemma NoDup_one (A : Type) (a : A) : NoDup [a].
Proof. apply NoDup_cons; [intros []|apply NoDup_nil]. Qed.

(** A dictionary of two entries with distinct keys. *)
Lemma wf_JDict_two k1 v1 k2 v2 :
  pystr_eqb k1 k2 = false ->
  wf_str k1 -> wf_json v1 -> wf_str k2 -> wf_json v2 ->
  wf_json (JDict [(k1, v1); (k2, v2)]).
Proof.
  intros Hk W1 J1 W2 J2. apply wf_JDict.
  - repeat (apply Forall_cons; [split; assumption|]). apply Forall_nil.
  - apply NoDup_two. intros E. cbn [fst] in E. subst k2.
    rewrite pystr_eqb_refl in Hk. discriminate Hk.
Qed.

Lemma wf_JDict_one k v : wf_str k -> wf_json v -> wf_json (JDict [(k, v)]).
Proof.
  intros W J. apply wf_JDict.
  - apply Forall_cons; [split; assumption|apply Forall_nil].
  - apply NoDup_one.
Qed.

Lemma wf_training_record idx question answer encoded :
  wf_str question -> wf_str answer -> wf_str encoded ->
  wf_json (training_record idx question answer encoded).
Proof.
  intros Hq Ha He. unfold training_record.
  apply wf_JDict_one; [wf_literal|]. apply wf_JList.
  repeat (apply Forall_cons; [|try apply Forall_nil]).
  - apply wf_JDict_two; [reflexivity|wf_literal| |wf_literal|];
      apply wf_JString; wf_literal.
  - apply wf_JDict_two; [reflexivity|wf_literal| |wf_literal|];
      [apply wf_JString; wf_literal|].
    apply wf_JList.
    repeat (apply Forall_cons; [|try apply Forall_nil]).
    + apply wf_JDict_two; [reflexivity|wf_literal| |wf_literal|];
        apply wf_JString; [wf_literal|].
      apply wf_str_app; [wf_literal|].
      apply wf_str_app; [apply wf_str_of_nat|].
      apply wf_str_app; [wf_literal|exact Hq].
    + apply wf_JDict_two; [reflexivity|wf_literal| |wf_literal|];
        [apply wf_JString; wf_literal|].
      apply wf_JDict_one; [wf_literal|]. apply wf_JString.
      apply wf_str_app; [wf_literal|exact He].
  - apply wf_JDict_two; [reflexivity|wf_literal| |wf_literal|];
      apply wf_JString; [wf_literal|exact Ha].
Qed.

Lemma record_fields_training_record idx question answer encoded :
  record_fields (training_record idx question answer encoded)
  = Some (lit "Question [" ++ str_of_nat idx ++ lit "]: " ++ question,
          base64_prefix ++ encoded, answer).
Proof. reflexivity. Qed.

Section JsonlRoundTrip.
Context `{Imaging}.

(** C3 (amended).  A row whose three fields read, whose image
    [encode_image] can encode, and whose question and answer are
    well-formed strings becomes exactly one line of printable ASCII, a JSON
    object with its keys in the order of [training_record]; reading the
    line back gives the user text (the question after its
    [Question [idx]: ] prefix), the answer, and the data URL of the JPEG
    bytes that Pillow wrote for the RGB version of the image. *)
Theorem jsonl_row_round_trip (idx : nat) (ex : example) (img : image)
    (question answer encoded : pystr) :
  example_image ex = Returned img ->
  example_question ex = Returned question ->
  example_answer ex = Returned answer ->
  encode_image img 80 = Returned encoded ->
  wf_str question -> wf_str answer ->
  exists rgb jpeg record,
    convert_example idx ex = Returned record /\
    record = training_record idx question answer encoded /\
    encoded = map Byte.to_N (b64encode jpeg) /\
    lines (write_jsonl [record]) = [dumps record] /\
    forallb printable (dumps record) = true /\
    loads (dumps record) = Some record /\
    record_fields record
      = Some (lit "Question [" ++ str_of_nat idx ++ lit "]: " ++ question,
              base64_prefix ++ encoded,
              answer) /\
    b64decode encoded = Some jpeg /\
    (if String.eqb (mode img) "RGB" then rgb = img
     else convert img "RGB" = Returned rgb) /\
    save_jpeg rgb 80 = Returned jpeg.
Proof.
  intros Hi Hq Ha Henc Wq Wa.
  destruct (encode_image_Returned img 80 Henc) as (rgb & jpeg & Hrgb & Hsave & ->).
  exists rgb, jpeg, (training_record idx question answer
                       (map Byte.to_N (b64encode jpeg))).
  split; [apply (convert_example_training_record idx ex Hi Henc Hq Ha)|].
  split; [reflexivity|]. split; [reflexivity|].
  split; [apply lines_write_jsonl|].
  split; [apply dumps_printable|].
  split; [apply loads_dumps, wf_training_record; trivial;
          apply wf_str_b64encode|].
  split; [apply record_fields_training_record|].
  split; [apply b64decode_b64encode|].
  split; assumption.
Qed.

End JsonlRoundTrip.

(** ** The user text determines the index and the question *)

Lemma lit_digits d :
  Forall (fun c => in_range 48 57 c = true) (lit (NilEmpty.string_of_uint d)).
Proof.
  induction d; cbn [NilEmpty.string_of_uint];
    first [apply Forall_nil | apply Forall_cons; [reflexivity|exact IHd]].
Qed.

Lemma str_of_nat_digits n :
  Forall (fun c => in_range 48 57 c = true) (str_of_nat n).
Proof.
  unfold str_of_nat, NilZero.string_of_uint.
  destruct (Nat.to_uint n);
    first [apply lit_digits | apply Forall_cons; [reflexivity|apply Forall_nil]].
Qed.

Lemma lit_inj a b : lit a = lit b -> a = b.
Proof.
  unfold lit. intros E.
  rewrite <- (string_of_list_ascii_of_string a),
          <- (string_of_list_ascii_of_string b).
  f_equal. revert E.
  generalize (list_ascii_of_string a) (list_ascii_of_string b).
  induction l as [|x l IH]; intros [|y l'] E; try discriminate;
    [reflexivity|].
  cbn [map] in E. injection E as Exy El. f_equal; [|apply IH, El].
  rewrite <- (ascii_N_embedding x), <- (ascii_N_embedding y), Exy.
  reflexivity.
Qed.

Lemma to_uint_nonnil n : Nat.to_uint n <> Decimal.Nil.
Proof.
  rewrite <- (DecimalNat.Unsigned.of_to n) at 1.
  rewrite DecimalNat.Unsigned.to_of. apply DecimalFacts.unorm_nonnil.
Qed.

Lemma str_of_nat_inj n m : str_of_nat n = str_of_nat m -> n = m.
Proof.
  unfold str_of_nat. intros E. apply lit_inj in E.
  apply DecimalNat.Unsigned.to_uint_inj.
  assert (Hs : Some (Nat.to_uint n) = Some (Nat.to_uint m)).
  { rewrite <- (NilZero.usu (Nat.to_uint n) (to_uint_nonnil n)),
            <- (NilZero.usu (Nat.to_uint m) (to_uint_nonnil m)), E.
    reflexivity. }
  injection Hs as Hs. exact Hs.
Qed.

(** Digits followed by a closing bracket split in one way only. *)
Lemma digits_bracket_split a b x y :
  Forall (fun c => in_range 48 57 c = true) a ->
  Forall (fun c => in_range 48 57 c = true) b ->
  a ++ 93%N :: x = b ++ 93%N :: y -> a = b /\ x = y.
Proof.
  intros Ha. revert b. induction Ha as [|c a Hc _ IH]; intros b Hb E.
  - destruct Hb as [|d b Hd _]; cbn [app] in E.
    + injection E as E. auto.
    + injection E as E _. subst d. discriminate Hd.
  - destruct Hb as [|d b Hd Hb]; cbn [app] in E.
    + injection E as E _. subst c. discriminate Hc.
    + injection E as E1 E2. subst d. destruct (IH b Hb E2) as [-> ->]. auto.
Qed.

Lemma user_text_inj i j q q' :
  user_text i q = user_text j q' -> i = j /\ q = q'.
Proof.
  unfold user_text. intros E. apply app_inv_head in E.
  change (lit "]: ") with [93%N; 58%N; 32%N] in E. cbn [app] in E.
  destruct (digits_bracket_split _ _ (str_of_nat_digits i)
              (str_of_nat_digits j) E) as [Eij Eq].
  split; [apply str_of_nat_inj, Eij|].
  injection Eq as Eq. exact Eq.
Qed.

(** ** The conversion loop *)

Section Conversion.
Context `{Imaging}.

(** The loop, in terms of the rows that convert and those that do not. *)
Lemma convert_rows_spec rows :
  forall idx json_data log,
    (forall i ex e,
       nth_error rows i = Some ex ->
       convert_example (idx + i) ex = Raised e -> is_Exception e = true) ->
    convert_rows rows idx json_data log
    = Returned (json_data ++ converted rows idx, log ++ dropped rows idx).
Proof.
  induction rows as [|ex rest IH]; intros idx json_data log Hexn.
  - cbn. rewrite !app_nil_r. reflexivity.
  - cbn [convert_rows converted dropped].
    assert (Hrest : forall i ex' e,
               nth_error rest i = Some ex' ->
               convert_example (S idx + i) ex' = Raised e ->
               is_Exception e = true).
    { intros i ex' e Hn Hc. apply (Hexn (S i) ex' e Hn).
      rewrite Nat.add_succ_r. exact Hc. }
    destruct (convert_example idx ex) as [record|e] eqn:E.
    + rewrite IH by exact Hrest. rewrite <- app_assoc. reflexivity.
    + assert (He : is_Exception e = true).
      { apply (Hexn 0 ex e eq_refl). rewrite Nat.add_0_r. exact E. }
      destruct (is_KeyError e); [|rewrite He];
        rewrite IH by exact Hrest; rewrite <- app_assoc; reflexivity.
Qed.

Lemma in_converted rows :
  forall idx record,
    In record (converted rows idx) <->
    exists i ex, nth_error rows i = Some ex /\
                 convert_example (idx + i) ex = Returned record.
Proof.
  induction rows as [|ex rest IH]; intros idx record; cbn [converted].
  - split; [intros []|]. intros (i & ex & Hn & _). destruct i; discriminate.
  - split.
    + intros Hin.
      assert (Hrest : In record (converted rest (S idx)) ->
                      exists i ex', nth_error (ex :: rest) i = Some ex' /\
                                    convert_example (idx + i) ex' = Returned record).
      { intros Hr. apply IH in Hr. destruct Hr as (i & ex' & Hn & Hc).
        exists (S i), ex'. split; [exact Hn|].
        rewrite Nat.add_succ_r. exact Hc. }
      destruct (convert_example idx ex) as [r|e] eqn:E; [|auto].
      destruct Hin as [<-|Hin]; [|auto].
      exists 0, ex. split; [reflexivity|]. rewrite Nat.add_0_r. exact E.
    + intros (i & ex' & Hn & Hc). destruct i as [|i].
      * injection Hn as <-. rewrite Nat.add_0_r in Hc. rewrite Hc.
        left. reflexivity.
      * assert (Hr : In record (converted rest (S idx))).
        { apply IH. exists i, ex'. split; [exact Hn|].
          rewrite Nat.add_succ_r in Hc. exact Hc. }
        destruct (convert_example idx ex); [right|]; exact Hr.
Qed.

Lemma in_dropped rows :
  forall idx i ex e,
    nth_error rows i = Some ex ->
    convert_example (idx + i) ex = Raised e ->
    In (if is_KeyError e then Missing_field (idx + i) e
        else Error_processing (idx + i) e)
       (dropped rows idx).
Proof.
  induction rows as [|ex0 rest IH]; intros idx i ex e Hn Hc;
    [destruct i; discriminate|].
  cbn [dropped]. destruct i as [|i].
  - injection Hn as <-. rewrite Nat.add_0_r in Hc |- *. rewrite Hc.
    left. reflexivity.
  - rewrite Nat.add_succ_r in Hc |- *.
    pose proof (IH (S idx) i ex e Hn Hc) as Hr.
    destruct (convert_example idx ex0); [|right]; exact Hr.
Qed.

Lemma converted_dropped_length rows :
  forall idx,
    length (converted rows idx) + length (dropped rows idx) = length rows.
Proof.
  induction rows as [|ex rest IH]; intros idx; [reflexivity|].
  cbn [converted dropped]. specialize (IH (S idx)).
  destruct (convert_example idx ex); cbn [length]; lia.
Qed.










End Conversion.

Lemma jsonl_row_round_trip_witness :
  exists rgb jpeg record,
    convert_example 7 (good_row rgba_chart "Which year is lowest?" "2019")
      = Returned record /\
    record = training_record 7 (lit "Which year is lowest?") (lit "2019")
                             (lit "/9gQIDD/2Q==") /\
    lit "/9gQIDD/2Q==" = map Byte.to_N (b64encode jpeg) /\
    lines (write_jsonl [record]) = [dumps record] /\
    forallb printable (dumps record) = true /\
    loads (dumps record) = Some record /\
    record_fields record
      = Some (lit "Question [" ++ str_of_nat 7 ++ lit "]: "
              ++ lit "Which year is lowest?",
              base64_prefix ++ lit "/9gQIDD/2Q==",
              lit "2019") /\
    b64decode (lit "/9gQIDD/2Q==") = Some jpeg /\
    raster_convert rgba_chart "RGB" = Returned rgb /\
    raster_save rgb 80 = Returned jpeg.
Proof.
  apply (@jsonl_row_round_trip raster_imaging
           7 (good_row rgba_chart "Which year is lowest?" "2019") rgba_chart
           (lit "Which year is lowest?") (lit "2019") (lit "/9gQIDD/2Q=="));
    solve [reflexivity | apply wf_str_forallb; reflexivity].
Defined.

Example user_text_of_row_7 :
  andthen (loads (dumps (training_record 7 (lit "Which year is lowest?")
                                         (lit "2019") (lit "/9gQIDD/2Q=="))))
          record_fields
  = Some (lit "Question [7]: Which year is lowest?",
          lit "data:image/jpeg;base64,/9gQIDD/2Q==", lit "2019").
Proof. vm_compute. reflexivity. Qed.

(** C3 as written fails: a picture with an alpha channel and its RGB
    version are different images that give the same line, so no reader can
    return the image the line was written from. *)
Lemma jsonl_does_not_recover_image : ~ jsonl_recovers_rows.
Proof.
  intros [parse Hp].
  set (q := lit "Which year is lowest?"). set (a := lit "2019").
  assert (Wq : wf_str q) by (apply wf_str_forallb; reflexivity).
  assert (Wa : wf_str a) by (apply wf_str_forallb; reflexivity).
  pose proof (Hp 0 rgba_chart q a
                 (training_record 0 q a (lit "/9gQIDD/2Q==")) Wq Wa eq_refl)
    as H1.
  pose proof (Hp 0 rgb_chart q a
                 (training_record 0 q a (lit "/9gQIDD/2Q==")) Wq Wa eq_refl)
    as H2.
  rewrite H1 in H2. discriminate H2.
Qed.

Lemma sample_dataset_failures :
  forall i ex e,
    nth_error sample_dataset i = Some ex ->
    convert_example i ex = Raised e -> is_Exception e = true.
Proof.
  intros i ex e Hn Hc.
  destruct i as [|[|[|i]]]; cbn [nth_error sample_dataset] in Hn.
  - injection Hn as <-. discriminate Hc.
  - injection Hn as <-. injection Hc as <-. reflexivity.
  - injection Hn as <-. discriminate Hc.
  - destruct i; discriminate Hn.
Qed.



Example mixed_dataset_split :
  generate_split mixed_dataset
  = Returned
      (write_jsonl
         [ training_record 0 (lit "What is the highest bar?") (lit "42")
                           (lit "/9gQIDD/2Q==");
           training_record 4 (lit "Which year is lowest?") (lit "2019")
                           (lit "/9gQIDD/2Q==") ],
       [ Missing_field 1 (PyExn KeyError "question");
         Error_processing 2 (PyExn ValueError "conversion not supported");
         Error_processing 3
           (PyExn AttributeError "'Pandas' object has no attribute 'image'") ]).
Proof. vm_compute. reflexivity. Qed.

Example sample_dataset_split :
  generate_split sample_dataset
  = Returned
      (write_jsonl
         [ training_record 0 (lit "What is the highest bar?") (lit "42")
                           (lit "/9gQIDD/2Q==");
           training_record 2 (lit "Which year is lowest?") (lit "2019")
                           (lit "/9gQIDD/2Q==") ],
       [ Missing_field 1 (PyExn KeyError "question") ]).
Proof. vm_compute. reflexivity. Qed.

(** A failure that is not an [Exception] does leave the loop, and then no
    file is written. *)
Example interrupt_aborts_split :
  generate_split
    [ good_row rgb_chart "What is the highest bar?" "42";
      {| example_image := Raised (PyExn KeyboardInterrupt "interrupted");
         example_question := Returned (lit "q");
         example_answer := Returned (lit "a") |} ]
  = Raised (PyExn KeyboardInterrupt "interrupted").
Proof. reflexivity. Qed.

(* ================================================================== *)
(** * Part III: further properties of the cells *)
(* ================================================================== *)

(** ** Decorated calls in general *)

Lemma calls_app a b : calls (a ++ b) = calls a + calls b.
Proof. unfold calls. rewrite filter_app, length_app. reflexivity. Qed.

Lemma sleeps_app a b : sleeps (a ++ b) = sleeps a ++ sleeps b.
Proof. unfold sleeps. apply flat_map_app. Qed.

Lemma slept_app a b : slept (a ++ b) = slept a + slept b.
Proof.
  unfold slept. rewrite sleeps_app.
  induction (sleeps a) as [|x l IH]; cbn; [reflexivity|]. rewrite IH. lia.
Qed.

Lemma slept_repeat d k : fold_right Nat.add 0 (repeat d k) = k * d.
Proof. induction k as [|k IH]; cbn; [reflexivity|]. rewrite IH. lia. Qed.

(** The shape of every run of the retry loop from attempt [n] on: it
    finishes, with at most as many calls as attempts remain, a sleep of
    the configured length between consecutive calls, and an outcome that
    is a value, an exception that is not an [Exception], or (after the
    last allowed attempt) the wrapper's own error. *)
Lemma retrying_shape (W A : Type) (cfg : retry_config)
    (fn : W -> outcome A * W) :
  forall fuel n w tr,
    stop_after_attempt cfg < n + fuel -> 0 < fuel ->
    exists res w' tr',
      retrying cfg fn fuel n w tr = Some (res, w', tr ++ tr') /\
      1 <= calls tr' /\ calls tr' <= S (stop_after_attempt cfg - n) /\
      sleeps tr' = repeat (wait_fixed cfg) (calls tr' - 1) /\
      match res with
      | Returned _ => True
      | Raised x =>
          is_Exception x = false \/
          (calls tr' = S (stop_after_attempt cfg - n) /\
           exists e, is_Exception e = true /\
                     x = if reraise cfg then e
                         else RetryError (n + calls tr' - 1) e)
      end.
Proof.
  induction fuel as [|fuel IH]; intros n w tr Hb Hpos; [lia|].
  cbn [retrying]. destruct (fn w) as [res w'].
  destruct res as [a|e].
  { exists (Returned a), w', [Attempt n]. cbn. repeat split; lia. }
  destruct (is_Exception e) eqn:He; cbn [negb].
  2:{ exists (Raised e), w', [Attempt n]. cbn. repeat split; try lia.
      left. exact He. }
  destruct (Nat.leb_spec (stop_after_attempt cfg) n) as [Hs|Hs].
  { exists (Raised (if reraise cfg then e else RetryError n e)), w', [Attempt n].
    cbn [calls filter length sleeps flat_map app repeat Nat.sub].
    split; [reflexivity|]. split; [lia|]. split; [lia|].
    split; [reflexivity|]. right. split; [lia|].
    exists e. split; [exact He|].
    replace (n + 1 - 1) with n by lia. reflexivity. }
  destruct (IH (S n) w' ((tr ++ [Attempt n]) ++ [Sleep (wait_fixed cfg)]))
    as (res & w'' & tr' & Hrun & Hc1 & Hc2 & Hsl & Hres); [lia|lia|].
  exists res, w'', ([Attempt n; Sleep (wait_fixed cfg)] ++ tr').
  split.
  { rewrite Hrun. rewrite <- !app_assoc. reflexivity. }
  rewrite calls_app, sleeps_app.
  change (calls [Attempt n; Sleep (wait_fixed cfg)]) with 1.
  change (sleeps [Attempt n; Sleep (wait_fixed cfg)]) with [wait_fixed cfg].
  split; [lia|]. split; [lia|].
  split.
  { rewrite Hsl. destruct (calls tr') as [|k]; [lia|].
    cbn [Nat.add Nat.sub app repeat]. rewrite Nat.sub_0_r. reflexivity. }
  destruct res as [a|x]; [exact I|].
  destruct Hres as [Hx|(Hk & e' & He' & Hx)]; [left; exact Hx|].
  right. split; [lia|]. exists e'. split; [exact He'|].
  rewrite Hx. replace (n + (1 + calls tr') - 1) with (S n + calls tr' - 1) by lia.
  reflexivity.
Qed.

(** The notebook's configuration: at most three calls, ten seconds apart. *)
Lemma decorated_call_shape (W A : Type) (fn : W -> outcome A * W)
    (fuel : nat) (w : W) :
  3 <= fuel ->
  exists res w' trace,
    retry_call notebook_retry fn fuel w = Some (res, w', trace) /\
    1 <= calls trace /\ calls trace <= 3 /\
    sleeps trace = repeat 10 (calls trace - 1) /\
    match res with
    | Returned _ => True
    | Raised x =>
        is_Exception x = false \/
        (calls trace = 3 /\
         exists e, is_Exception e = true /\ x = RetryError 3 e)
    end.
Proof.
  intros Hfuel.
  destruct (@retrying_shape W A notebook_retry fn fuel 1 w [])
    as (res & w' & tr' & Hrun & Hc1 & Hc2 & Hsl & Hres);
    [cbn; lia|lia|].
  cbn [stop_after_attempt wait_fixed reraise notebook_retry Nat.sub] in *.
  exists res, w', tr'. cbn [app] in Hrun.
  split; [exact Hrun|]. split; [exact Hc1|]. split; [exact Hc2|].
  split; [exact Hsl|].
  destruct res as [a|x]; [exact I|].
  destruct Hres as [Hx|(Hk & e & He & Hx)]; [left; exact Hx|].
  right. split; [exact Hk|]. exists e. split; [exact He|].
  rewrite Hx, Hk. reflexivity.
Qed.

Lemma slept_bound trace k :
  sleeps trace = repeat 10 (k - 1) -> k <= 3 -> slept trace <= 20.
Proof.
  intros Hsl Hk. unfold slept. rewrite Hsl, slept_repeat. lia.
Qed.

(** X1.  Whatever the wrapped function does, a call decorated as in the
    notebook finishes after one to three invocations, sleeps 10 seconds
    between consecutive invocations (20 seconds at most), and its outcome
    is a value, an exception outside [Exception], or a [RetryError] raised
    after the third invocation: the caller never sees the wrapped
    function's own [Exception]. *)
Theorem decorated_call_bounded (W A : Type) (fn : W -> outcome A * W)
    (fuel : nat) (w : W) :
  3 <= fuel ->
  exists res w' trace,
    retry_call notebook_retry fn fuel w = Some (res, w', trace) /\
    1 <= calls trace /\ calls trace <= 3 /\
    sleeps trace = repeat 10 (calls trace - 1) /\
    slept trace <= 20 /\
    match res with
    | Returned _ => True
    | Raised x =>
        is_Exception x = false \/
        (calls trace = 3 /\
         exists e, is_Exception e = true /\ x = RetryError 3 e)
    end.
Proof.
  intros Hfuel.
  destruct (decorated_call_shape fn w Hfuel)
    as (res & w' & trace & Hrun & Hc1 & Hc2 & Hsl & Hres).
  exists res, w', trace.
  split; [exact Hrun|]. split; [exact Hc1|]. split; [exact Hc2|].
  split; [exact Hsl|]. split; [|exact Hres].
  apply (slept_bound trace Hsl Hc2).
Qed.

Lemma decorated_call_bounded_witness :
  3 <= 3 /\
  exists res w' trace,
    retry_call notebook_retry (flaky 1) 3 0 = Some (res, w', trace) /\
    1 <= calls trace /\ calls trace <= 3 /\
    sleeps trace = repeat 10 (calls trace - 1) /\
    slept trace <= 20 /\
    match res with
    | Returned _ => True
    | Raised x =>
        is_Exception x = false \/
        (calls trace = 3 /\
         exists e, is_Exception e = true /\ x = RetryError 3 e)
    end.
Proof.
  assert (H : 3 <= 3) by lia.
  split; [exact H|]. exact (decorated_call_bounded (flaky 1) 0 H).
Defined.

(** ** [query_image] and the evaluation columns *)

(** X2.  The image is encoded inside the decorated function: when Pillow
    cannot encode it, [query_image] still makes its three attempts and
    sleeps twice, never sends a request (the remote state is untouched),
    and raises [RetryError] around Pillow's exception. *)
Theorem query_image_retries_local_failure `{Imaging} (W : Type)
    (chat_completions_create : pystr -> json -> W -> outcome (option pystr) * W)
    (img : image) (question deployment : pystr) (w : W) (e : exn) (fuel : nat) :
  encode_image img 50 = Raised e ->
  is_Exception e = true ->
  3 <= fuel ->
  query_image chat_completions_create fuel img question deployment w
  = Some (Raised (RetryError 3 e), w,
          [Attempt 1; Sleep 10; Attempt 2; Sleep 10; Attempt 3]).
Proof.
  intros Henc He Hfuel. unfold query_image.
  apply retrying_fuel_le with (fuel := 3); [exact Hfuel|].
  unfold retry_call, query_image_body. cbn [retrying].
  rewrite Henc, He. reflexivity.
Qed.

Lemma query_image_retries_local_failure_witness :
  query_image (H := truncated_imaging) answers_42 3 rgba_chart
              (lit "Which year is lowest?") (lit "gpt-4o") 0
  = Some (Raised (RetryError 3 (PyExn OSError "image file is truncated")), 0,
          [Attempt 1; Sleep 10; Attempt 2; Sleep 10; Attempt 3]).
Proof.
  apply (@query_image_retries_local_failure truncated_imaging nat answers_42
           rgba_chart (lit "Which year is lowest?") (lit "gpt-4o") 0
           (PyExn OSError "image file is truncated") 3);
    solve [reflexivity | lia].
Defined.

(** A column of decorated calls: the bounds of one call, row by row, and
    where the loop stops. *)
Lemma apply_rows_decorated (W R A : Type)
    (f : R -> W -> option (outcome A * W * list event)) :
  (forall row w, exists res w' trace,
      f row w = Some (res, w', trace) /\
      1 <= calls trace /\ calls trace <= 3 /\ slept trace <= 20 /\
      match res with
      | Returned _ => True
      | Raised x =>
          is_Exception x = false \/
          exists e, is_Exception e = true /\ x = RetryError 3 e
      end) ->
  forall rows w,
    exists res w' trace,
      apply_rows f rows w = Some (res, w', trace) /\
      calls trace <= 3 * length rows /\
      slept trace <= 20 * length rows /\
      match res with
      | Returned values =>
          length values = length rows /\ length rows <= calls trace
      | Raised x =>
          (is_Exception x = false \/
           exists e, is_Exception e = true /\ x = RetryError 3 e) /\
          exists k row values wk before last,
            nth_error rows k = Some row /\
            apply_rows f (firstn k rows) w
              = Some (Returned values, wk, before) /\
            f row wk = Some (Raised x, w', last) /\
            trace = before ++ last
      end.
Proof.
  intros Hf. induction rows as [|row rest IH]; intros w.
  { exists (Returned []), w, []. cbn. repeat split; lia. }
  cbn [apply_rows length].
  destruct (Hf row w) as (res & w1 & tr & Hrun & Hc1 & Hc2 & Hslept & Hres).
  rewrite Hrun.
  destruct res as [a|x].
  - destruct (IH w1) as (res' & w2 & tr' & Hrest & Hc & Hs & Hres').
    rewrite Hrest.
    destruct res' as [values|x].
    + exists (Returned (a :: values)), w2, (tr ++ tr').
      rewrite calls_app, slept_app. cbn [length].
      destruct Hres' as [Hl Hk].
      split; [reflexivity|]. repeat split; lia.
    + exists (Raised x), w2, (tr ++ tr').
      rewrite calls_app, slept_app.
      split; [reflexivity|]. split; [lia|]. split; [lia|].
      destruct Hres' as (Hx & k & row' & values & wk & before & last
                         & Hn & Hpre & Hlast & Htr).
      split; [exact Hx|].
      exists (S k), row', (a :: values), wk, (tr ++ before), last.
      split; [exact Hn|]. cbn [firstn apply_rows].
      rewrite Hrun, Hpre. split; [reflexivity|]. split; [exact Hlast|].
      rewrite Htr, app_assoc. reflexivity.
  - exists (Raised x), w1, tr.
    split; [reflexivity|]. split; [lia|]. split; [lia|].
    split; [exact Hres|].
    exists 0, row, [], w, [], tr. cbn [firstn apply_rows nth_error app].
    auto.
Qed.

(** The cell around such a column, the frame without rows included. *)
Lemma assign_applied_decorated (W R A : Type)
    (f : option R -> W -> option (outcome A * W * list event)) :
  (forall row w, exists res w' trace,
      f row w = Some (res, w', trace) /\
      1 <= calls trace /\ calls trace <= 3 /\ slept trace <= 20 /\
      match res with
      | Returned _ => True
      | Raised x =>
          is_Exception x = false \/
          exists e, is_Exception e = true /\ x = RetryError 3 e
      end) ->
  forall name rows w,
    bounded_cell name f rows w (assign_applied name f rows w).
Proof.
  intros Hf name rows w. unfold bounded_cell, assign_applied, apply_axis1.
  destruct rows as [|row rest].
  - destruct (Hf None w) as (res & w1 & tr & Hrun & Hc1 & Hc2 & Hslept & Hres).
    rewrite Hrun. cbn [length Nat.max].
    destruct res as [a|x].
    + exists (Returned []), w1, tr. cbn [setitem length].
      split; [reflexivity|]. repeat split; lia.
    + destruct (is_Exception x) eqn:Ex.
      * eexists _, w1, tr. cbn [setitem].
        split; [reflexivity|]. split; [lia|]. split; [lia|].
        left. split; [reflexivity|]. right. reflexivity.
      * exists (Raised x), w1, tr.
        split; [reflexivity|]. split; [lia|]. split; [lia|].
        left. split; [reflexivity|]. left. exact Ex.
  - destruct (@apply_rows_decorated W R A (fun r => f (Some r))
                (fun r w0 => Hf (Some r) w0) (row :: rest) w)
      as (res & w1 & tr & Hrun & Hc & Hs & Hres).
    rewrite Hrun.
    assert (Hmax : Nat.max 1 (length (row :: rest)) = length (row :: rest)).
    { cbn [length]. lia. }
    rewrite Hmax.
    destruct res as [values|x].
    + exists (Returned values), w1, tr. cbn [setitem].
      split; [reflexivity|]. split; [exact Hc|]. split; [exact Hs|exact Hres].
    + exists (Raised x), w1, tr.
      split; [reflexivity|]. split; [exact Hc|]. split; [exact Hs|].
      right. exact Hres.
Qed.

(** Every call of the notebook's decorator fits the bounds of a cell. *)
Lemma decorated_call_fits (W A : Type) (fn : W -> outcome A * W)
    (fuel : nat) (w : W) :
  3 <= fuel ->
  exists res w' trace,
    retry_call notebook_retry fn fuel w = Some (res, w', trace) /\
    1 <= calls trace /\ calls trace <= 3 /\ slept trace <= 20 /\
    match res with
    | Returned _ => True
    | Raised x =>
        is_Exception x = false \/
        exists e, is_Exception e = true /\ x = RetryError 3 e
    end.
Proof.
  intros Hfuel.
  destruct (decorated_call_shape fn w Hfuel)
    as (res & w' & trace & Hrun & Hc1 & Hc2 & Hsl & Hres).
  exists res, w', trace.
  split; [exact Hrun|]. split; [exact Hc1|]. split; [exact Hc2|].
  split; [apply (slept_bound trace Hsl Hc2)|].
  destruct res as [a|x]; [exact I|].
  destruct Hres as [Hx|(_ & e & He & Hx)]; [left; exact Hx|].
  right. exists e. split; assumption.
Qed.

(** X3.  A prediction or validation cell over [n] rows sends at most [3 n]
    requests and sleeps at most [20 n] seconds (3 and 20 for the one call
    that pandas makes over a frame without rows).  It yields either one
    value per row, or the failure of the first row whose call did not
    survive its retries (a [RetryError], or an exception outside
    [Exception]); in that case the calls stop at that row, the later rows
    are never sent, and no column is assigned.  Over a frame without rows
    the cell can also fail in the assignment, with a [ValueError]. *)
Theorem evaluation_columns_bounded `{Imaging} (W : Type)
    (chat_completions_create : pystr -> json -> W -> outcome (option pystr) * W)
    (fuel : nat) (name : string) (deployment : pystr)
    (rows : list test_row) (judged : list (test_row * option pystr)) (w : W) :
  3 <= fuel ->
  bounded_cell name (predict_row chat_completions_create fuel deployment) rows w
    (predict_column chat_completions_create fuel name deployment rows w) /\
  bounded_cell name (judge_row chat_completions_create fuel) judged w
    (judge_column chat_completions_create fuel name judged w).
Proof.
  intros Hfuel. split.
  - apply assign_applied_decorated. intros [row|] w0; cbn [predict_row].
    + apply (decorated_call_fits
               (query_image_body chat_completions_create
                  (row_image row) (row_question row) deployment) w0 Hfuel).
    + apply (decorated_call_fits (@query_image_body_nan W) w0 Hfuel).
  - apply assign_applied_decorated. intros [rp|] w0; cbn [judge_row].
    + apply (decorated_call_fits
               (evaluate_body chat_completions_create
                  (row_question (fst rp)) (row_answer (fst rp)) (snd rp)
                  (lit "gpt-4o")) w0 Hfuel).
    + apply (decorated_call_fits
               (evaluate_body chat_completions_create
                  (lit "nan") (lit "nan") (Some (lit "nan")) (lit "gpt-4o"))
               w0 Hfuel).
Qed.

Lemma evaluation_columns_bounded_witness :
  3 <= 3 /\
  bounded_cell "gpt-4o-base-pred" (predict_row every_third 3 (lit "gpt-4o"))
    [ {| row_image := rgb_chart; row_question := lit "q1"; row_answer := lit "a1" |};
      {| row_image := la_chart; row_question := lit "q2"; row_answer := lit "a2" |};
      {| row_image := rgba_chart; row_question := lit "q3"; row_answer := lit "a3" |} ]
    0
    (predict_column every_third 3 "gpt-4o-base-pred" (lit "gpt-4o")
       [ {| row_image := rgb_chart; row_question := lit "q1"; row_answer := lit "a1" |};
         {| row_image := la_chart; row_question := lit "q2"; row_answer := lit "a2" |};
         {| row_image := rgba_chart; row_question := lit "q3"; row_answer := lit "a3" |} ]
       0) /\
  bounded_cell "gpt-4o-base-pred" (judge_row every_third 3) [] 0
    (judge_column every_third 3 "gpt-4o-base-pred" [] 0).
Proof.
  assert (Hfuel : 3 <= 3) by lia.
  split; [exact Hfuel|].
  exact (@evaluation_columns_bounded raster_imaging nat every_third 3
           "gpt-4o-base-pred" (lit "gpt-4o")
           [ {| row_image := rgb_chart; row_question := lit "q1";
                row_answer := lit "a1" |};
             {| row_image := la_chart; row_question := lit "q2";
                row_answer := lit "a2" |};
             {| row_image := rgba_chart; row_question := lit "q3";
                row_answer := lit "a3" |} ]
           [] 0 Hfuel).
Defined.

Example predict_column_every_third :
  predict_column every_third 3 "gpt-4o-base-pred" (lit "gpt-4o")
    [ {| row_image := rgb_chart; row_question := lit "q1"; row_answer := lit "a1" |};
      {| row_image := rgba_chart; row_question := lit "q2"; row_answer := lit "a2" |} ]
    0
  = Some (Returned [Some (lit "CORRECT"); Some (lit "CORRECT")], 6,
          [Attempt 1; Sleep 10; Attempt 2; Sleep 10; Attempt 3;
           Attempt 1; Sleep 10; Attempt 2; Sleep 10; Attempt 3]).
Proof. reflexivity. Qed.

(** The second row cannot be encoded: the first row's request was sent,
    the third row's never is, and the cell raises. *)
Example predict_column_stops :
  predict_column every_third 3 "gpt-4o-base-pred" (lit "gpt-4o")
    [ {| row_image := rgb_chart; row_question := lit "q1"; row_answer := lit "a1" |};
      {| row_image := la_chart; row_question := lit "q2"; row_answer := lit "a2" |};
      {| row_image := rgba_chart; row_question := lit "q3"; row_answer := lit "a3" |} ]
    0
  = Some (Raised (RetryError 3 (PyExn ValueError "conversion not supported")),
          3,
          [Attempt 1; Sleep 10; Attempt 2; Sleep 10; Attempt 3;
           Attempt 1; Sleep 10; Attempt 2; Sleep 10; Attempt 3]).
Proof. reflexivity. Qed.

(** A frame without rows.  The prediction cell tries three times to encode
    a NaN, sends nothing, and fails in the assignment; the validation cell
    sends one request and assigns a column without rows. *)
Example predict_column_no_rows :
  predict_column answers_42 3 "gpt-4o-base-pred" (lit "gpt-4o") [] 0
  = Some (Raised (PyExn ValueError
                    "Cannot set a DataFrame with multiple columns to the single column gpt-4o-base-pred"),
          0, [Attempt 1; Sleep 10; Attempt 2; Sleep 10; Attempt 3]).
Proof. reflexivity. Qed.

Example judge_column_no_rows :
  judge_column answers_42 3 "gpt-4o-base-eval" [] 0
  = Some (Returned [], 1, [Attempt 1]).
Proof. reflexivity. Qed.

(** ** Verdict counts and the accuracy chart *)

Lemma bump_keys key table k :
  In k (map fst (bump key table)) <-> k = key \/ In k (map fst table).
Proof.
  induction table as [|[k' n] rest IH]; cbn [bump map fst In].
  - intuition.
  - destruct (pystr_eqb k' key) eqn:E; cbn [map fst In].
    + apply pystr_eqb_eq in E. subst k'. intuition.
    + rewrite IH. intuition.
Qed.

Lemma bump_NoDup key table :
  NoDup (map fst table) -> NoDup (map fst (bump key table)).
Proof.
  induction table as [|[k' n] rest IH]; intros Hnd; cbn [bump map fst].
  - apply NoDup_cons; [intros []|apply NoDup_nil].
  - cbn [map fst] in Hnd. inversion Hnd as [|? ? Hin Hrest]; subst.
    destruct (pystr_eqb k' key) eqn:E; cbn [map fst].
    + apply NoDup_cons; assumption.
    + apply NoDup_cons; [|apply IH, Hrest].
      rewrite bump_keys. intros [->|Hk]; [|contradiction].
      rewrite pystr_eqb_refl in E. discriminate.
Qed.

Lemma bump_positive key table :
  (forall k n, In (k, n) table -> (1 <= n)%Z) ->
  forall k n, In (k, n) (bump key table) -> (1 <= n)%Z.
Proof.
  induction table as [|[k' n'] rest IH]; intros Hpos k n Hin;
    cbn [bump] in Hin.
  - destruct Hin as [E|[]]. injection E as _ <-. lia.
  - destruct (pystr_eqb k' key).
    + destruct Hin as [E|Hin].
      * injection E as _ <-. specialize (Hpos k' n' (or_introl eq_refl)). lia.
      * apply (Hpos k n). right. exact Hin.
    + destruct Hin as [E|Hin].
      * apply (Hpos k n). left. exact E.
      * apply (IH (fun k n H => Hpos k n (or_intror H)) k n Hin).
Qed.

(** X4.  [value_counts()] is a table of the distinct non-null verdicts:
    [get(key, 0)] is the number of rows that hold exactly [key], no key
    appears twice, and no entry has a count below one. *)
Theorem value_counts_counts (col : list (option pystr)) :
  (forall key,
     series_get (value_counts col) key 0%Z = Z.of_nat (occurrences key col)) /\
  NoDup (map fst (value_counts col)) /\
  (forall key n, In (key, n) (value_counts col) -> (1 <= n)%Z).
Proof.
  split; [|split].
  - intros key. unfold occurrences.
    induction col as [|[s|] rest IH]; cbn [value_counts filter].
    + reflexivity.
    + destruct (pystr_eqb s key) eqn:E.
      * apply pystr_eqb_eq in E. subst s.
        rewrite series_get_bump_same, IH. cbn [length]. lia.
      * rewrite series_get_bump_other; [exact IH|].
        intros ->. rewrite pystr_eqb_refl in E. discriminate.
    + exact IH.
  - induction col as [|[s|] rest IH]; cbn [value_counts].
    + apply NoDup_nil.
    + apply bump_NoDup, IH.
    + exact IH.
  - induction col as [|[s|] rest IH]; cbn [value_counts].
    + intros key n [].
    + apply bump_positive, IH.
    + exact IH.
Qed.

Lemma inject_nat_pos n : 0 < n -> (0 < inject_Z (Z.of_nat n))%Q.
Proof. intros Hn. unfold Qlt, inject_Z. cbn. lia. Qed.

Lemma ratio_le (a b n : nat) :
  0 < n ->
  (inject_Z (Z.of_nat a) / inject_Z (Z.of_nat n)
   <= inject_Z (Z.of_nat b) / inject_Z (Z.of_nat n))%Q <-> a <= b.
Proof.
  intros Hn. pose proof (inject_nat_pos Hn) as Hpos.
  unfold Qdiv. rewrite Qmult_le_r by (apply Qinv_lt_0_compat, Hpos).
  rewrite <- Zle_Qle. lia.
Qed.

Lemma ratio_eq_1 (a n : nat) :
  0 < n ->
  (inject_Z (Z.of_nat a) / inject_Z (Z.of_nat n) == 1)%Q <-> a = n.
Proof.
  intros Hn. pose proof (inject_nat_pos Hn) as Hpos.
  assert (Hnz : ~ (inject_Z (Z.of_nat n) == 0)%Q).
  { intros E. rewrite E in Hpos. apply (Qlt_irrefl 0), Hpos. }
  split.
  - intros H.
    assert (E : (inject_Z (Z.of_nat a) == inject_Z (Z.of_nat n))%Q).
    { setoid_replace (inject_Z (Z.of_nat a))
        with (inject_Z (Z.of_nat n)
              * (inject_Z (Z.of_nat a) / inject_Z (Z.of_nat n)))%Q
        by (symmetry; apply Qmult_div_r, Hnz).
      rewrite H. ring. }
    unfold Qeq, inject_Z in E. cbn in E. lia.
  - intros ->. unfold Qdiv. apply Qmult_inv_r, Hnz.
Qed.

Lemma ratio_eq_0 (a n : nat) :
  0 < n ->
  (inject_Z (Z.of_nat a) / inject_Z (Z.of_nat n) == 0)%Q <-> a = 0.
Proof.
  intros Hn. pose proof (inject_nat_pos Hn) as Hpos.
  assert (Hnz : ~ (inject_Z (Z.of_nat n) == 0)%Q).
  { intros E. rewrite E in Hpos. apply (Qlt_irrefl 0), Hpos. }
  split.
  - intros H.
    assert (E : (inject_Z (Z.of_nat a) == 0)%Q).
    { setoid_replace (inject_Z (Z.of_nat a))
        with (inject_Z (Z.of_nat n)
              * (inject_Z (Z.of_nat a) / inject_Z (Z.of_nat n)))%Q
        by (symmetry; apply Qmult_div_r, Hnz).
      rewrite H. ring. }
    unfold Qeq, inject_Z in E. cbn in E. lia.
  - intros ->. unfold Qdiv. cbn. ring.
Qed.

Lemma count_label_all col :
  count_label col = length col <-> Forall (fun v => v = Some CORRECT) col.
Proof.
  unfold count_label. induction col as [|v rest IH]; cbn [filter length].
  - split; [intros _; apply Forall_nil|reflexivity].
  - pose proof (filter_length_le
                  (fun v => match v with
                            | Some s => pystr_eqb s CORRECT
                            | None => false
                            end) rest) as Hle.
    destruct v as [s|]; [destruct (pystr_eqb s CORRECT) eqn:E|];
      cbn [length].
    + apply pystr_eqb_eq in E. subst s. split.
      * intros Hl. apply Forall_cons; [reflexivity|]. apply IH. lia.
      * intros Hf. inversion Hf; subst. f_equal. apply IH. assumption.
    + split; [lia|]. intros Hf. inversion Hf as [|? ? Hv _]; subst.
      injection Hv as ->. rewrite pystr_eqb_refl in E. discriminate.
    + split; [lia|]. intros Hf. inversion Hf as [|? ? Hv _]; discriminate.
Qed.

Lemma count_label_none col :
  count_label col = 0 <-> Forall (fun v => v <> Some CORRECT) col.
Proof.
  unfold count_label. induction col as [|v rest IH]; cbn [filter length].
  - split; [intros _; apply Forall_nil|reflexivity].
  - destruct v as [s|]; [destruct (pystr_eqb s CORRECT) eqn:E|];
      cbn [length].
    + apply pystr_eqb_eq in E. subst s. split; [lia|].
      intros Hf. inversion Hf as [|? ? Hv _]; subst. contradiction.
    + rewrite IH. split.
      * intros Hf. apply Forall_cons; [|exact Hf].
        intros Hv. injection Hv as ->. rewrite pystr_eqb_refl in E.
        discriminate.
      * intros Hf. inversion Hf; assumption.
    + rewrite IH. split.
      * intros Hf. apply Forall_cons; [discriminate|exact Hf].
      * intros Hf. inversion Hf; assumption.
Qed.

(** X5.  On a non-empty table the chart orders the two models as their
    counts of [CORRECT] verdicts do; a bar reaches 1 exactly when every
    row's verdict is the label, and is 0 exactly when none is. *)
Theorem chart_compares_counts (ds_test_eval : list eval_row) :
  ds_test_eval <> [] ->
  exists baseline fine_tuned : Q,
    chart_accuracies ds_test_eval = Returned (baseline, fine_tuned) /\
    ((baseline <= fine_tuned)%Q <->
     count_label (map gpt_4o_base_eval ds_test_eval)
     <= count_label (map gpt_4o_ft_eval ds_test_eval)) /\
    ((fine_tuned == 1)%Q <->
     Forall (fun row => gpt_4o_ft_eval row = Some CORRECT) ds_test_eval) /\
    ((fine_tuned == 0)%Q <->
     Forall (fun row => gpt_4o_ft_eval row <> Some CORRECT) ds_test_eval).
Proof.
  intros Hne.
  assert (Hn : 0 < length ds_test_eval).
  { destruct ds_test_eval; [contradiction|cbn; lia]. }
  do 2 eexists. split; [apply chart_accuracies_defined, Hne|].
  split; [apply ratio_le, Hn|]. split.
  - rewrite ratio_eq_1 by exact Hn.
    rewrite <- (length_map gpt_4o_ft_eval ds_test_eval) at 1.
    rewrite count_label_all, Forall_map. reflexivity.
  - rewrite ratio_eq_0 by exact Hn.
    rewrite count_label_none, Forall_map. reflexivity.
Qed.

Lemma chart_compares_counts_witness :
  exists baseline fine_tuned : Q,
    chart_accuracies sample_eval = Returned (baseline, fine_tuned) /\
    ((baseline <= fine_tuned)%Q <->
     count_label (map gpt_4o_base_eval sample_eval)
     <= count_label (map gpt_4o_ft_eval sample_eval)) /\
    ((fine_tuned == 1)%Q <->
     Forall (fun row => gpt_4o_ft_eval row = Some CORRECT) sample_eval) /\
    ((fine_tuned == 0)%Q <->
     Forall (fun row => gpt_4o_ft_eval row <> Some CORRECT) sample_eval).
Proof.
  apply (@chart_compares_counts sample_eval). discriminate.
Defined.

(** ** Smoothing: a window of one row *)

(** X6.  With [window_size = 1], under pandas 1.5 or later, smoothing
    computes nothing new: every column comes back as rolling reads it, as
    doubles with NaN for every infinity.  A number that is not infinite
    and a NaN keep their place in a float64 column; a 64-bit integer comes
    back as the double nearest to it. *)
Theorem rolling_window_one (results_df : DataFrame) (name : string)
    (col : column) :
  getitem results_df name = Returned col ->
  exists smooth col',
    rolling_mean true results_df 1 = Returned smooth /\
    getitem smooth name = Returned col' /\
    col' = map (fun v => if is_infinity v then nan else v)
               (ensure_float64 col) /\
    length col' = len col /\
    forall values i,
      col = Float64 values -> i < length values ->
      is_infinity (nth i values nan) = false ->
      nth i col' nan = nth i values nan.
Proof.
  intros Hcol. unfold rolling_mean. cbn [Z.ltb Z.compare].
  do 2 eexists. split; [reflexivity|].
  rewrite getitem_smooth, Hcol. cbn [bind]. split; [reflexivity|].
  change (Z.to_nat 1) with 1. rewrite roll_mean_one.
  split; [reflexivity|]. split; [apply prep_values_length|].
  intros values i -> Hi Hfin. unfold prep_values. cbn [ensure_float64].
  set (f := fun v => if is_infinity v then nan else v).
  transitivity (f (nth i values nan)).
  - exact (map_nth f values nan i).
  - unfold f. rewrite Hfin. reflexivity.
Qed.

Lemma rolling_window_one_witness :
  exists smooth col',
    rolling_mean true odd_metrics 1 = Returned smooth /\
    getitem smooth "train_loss" = Returned col' /\
    col' = map (fun v => if is_infinity v then nan else v)
               (ensure_float64 (Float64 [infinity; nan; -0]%float)) /\
    length col' = len (Float64 [infinity; nan; -0]%float) /\
    forall values i,
      Float64 [infinity; nan; -0]%float = Float64 values ->
      i < length values ->
      is_infinity (nth i values nan) = false ->
      nth i col' nan = nth i values nan.
Proof.
  apply (@rolling_window_one odd_metrics "train_loss"
           (Float64 [infinity; nan; -0]%float)).
  reflexivity.
Defined.

(** What a window of one row gives back: an integer above 2^53 as the
    double nearest to it, an infinity as NaN, a negative zero as it is. *)
Example odd_metrics_smooth :
  rolling_mean true odd_metrics 1
  = Returned [ ("step"%string, [9007199254740992; 2; 3]%float);
               ("train_loss"%string, [nan; nan; -0]%float) ].
Proof. reflexivity. Qed.

(** ** Smoothing: a window that repeats one number *)

(** X7.  Under pandas 1.5 or later a smoothed row never leaves the range
    of a window that repeats one number: when the [window_size] rows that
    end at a row all hold the same number, the smoothed row is exactly
    that number, whatever the rows before them hold. *)
Theorem rolling_mean_of_repeated_value (results_df : DataFrame)
    (window_size : Z) (name : string) (col : column) (i : nat) (v : float) :
  (1 <= window_size)%Z ->
  getitem results_df name = Returned col ->
  i < len col ->
  Z.to_nat window_size <= i + 1 ->
  (forall j, i + 1 - Z.to_nat window_size <= j -> j <= i ->
             nth j (ensure_float64 col) nan = v) ->
  (v =? v)%float = true ->
  is_infinity v = false ->
  exists smooth col',
    rolling_mean true results_df window_size = Returned smooth /\
    getitem smooth name = Returned col' /\
    nth i col' nan = v.
Proof.
  intros Hw Hcol Hi Hfull Hv Hp Hfin. unfold rolling_mean.
  destruct (Z.ltb_spec window_size 0) as [Hneg|_]; [lia|].
  do 2 eexists. split; [reflexivity|].
  rewrite getitem_smooth, Hcol. cbn [bind]. split; [reflexivity|].
  apply roll_mean_repeated; try lia.
  - rewrite prep_values_length. exact Hi.
  - intros j Hj1 Hj2. unfold prep_values.
    set (f := fun x => if is_infinity x then nan else x).
    transitivity (f (nth j (ensure_float64 col) nan)).
    + exact (map_nth f (ensure_float64 col) nan j).
    + rewrite (Hv j Hj1 Hj2). unfold f. rewrite Hfin. reflexivity.
  - exact Hp.
Qed.

Lemma rolling_mean_of_repeated_value_witness :
  exists smooth col',
    rolling_mean true sample_metrics 3 = Returned smooth /\
    getitem smooth "train_mean_token_accuracy" = Returned col' /\
    nth 3 col' nan = 1%float.
Proof.
  apply (@rolling_mean_of_repeated_value sample_metrics 3
           "train_mean_token_accuracy" (Float64 [0; 1; 1; 1; 1; 1]%float) 3 1).
  - lia.
  - reflexivity.
  - cbn. lia.
  - cbn. lia.
  - intros j Hj1 Hj2. change (Z.to_nat 3) with 3 in Hj1.
    destruct j as [|[|[|[|j]]]]; try lia; reflexivity.
  - reflexivity.
  - reflexivity.
Defined.

(** Four rows of 0.95 smoothed over three: the double nearest to 0.95
    under pandas 1.5 or later, the double below it before. *)
Example repeated_value_smooth :
  roll_mean true (repeat 0x1.e666666666666p-1%float 4) 3
  = [nan; nan; 0x1.e666666666666p-1; 0x1.e666666666666p-1]%float /\
  roll_mean false (repeat 0x1.e666666666666p-1%float 4) 3
  = [nan; nan; 0x1.e666666666665p-1; 0x1.e666666666665p-1]%float.
Proof. split; reflexivity. Qed.

(** ** [show_ft_metrics]: what reaches the plots *)

Lemma validation_rows_length_le valid_loss col :
  length (validation_rows valid_loss col)
  <= length (filter (fun b : bool => b) (usable valid_loss)).
Proof.
  unfold validation_rows. rewrite length_map.
  generalize (usable valid_loss) as mask. intros mask. revert col.
  induction mask as [|b mask IH]; intros col; [cbn; lia|].
  destruct col as [|c col]; [cbn; lia|].
  cbn [combine filter fst]. specialize (IH col).
  destruct b; cbn [length]; lia.
Qed.

Lemma validation_rows_length valid_loss col :
  length col = length (usable valid_loss) ->
  length (validation_rows valid_loss col)
  = length (filter (fun b : bool => b) (usable valid_loss)).
Proof.
  unfold validation_rows. rewrite length_map.
  generalize (usable valid_loss) as mask. intros mask. revert col.
  induction mask as [|b mask IH]; intros col Hlen;
    [destruct col; [reflexivity|discriminate]|].
  destruct col as [|c col]; [discriminate|].
  cbn [combine filter fst]. injection Hlen as Hlen. specialize (IH col Hlen).
  destruct b; cbn [length]; lia.
Qed.

Lemma usable_length valid_loss : length (usable valid_loss) = len valid_loss.
Proof. destruct valid_loss; cbn [usable len]; apply length_map. Qed.

Lemma ensure_float64_length col : length (ensure_float64 col) = len col.
Proof.
  destruct col; cbn [ensure_float64 len]; [apply length_map|reflexivity].
Qed.

Section PlottedFacts.
Variable repeats_exact : bool.

(** X8.  When fewer rows have a usable [valid_loss] than the window is
    long, the two validation plots receive nothing but NaN: with the
    default window of 5, a run validated on four steps shows empty
    validation curves. *)
Theorem validation_curves_need_a_full_window
    (results_df : DataFrame) (window_size : Z)
    (step train_loss train_acc valid_loss valid_acc : column) :
  (0 <= window_size)%Z ->
  getitem results_df "step" = Returned step ->
  getitem results_df "train_loss" = Returned train_loss ->
  getitem results_df "train_mean_token_accuracy" = Returned train_acc ->
  getitem results_df "valid_loss" = Returned valid_loss ->
  getitem results_df "valid_mean_token_accuracy" = Returned valid_acc ->
  length (filter (fun b : bool => b) (usable valid_loss))
    < Z.to_nat window_size ->
  exists c1 c2 c3 c4,
    show_ft_metrics repeats_exact results_df window_size
      = Returned [c1; c2; c3; c4] /\
    Forall (fun y => y = nan) (ys c3) /\
    Forall (fun y => y = nan) (ys c4).
Proof.
  intros Hw Hs Htl Hta Hvl Hva Hfew.
  rewrite (show_ft_metrics_curves _ _ Hw Hs Htl Hta Hvl Hva).
  unfold curves_of. do 4 eexists. split; [reflexivity|].
  cbn [ys]. split; apply roll_mean_short;
    rewrite prep_values_length; cbn [len];
    (eapply Nat.le_lt_trans; [apply validation_rows_length_le|exact Hfew]).
Qed.

(** X9.  On a table whose five columns have [n] rows each, every plot
    call gets an x series and a y series of the same length: [n] for the
    two training plots, the number of rows with a usable [valid_loss] for
    the two validation plots. *)
Theorem plotted_series_have_equal_length
    (results_df : DataFrame) (window_size : Z) (n : nat)
    (step train_loss train_acc valid_loss valid_acc : column) :
  (0 <= window_size)%Z ->
  getitem results_df "step" = Returned step ->
  getitem results_df "train_loss" = Returned train_loss ->
  getitem results_df "train_mean_token_accuracy" = Returned train_acc ->
  getitem results_df "valid_loss" = Returned valid_loss ->
  getitem results_df "valid_mean_token_accuracy" = Returned valid_acc ->
  len step = n -> len train_loss = n -> len train_acc = n ->
  len valid_loss = n -> len valid_acc = n ->
  exists c1 c2 c3 c4,
    show_ft_metrics repeats_exact results_df window_size
      = Returned [c1; c2; c3; c4] /\
    length (xs c1) = n /\ length (ys c1) = n /\
    length (xs c2) = n /\ length (ys c2) = n /\
    length (xs c3) = length (filter (fun b : bool => b) (usable valid_loss)) /\
    length (ys c3) = length (filter (fun b : bool => b) (usable valid_loss)) /\
    length (xs c4) = length (filter (fun b : bool => b) (usable valid_loss)) /\
    length (ys c4) = length (filter (fun b : bool => b) (usable valid_loss)).
Proof.
  intros Hw Hs Htl Hta Hvl Hva L1 L2 L3 L4 L5.
  rewrite (show_ft_metrics_curves _ _ Hw Hs Htl Hta Hvl Hva).
  unfold curves_of. do 4 eexists. split; [reflexivity|].
  cbn [xs ys]. rewrite !roll_mean_length, !prep_values_length. cbn [len].
  rewrite !validation_rows_length
    by (rewrite ensure_float64_length, usable_length; congruence).
  repeat split; assumption.
Qed.

(** X10.  A window that is not positive never draws a point.  A negative
    [window_size] raises [ValueError] (once [valid_loss] has been found;
    a missing [valid_loss] is reported first, as [KeyError]); a
    [window_size] of 0 plots four curves that hold only NaN. *)
Theorem nonpositive_window_draws_nothing (results_df : DataFrame)
    (window_size : Z) :
  (window_size <= 0)%Z ->
  (forall name, In name plotted_columns ->
                exists col, getitem results_df name = Returned col) ->
  if (window_size <? 0)%Z
  then show_ft_metrics repeats_exact results_df window_size
       = Raised (PyExn ValueError "window must be an integer 0 or greater")
  else exists curves,
         show_ft_metrics repeats_exact results_df window_size
           = Returned curves /\
         length curves = 4 /\
         Forall (fun c => Forall (fun p => p = nan) (xs c) /\
                          Forall (fun p => p = nan) (ys c)) curves.
Proof.
  intros Hw Hall. rewrite show_ft_metrics_unfold.
  destruct (Hall "valid_loss"%string) as [vl ->]; [cbn; tauto|].
  destruct (Hall "step"%string) as [st ->]; [cbn; tauto|].
  destruct (Hall "train_loss"%string) as [tl ->]; [cbn; tauto|].
  destruct (Hall "train_mean_token_accuracy"%string) as [ta ->]; [cbn; tauto|].
  destruct (Hall "valid_mean_token_accuracy"%string) as [va ->]; [cbn; tauto|].
  cbn [bind]. destruct (Z.ltb_spec window_size 0) as [Hneg|Hnn];
    [reflexivity|].
  eexists. split; [reflexivity|]. split; [reflexivity|].
  replace window_size with 0%Z by lia. change (Z.to_nat 0) with 0.
  unfold curves_of.
  repeat (apply Forall_cons; [cbn [xs ys]; split; apply roll_mean_zero|]).
  apply Forall_nil.
Qed.

End PlottedFacts.

Lemma validation_curves_need_a_full_window_witness :
  exists c1 c2 c3 c4,
    show_ft_metrics true sample_metrics 5 = Returned [c1; c2; c3; c4] /\
    Forall (fun y => y = nan) (ys c3) /\
    Forall (fun y => y = nan) (ys c4).
Proof.
  apply (@validation_curves_need_a_full_window true sample_metrics 5
           (Int64 [1; 2; 3; 4; 5; 6]%Z)
           (Float64 [9; 6; 3; 3; 0; 3]%float)
           (Float64 [0; 1; 1; 1; 1; 1]%float)
           (Float64 [8; nan; -1; 4; 3; 2]%float)
           (Float64 [0; nan; -1; 1; 1; 1]%float));
    solve [reflexivity | lia | cbn; lia].
Defined.

Lemma plotted_series_have_equal_length_witness :
  exists c1 c2 c3 c4,
    show_ft_metrics true sample_metrics 2 = Returned [c1; c2; c3; c4] /\
    length (xs c1) = 6 /\ length (ys c1) = 6 /\
    length (xs c2) = 6 /\ length (ys c2) = 6 /\
    length (xs c3) = 4 /\ length (ys c3) = 4 /\
    length (xs c4) = 4 /\ length (ys c4) = 4.
Proof.
  apply (@plotted_series_have_equal_length true sample_metrics 2 6
           (Int64 [1; 2; 3; 4; 5; 6]%Z)
           (Float64 [9; 6; 3; 3; 0; 3]%float)
           (Float64 [0; 1; 1; 1; 1; 1]%float)
           (Float64 [8; nan; -1; 4; 3; 2]%float)
           (Float64 [0; nan; -1; 1; 1; 1]%float));
    solve [reflexivity | lia].
Defined.

Lemma nonpositive_window_draws_nothing_witness :
  exists curves,
    show_ft_metrics true sample_metrics 0 = Returned curves /\
    length curves = 4 /\
    Forall (fun c => Forall (fun p => p = nan) (xs c) /\
                     Forall (fun p => p = nan) (ys c)) curves.
Proof.
  apply (@nonpositive_window_draws_nothing true sample_metrics 0); [lia|].
  intros name Hin. cbn in Hin.
  destruct Hin as [<-|[<-|[<-|[<-|[<-|[]]]]]]; eexists; reflexivity.
Defined.

Example negative_window_ValueError :
  show_ft_metrics true sample_metrics (-3)
  = Raised (PyExn ValueError "window must be an integer 0 or greater").
Proof. reflexivity. Qed.

Example missing_valid_loss_reported_first :
  show_ft_metrics true prose_metrics (-3) = Raised (PyExn KeyError "valid_loss").
Proof. reflexivity. Qed.

(** ** [encode_image]: what it returns and what it raises *)

Lemma b64encode_length data :
  length (b64encode data) = 4 * ((length data + 2) / 3).
Proof.
  induction data as [| a | a b | a b c rest IH] using list_ind3;
    try reflexivity.
  cbn [b64encode length]. rewrite IH.
  replace (S (S (S (length rest))) + 2) with (length rest + 2 + 1 * 3) by lia.
  rewrite Nat.div_add by discriminate. lia.
Qed.

(** A returned result is base64 text. *)
Lemma encode_image_shape `{Imaging} (img : image) (quality : Z) :
  match encode_image img quality with
  | Returned s => exists jpeg, s = map Byte.to_N (b64encode jpeg)
  | Raised _ => True
  end.
Proof.
  unfold encode_image.
  destruct (if negb (String.eqb (mode img) "RGB")
            then convert img "RGB" else Returned img) as [rgb|e];
    cbn [bind]; [|exact I].
  destruct (save_jpeg rgb quality) as [jpeg|e]; cbn [bind]; [|exact I].
  rewrite utf8_decode_b64encode. exists jpeg. reflexivity.
Qed.

(** X11.  [encode_image] adds no failure of its own.  When it returns,
    its result is the base64 text of the bytes Pillow wrote for the image
    (converted first when its mode is not RGB): [4 * ceil(n / 3)]
    characters for [n] bytes.  When it raises, the exception is the one
    Pillow's [convert] or [save] raised. *)
Theorem encode_image_outcome `{Imaging} (img : image) (quality : Z) :
  match encode_image img quality with
  | Returned s =>
      exists rgb jpeg,
        (if String.eqb (mode img) "RGB" then rgb = img
         else convert img "RGB" = Returned rgb) /\
        save_jpeg rgb quality = Returned jpeg /\
        s = map Byte.to_N (b64encode jpeg) /\
        length s = 4 * ((length jpeg + 2) / 3)
  | Raised e =>
      (String.eqb (mode img) "RGB" = false /\ convert img "RGB" = Raised e) \/
      exists rgb,
        (if String.eqb (mode img) "RGB" then rgb = img
         else convert img "RGB" = Returned rgb) /\
        save_jpeg rgb quality = Raised e
  end.
Proof.
  unfold encode_image.
  destruct (String.eqb (mode img) "RGB") eqn:Em; cbn [negb bind].
  - destruct (save_jpeg img quality) as [jpeg|e] eqn:Es; cbn [bind].
    + rewrite utf8_decode_b64encode. exists img, jpeg.
      rewrite length_map, b64encode_length. auto.
    + right. exists img. auto.
  - destruct (convert img "RGB") as [rgb|e] eqn:Ec; cbn [bind].
    + destruct (save_jpeg rgb quality) as [jpeg|e] eqn:Es; cbn [bind].
      * rewrite utf8_decode_b64encode. exists rgb, jpeg.
        rewrite length_map, b64encode_length. auto.
      * right. exists rgb. auto.
    + left. auto.
Qed.

(** ** The written file, read back *)

Section FileReadBack.
Context `{Imaging}.

(** A row that converts read all three fields and encoded its image. *)
Lemma convert_example_Returned idx ex record :
  convert_example idx ex = Returned record ->
  exists img jpeg question answer,
    example_image ex = Returned img /\
    encode_image img 80 = Returned (map Byte.to_N (b64encode jpeg)) /\
    example_question ex = Returned question /\
    example_answer ex = Returned answer /\
    record = training_record idx question answer
                             (map Byte.to_N (b64encode jpeg)).
Proof.
  unfold convert_example.
  destruct (example_image ex) as [img|e] eqn:Ei; cbn [bind]; [|discriminate].
  pose proof (encode_image_shape img 80) as Hshape.
  destruct (encode_image img 80) as [enc|e] eqn:Ee; cbn [bind];
    [|discriminate].
  destruct Hshape as (jpeg & ->).
  destruct (example_question ex) as [q|e] eqn:Eq; cbn [bind]; [|discriminate].
  destruct (example_answer ex) as [a|e] eqn:Ea; cbn [bind]; [|discriminate].
  intros E. injection E as <-. exists img, jpeg, q, a.
  repeat split; assumption.
Qed.


Lemma converted_wf rows :
  forall idx,
    (forall i ex q, nth_error rows i = Some ex ->
                    example_question ex = Returned q -> wf_str q) ->
    (forall i ex a, nth_error rows i = Some ex ->
                    example_answer ex = Returned a -> wf_str a) ->
    Forall wf_json (converted rows idx).
Proof.
  induction rows as [|ex rest IH]; intros idx Hq Ha; cbn [converted];
    [apply Forall_nil|].
  assert (Hrest : Forall wf_json (converted rest (S idx))).
  { apply IH.
    - intros i ex' q Hn. apply (Hq (S i) ex' q Hn).
    - intros i ex' a Hn. apply (Ha (S i) ex' a Hn). }
  destruct (convert_example idx ex) as [record|e] eqn:E; [|exact Hrest].
  apply Forall_cons; [|exact Hrest].
  destruct (convert_example_Returned idx ex E)
    as (img & jpeg & q & a & _ & _ & Eq & Ea & ->).
  apply wf_training_record.
  - apply (Hq 0 ex q eq_refl Eq).
  - apply (Ha 0 ex a eq_refl Ea).
  - apply wf_str_b64encode.
Qed.

Lemma map_loads_dumps records :
  Forall wf_json records -> map loads (map dumps records) = map Some records.
Proof.
  induction 1 as [|r rest Hr _ IH]; [reflexivity|].
  cbn [map]. rewrite loads_dumps by exact Hr. rewrite IH. reflexivity.
Qed.

(** X12.  The file is valid JSON Lines whatever the rows hold: when the
    questions and answers that can be read are well-formed strings and no
    row fails outside [Exception], reading the written file line by line
    with [json.loads] gives exactly the records of the rows that convert,
    in order.  Nothing is asked of the images or of Pillow. *)
Theorem written_file_reads_back (dataset : list example) :
  (forall i ex e,
     nth_error dataset i = Some ex ->
     convert_example i ex = Raised e -> is_Exception e = true) ->
  (forall i ex q, nth_error dataset i = Some ex ->
                  example_question ex = Returned q -> wf_str q) ->
  (forall i ex a, nth_error dataset i = Some ex ->
                  example_answer ex = Returned a -> wf_str a) ->
  exists file log,
    generate_split dataset = Returned (file, log) /\
    map loads (lines file) = map Some (converted dataset 0) /\
    length (lines file) + length log = length dataset.
Proof.
  intros Hexn Hq Ha.
  exists (write_jsonl (converted dataset 0)), (dropped dataset 0).
  split.
  { unfold generate_split. rewrite convert_rows_spec by exact Hexn.
    reflexivity. }
  rewrite lines_write_jsonl. split.
  - apply map_loads_dumps, converted_wf; assumption.
  - rewrite length_map. apply converted_dropped_length.
Qed.

End FileReadBack.

Lemma sample_dataset_questions :
  forall i ex q, nth_error sample_dataset i = Some ex ->
                 example_question ex = Returned q -> wf_str q.
Proof.
  intros i ex q Hn Hq.
  destruct i as [|[|[|i]]]; cbn [nth_error sample_dataset] in Hn;
    try (destruct i; discriminate Hn); injection Hn as <-;
    try discriminate Hq; injection Hq as <-;
    apply wf_str_forallb; reflexivity.
Qed.

Lemma sample_dataset_answers :
  forall i ex a, nth_error sample_dataset i = Some ex ->
                 example_answer ex = Returned a -> wf_str a.
Proof.
  intros i ex a Hn Ha.
  destruct i as [|[|[|i]]]; cbn [nth_error sample_dataset] in Hn;
    try (destruct i; discriminate Hn); injection Hn as <-;
    injection Ha as <-; apply wf_str_forallb; reflexivity.
Qed.

Lemma written_file_reads_back_witness :
  exists file log,
    generate_split sample_dataset = Returned (file, log) /\
    map loads (lines file) = map Some (converted sample_dataset 0) /\
    length (lines file) + length log = length sample_dataset.
Proof.
  exact (written_file_reads_back sample_dataset sample_dataset_failures
           sample_dataset_questions sample_dataset_answers).
Defined.

(** ** [json.loads] around a record *)

Lemma skip_ws_prefix pre s :
  forallb is_ws pre = true -> skip_ws (pre ++ s) = skip_ws s.
Proof.
  induction pre as [|c pre IH]; intros Hpre; [reflexivity|].
  cbn [forallb] in Hpre. apply andb_true_iff in Hpre.
  destruct Hpre as [Hc Hpre]. cbn [app skip_ws]. rewrite Hc. apply IH, Hpre.
Qed.

(** X13.  A record is read back with any blanks, tabs or line ends around
    its text; in particular a line of the file can be handed to
    [json.loads] with its terminator. *)
Theorem loads_ignores_surrounding_whitespace (v : json) (pre post : pystr) :
  wf_json v ->
  forallb is_ws pre = true -> forallb is_ws post = true ->
  loads (pre ++ dumps v ++ post) = Some v.
Proof.
  intros Hwf Hpre Hpost. unfold loads.
  rewrite skip_ws_prefix by exact Hpre.
  destruct (dumps_head v) as (c & t & E & Hc & _).
  assert (Hskip : skip_ws (dumps v ++ post) = dumps v ++ post).
  { rewrite E. cbn [app skip_ws]. rewrite Hc. reflexivity. }
  rewrite Hskip.
  rewrite (@parse_value_dumps v Hwf).
  - replace (skip_ws post) with (@nil N); [reflexivity|].
    rewrite <- (app_nil_r post), skip_ws_prefix by exact Hpost. reflexivity.
  - pose proof (weight_le_length v). rewrite !length_app. lia.
Qed.

Lemma loads_ignores_surrounding_whitespace_witness :
  loads (lit "  "
         ++ dumps (training_record 0 (lit "q") (lit "a") (lit "/9gQIDD/2Q=="))
         ++ [10%N])
  = Some (training_record 0 (lit "q") (lit "a") (lit "/9gQIDD/2Q==")).
Proof.
  apply loads_ignores_surrounding_whitespace;
    [apply wf_training_record; apply wf_str_forallb; reflexivity
    |reflexivity|reflexivity].
Defined.

(** ** The conversion loop: what stops it and what it prints *)

Section LoopFacts.
Context `{Imaging}.

Lemma convert_rows_aborts rows :
  forall idx json_data log k ex e,
    nth_error rows k = Some ex ->
    convert_example (idx + k) ex = Raised e ->
    is_Exception e = false ->
    (forall i ex' e', i < k -> nth_error rows i = Some ex' ->
                      convert_example (idx + i) ex' = Raised e' ->
                      is_Exception e' = true) ->
    convert_rows rows idx json_data log = Raised e.
Proof.
  induction rows as [|ex0 rest IH]; intros idx json_data log k ex e Hn Hc He Hbefore;
    [destruct k; discriminate|].
  cbn [convert_rows]. destruct k as [|k].
  - injection Hn as <-. rewrite Nat.add_0_r in Hc. rewrite Hc.
    assert (Hk : is_KeyError e = false).
    { destruct e as [[] ?|]; try reflexivity; discriminate He. }
    rewrite Hk, He. reflexivity.
  - assert (Hrest : forall json_data' log',
               convert_rows rest (S idx) json_data' log' = Raised e).
    { intros json_data' log'. apply (IH (S idx) json_data' log' k ex e Hn).
      - rewrite Nat.add_succ_r in Hc. exact Hc.
      - exact He.
      - intros i ex' e' Hi Hn' Hc'. apply (Hbefore (S i) ex' e'); [lia|exact Hn'|].
        rewrite Nat.add_succ_r. exact Hc'. }
    destruct (convert_example idx ex0) as [record|e0] eqn:E0; [apply Hrest|].
    assert (He0 : is_Exception e0 = true).
    { apply (Hbefore 0 ex0 e0); [lia|reflexivity|].
      rewrite Nat.add_0_r. exact E0. }
    destruct (is_KeyError e0); [|rewrite He0]; apply Hrest.
Qed.

(** X14.  The handlers catch [Exception] only.  If a row fails with an
    exception outside [Exception] (a keyboard interrupt) and no earlier
    row did, the cell stops with that exception: the file of the split is
    not written, whatever the rows before and after it hold. *)
Theorem conversion_stops_on_interrupt (dataset : list example)
    (k : nat) (ex : example) (e : exn) :
  nth_error dataset k = Some ex ->
  convert_example k ex = Raised e ->
  is_Exception e = false ->
  (forall i ex' e', i < k -> nth_error dataset i = Some ex' ->
                    convert_example i ex' = Raised e' ->
                    is_Exception e' = true) ->
  generate_split dataset = Raised e.
Proof.
  intros Hn Hc He Hbefore. unfold generate_split.
  rewrite (@convert_rows_aborts dataset 0 [] [] k ex e Hn Hc He Hbefore).
  reflexivity.
Qed.

Lemma in_dropped_inv rows :
  forall idx entry,
    In entry (dropped rows idx) ->
    exists i ex e,
      nth_error rows i = Some ex /\
      convert_example (idx + i) ex = Raised e /\
      entry = (if is_KeyError e then Missing_field (idx + i) e
               else Error_processing (idx + i) e).
Proof.
  induction rows as [|ex0 rest IH]; intros idx entry Hin; cbn [dropped] in Hin;
    [contradiction|].
  assert (Hrest : In entry (dropped rest (S idx)) ->
                  exists i ex e,
                    nth_error (ex0 :: rest) i = Some ex /\
                    convert_example (idx + i) ex = Raised e /\
                    entry = (if is_KeyError e then Missing_field (idx + i) e
                             else Error_processing (idx + i) e)).
  { intros Hr. destruct (IH (S idx) entry Hr) as (i & ex & e & Hn & Hc & He).
    exists (S i), ex, e. rewrite Nat.add_succ_r. auto. }
  destruct (convert_example idx ex0) as [record|e0] eqn:E0; [auto|].
  destruct Hin as [<-|Hin]; [|auto].
  exists 0, ex0, e0. rewrite Nat.add_0_r. auto.
Qed.

(** X15.  What the loop prints is one line per dropped row and nothing
    else: a line says "Missing field" exactly for a [KeyError] and "Error
    processing" for any other [Exception] (an image Pillow cannot encode,
    an attribute that is not there), each with the row's own index. *)
Theorem conversion_log_lists_dropped_rows (dataset : list example) :
  (forall i ex e,
     nth_error dataset i = Some ex ->
     convert_example i ex = Raised e -> is_Exception e = true) ->
  exists file log,
    generate_split dataset = Returned (file, log) /\
    log = dropped dataset 0 /\
    (forall entry,
       In entry log <->
       exists i ex e,
         nth_error dataset i = Some ex /\
         convert_example i ex = Raised e /\
         entry = (if is_KeyError e then Missing_field i e
                  else Error_processing i e)).
Proof.
  intros Hexn.
  exists (write_jsonl (converted dataset 0)), (dropped dataset 0).
  split.
  { unfold generate_split. rewrite convert_rows_spec by exact Hexn.
    reflexivity. }
  split; [reflexivity|].
  intros entry. split.
  - apply (in_dropped_inv dataset 0).
  - intros (i & ex & e & Hn & Hc & ->). apply (in_dropped dataset 0 i Hn Hc).
Qed.

End LoopFacts.

Lemma conversion_stops_on_interrupt_witness :
  generate_split
    [ good_row rgb_chart "What is the highest bar?" "42";
      {| example_image := Raised (PyExn KeyboardInterrupt "interrupted");
         example_question := Returned (lit "q");
         example_answer := Returned (lit "a") |};
      good_row rgba_chart "Which year is lowest?" "2019" ]
  = Raised (PyExn KeyboardInterrupt "interrupted").
Proof.
  apply (@conversion_stops_on_interrupt raster_imaging _ 1
           {| example_image := Raised (PyExn KeyboardInterrupt "interrupted");
              example_question := Returned (lit "q");
              example_answer := Returned (lit "a") |}
           (PyExn KeyboardInterrupt "interrupted")).
  - reflexivity.
  - reflexivity.
  - reflexivity.
  - intros i ex' e' Hi Hn Hc.
    destruct i as [|i]; [|lia].
    injection Hn as <-. discriminate Hc.
Defined.

Lemma conversion_log_lists_dropped_rows_witness :
  exists file log,
    generate_split sample_dataset = Returned (file, log) /\
    log = dropped sample_dataset 0 /\
    (forall entry,
       In entry log <->
       exists i ex e,
         nth_error sample_dataset i = Some ex /\
         convert_example i ex = Raised e /\
         entry = (if is_KeyError e then Missing_field i e
                  else Error_processing i e)).
Proof.
  exact (conversion_log_lists_dropped_rows sample_dataset
           sample_dataset_failures).
Defined.

(** ** A line determines its row *)

(** X16.  The line of a row determines the row's index, question, answer
    and encoded image: two well-formed rows are written as the same line
    only if they agree on all four. *)
Theorem line_determines_row (i j : nat) (q q' a a' enc enc' : pystr) :
  wf_str q -> wf_str a -> wf_str enc ->
  wf_str q' -> wf_str a' -> wf_str enc' ->
  dumps (training_record i q a enc) = dumps (training_record j q' a' enc') ->
  i = j /\ q = q' /\ a = a' /\ enc = enc'.
Proof.
  intros Wq Wa We Wq' Wa' We' E.
  assert (R : Some (training_record i q a enc)
              = Some (training_record j q' a' enc')).
  { rewrite <- (loads_dumps (wf_training_record i Wq Wa We)),
            <- (loads_dumps (wf_training_record j Wq' Wa' We')), E.
    reflexivity. }
  apply (f_equal (fun o => andthen o record_fields)) in R.
  cbn [andthen] in R. rewrite !record_fields_training_record in R.
  pose proof (f_equal (fun o => match o with
                                | Some t => fst (fst t)
                                | None => []
                                end) R) as Etext.
  pose proof (f_equal (fun o => match o with
                                | Some t => snd (fst t)
                                | None => []
                                end) R) as Eurl.
  pose proof (f_equal (fun o => match o with
                                | Some t => snd t
                                | None => []
                                end) R) as Eans.
  cbn beta iota in Etext, Eurl, Eans. cbn [fst snd] in Etext, Eurl, Eans.
  apply app_inv_head in Eurl.
  destruct (user_text_inj Etext) as [-> ->]. auto.
Qed.

Lemma line_determines_row_witness :
  7 = 7 /\ lit "Which year is lowest?" = lit "Which year is lowest?" /\
  lit "2019" = lit "2019" /\ lit "/9gQIDD/2Q==" = lit "/9gQIDD/2Q==".
Proof.
  apply (@line_determines_row 7 7 (lit "Which year is lowest?")
           (lit "Which year is lowest?") (lit "2019") (lit "2019")
           (lit "/9gQIDD/2Q==") (lit "/9gQIDD/2Q=="));
    solve [apply wf_str_forallb; reflexivity | reflexivity].
Defined.
